(** * Swap-cycle volume bots: a shallow embedding and its properties

    The repository holds three scripts, [polygon-bot/volume_bot.py],
    [solana-bot/volume_bot.py] and [solana-bot-ultra/volume_bot.py].  Each one
    swaps a stablecoin A into a stablecoin B and back, a fixed number of
    times, and keeps running statistics on the bot object.

    The embedding follows the scripts:
    - a Python [float] is a binary64 number, Rocq's primitive [float];
      Python's unbounded [int] is [Z];
    - the attributes of the bot object are a record, threaded through every
      method together with the state of the outside world;
    - the chain RPC and the aggregator's HTTP API are an interface ([Class])
      over an arbitrary type of worlds: every call takes the world and
      returns an answer and the next world, so that a theorem over all
      instances holds whatever the network answers;
    - a Python exception is the [Raise] outcome of a small state and
      exception monad; [try ... except Exception] is [try_except], and a
      call that the script makes outside any [try] raises out of the
      method;
    - what the scripts print or sleep on is recorded, where a property
      speaks about it, as an event of an output log.

    Left out of the embedding:
    - the narration that the scripts print, apart from the lines that a
      property speaks about: the errors, and the announcement of each swap
      with its size;
    - the [deadline] that the Polygon bot passes to the router, which is
      the clock plus ten minutes: the chain has it with the swap that it
      is sent;
    - the seconds that the confirmation loop counts: its rounds are the
      answers that the world gives until the time is out;
    - in the two Solana bots, the clock of [run]: [start_time], the
      duration and the rates of the report and of the progress lines.
      The Polygon bot reads the clock where the script does, and its
      rates raise on an elapsed time of zero;
    - the file that the report is written to: saving the report is an
      event of the output. *)

From Stdlib Require Import ZArith Arith List Bool String Lia Floats.
Import ListNotations.

Set Implicit Arguments.
Set Warnings "-inexact-float".
Set Warnings "-abstract-large-number".


(** ** Python numbers *)

Module Py.

Local Open Scope float_scope.

(** [x < y] on floats; false as soon as one side is NaN. *)
Definition lt (x y : float) : bool := PrimFloat.ltb x y.

(** [x > y]. *)
Definition gt (x y : float) : bool := PrimFloat.ltb y x.

(** [min(a, b)]: the builtin keeps its first argument unless a later one
    compares strictly smaller. *)
Definition min (a b : float) : float := if lt b a then b else a.

(** [bool(x)] of a float: everything but the two zeros is true. *)
Definition truthy (x : float) : bool := negb (PrimFloat.eqb x 0).

(** [int(x)]: truncation towards zero; [None] stands for the
    [ValueError] (NaN) or [OverflowError] (infinity) that Python raises. *)
Definition int_of_float (x : float) : option Z :=
  match Prim2SF x with
  | S754_zero _ => Some 0%Z
  | S754_finite s m e =>
      let a := match e with
               | Z0 => Zpos m
               | Zpos p => Z.shiftl (Zpos m) (Zpos p)
               | Zneg p => Z.shiftr (Zpos m) (Zpos p)
               end in
      Some (if s then Z.opp a else a)
  | S754_infinity _ | S754_nan => None
  end.

Definition finite_or_overflow (s : spec_float) : option float :=
  match s with
  | S754_infinity _ | S754_nan => None
  | _ => Some (SF2Prim s)
  end.

(** [float(n)], also the implicit conversion of an [int] operand next to
    a float one: round to nearest even, [OverflowError] beyond the
    range. *)
Definition float_of_int (n : Z) : option float :=
  finite_or_overflow (binary_normalize prec emax n 0 false).

Definition exact (n : Z) : spec_float :=
  match n with
  | Z0 => S754_zero false
  | Zpos p => S754_finite false p 0
  | Zneg p => S754_finite true p 0
  end.

(** [n / d] on two ints: the correctly rounded quotient;
    [ZeroDivisionError] and [OverflowError] are [None]. *)
Definition truediv_int (n d : Z) : option float :=
  if Z.eqb d 0 then None
  else finite_or_overflow (SFdiv prec emax (exact n) (exact d)).

(** [x / y] on floats: Python raises [ZeroDivisionError] on a zero
    divisor where IEEE would give an infinity or a NaN. *)
Definition truediv (x y : float) : option float :=
  if PrimFloat.eqb y 0 then None else Some (x / y).

(** [n / y] with an int on the left. *)
Definition truediv_int_float (n : Z) (y : float) : option float :=
  match float_of_int n with
  | Some x => truediv x y
  | None => None
  end.

(** [sum(xs)] of floats, from the left, as [total += x] accumulates. *)
Definition fsum (xs : list float) : float :=
  fold_left PrimFloat.add xs 0.

End Py.

(** ** State and exceptions *)

(** The outcome of a block of code: a value, or a raised exception.  The
    state is returned either way: an exception does not undo assignments. *)
Inductive outcome (A : Type) : Type :=
| Val (a : A)
| Raise.
Arguments Val {A} a.
Arguments Raise {A}.

Definition M (S A : Type) : Type := S -> outcome A * S.

Definition ret {S A} (a : A) : M S A := fun s => (Val a, s).

Definition raise {S A} : M S A := fun s => (Raise, s).

Definition bind {S A B} (m : M S A) (k : A -> M S B) : M S B :=
  fun s =>
    match m s with
    | (Val a, s') => k a s'
    | (Raise, s') => (Raise, s')
    end.

(** [try: body  except Exception: handler]. *)
Definition try_except {S A} (body handler : M S A) : M S A :=
  fun s =>
    match body s with
    | (Val a, s') => (Val a, s')
    | (Raise, s') => handler s'
    end.

Definition get {S} : M S S := fun s => (Val s, s).
Definition modify {S} (f : S -> S) : M S unit := fun s => (Val tt, f s).

(** An expression that either has a value or raises. *)
Definition must {S A} (o : option A) : M S A :=
  match o with
  | Some a => ret a
  | None => raise
  end.

Declare Scope py_scope.
Delimit Scope py_scope with py.
Notation "x <- m ;; k" := (bind m (fun x => k))
  (at level 100, m at next level, right associativity) : py_scope.
Notation "' p <- m ;; k" := (bind m (fun x => match x with p => k end))
  (at level 100, p pattern, m at next level, right associativity) : py_scope.
Notation "m ;;; k" := (bind m (fun _ => k))
  (at level 100, right associativity) : py_scope.

(** ** The bot, the world and the output *)

(** The state that every method runs in: the bot object, the outside
    world, and what was called, slept, printed and saved so far. *)
Record Sys (B W E : Type) : Type := {
  bot : B;
  world : W;
  output : list E
}.

Section Effects.

Context {B W E : Type}.

(** One more event of the output. *)
Definition emit (e : E) : M (Sys B W E) unit :=
  modify (fun s => {| bot := bot s; world := world s;
                      output := output s ++ [e] |}).

(** An outbound call: it is logged as [e], then answered by the world. *)
Definition outbound {A} (e : E) (f : W -> A * W) : M (Sys B W E) A :=
  fun s =>
    let (a, w) := f (world s) in
    (Val a, {| bot := bot s; world := w; output := output s ++ [e] |}).

(** An effect on the world that has no answer, as sleeping. *)
Definition pass (e : E) (f : W -> W) : M (Sys B W E) unit :=
  fun s =>
    (Val tt, {| bot := bot s; world := f (world s);
                output := output s ++ [e] |}).

(** A look at the world that leaves no trace, as reading the date. *)
Definition ask {A} (f : W -> A) : M (Sys B W E) A :=
  fun s => (Val (f (world s)), s).

(** A call that is answered by the world and moves it on, and that is
    not logged, as reading the clock: time passes between two reads. *)
Definition consult {A} (f : W -> A * W) : M (Sys B W E) A :=
  fun s =>
    let (a, w) := f (world s) in
    (Val a, {| bot := bot s; world := w; output := output s |}).

(** An assignment to attributes of the bot. *)
Definition update_bot (f : B -> B) : M (Sys B W E) unit :=
  modify (fun s => {| bot := f (bot s); world := world s;
                      output := output s |}).

End Effects.

(** ** Weakest preconditions *)

(** [wp m Q s]: run from [s], the block [m] ends with an outcome and in a
    state that [Q] holds of. *)
Definition wp {S A} (m : M S A) (Q : outcome A -> S -> Prop) (s : S) : Prop :=
  Q (fst (m s)) (snd (m s)).

(** The number of events of a kind in an output. *)
Definition count {E : Type} (p : E -> bool) (l : list E) : Z :=
  Z.of_nat (List.length (filter p l)).

(** ** The Polygon bot ([polygon-bot/volume_bot.py]) *)

Module Polygon.

Local Open Scope float_scope.

Definition USDC_ADDRESS : string := "0x2791Bca1f2de4661ED88A30C99A7a9449Aa84174".
Definition USDT_ADDRESS : string := "0xc2132D05D31c914a87C6611C10748AEb04B58e8F".
Definition QUICKSWAP_ROUTER : string := "0xa5E0829CaCEd8fFDD4De3c43696c57F7D7A678ff".

(** The fields of a transaction receipt that the bot reads. *)
Record Receipt : Type := {
  status : Z;
  gasUsed : Z;
  effectiveGasPrice : Z
}.

(** One entry of [self.transactions]. *)
Record SwapRecord : Type := {
  timestamp : string;
  tx_hash : string;
  from_token : string;
  to_token : string;
  amount_in : float;
  amount_out : float;
  gas_fee_matic : float
}.

(** The statistics attributes set by [__init__]; [start_time] is [None]
    until [run] reads the clock. *)
Record Bot : Type := {
  start_time : option float;
  total_volume : float;
  total_fees_paid : float;
  transaction_count : Z;
  transactions : list SwapRecord;
  initial_usdc_balance : float
}.

Definition init_bot : Bot :=
  {| start_time := None;
     total_volume := 0; total_fees_paid := 0; transaction_count := 0;
     transactions := []; initial_usdc_balance := 0 |}.

(** The [summary] and [transactions] of the JSON report. *)
Record Report : Type := {
  start_balance : float;
  final_balance : float;
  report_total_volume : float;
  report_transaction_count : Z;
  successful_cycles : Z;
  failed_cycles : Z;
  volume_multiplier : float;
  capital_loss_percentage : float;
  execution_time_seconds : float;
  tx_rate_per_minute : float;
  report_transactions : list SwapRecord
}.

(** Outbound calls. *)
Inductive call : Type :=
| CGetBalance (token : string)
| CGetMaticBalance
| CAllowance (token : string)
| CApprove (token : string)
| CGetAmountsOut (amount_in_wei : Z)
| CSendSwap (amount_in_wei min_amount_out : Z)
| CWaitReceipt (tx : string).

(** The error and warning lines the bot prints, and the line that
    announces each swap of a cycle with its size. *)
Inductive message : Type :=
| AmountTooSmall
| SwapReverted
| SwapError
| InsufficientStart
| LowMatic
| ApproveFailed (token : string)
| InsufficientBalance
| Swapping (amount : float) (token_in token_out : string)
| Swap1Failed
| Swap2Failed.

Inductive event : Type :=
| Called (c : call)
| Slept (secs : float)
| Printed (m : message)
| Saved (r : Report).

(** What the bot consumes from web3 and from the clock.  [None] is a
    raised exception: every call to the node can fail, those that the
    script makes inside a [try] and those that it makes outside any
    ([balanceOf], [get_balance], [allowance]). *)
Class Chain (World : Type) : Type := {
  (** [balanceOf(self.address).call() / (10 ** decimals)]: the holding
      in whole units. *)
  get_balance_rpc : string -> N -> World -> option float * World;
  (** [float(Web3.from_wei(w3.eth.get_balance(self.address), 'ether'))] *)
  get_matic_balance_rpc : World -> option float * World;
  (** [token.functions.allowance(self.address, spender).call()] *)
  allowance_rpc : string -> string -> World -> option Z * World;
  (** build, sign and send [approve(spender, 2**256 - 1)] *)
  send_approve : string -> string -> World -> option string * World;
  (** [router.functions.getAmountsOut(amount, path).call()[1]] *)
  getAmountsOut : Z -> string -> string -> World -> option Z * World;
  (** build, sign and send [swapExactTokensForTokens] *)
  send_swap : Z -> Z -> string -> string -> World -> option string * World;
  (** [wait_for_transaction_receipt(tx_hash, timeout=120)]; the timeout
      raises *)
  wait_for_transaction_receipt : string -> World -> option Receipt * World;
  (** [float(Web3.from_wei(wei, 'ether'))] *)
  from_wei_ether : Z -> option float;
  (** [datetime.now().isoformat()] *)
  now_isoformat : World -> string;
  (** [time.sleep(secs)] *)
  sleep_rpc : float -> World -> World;
  (** [time.time()] *)
  time_time : World -> float * World
}.

Section Bot.

Context {World : Type} `{Chain World}.

(** The state of a run: this bot, the world, the events. *)
Definition St : Type := Sys Bot World event.

Definition print (m : message) : M St unit := emit (Printed m).

Definition rpc {A} (c : call) (f : World -> A * World) : M St A :=
  outbound (Called c) f.

Definition sleep (secs : float) : M St unit :=
  pass (Slept secs) (sleep_rpc secs).

Definition now : M St string := ask now_isoformat.

Definition clock : M St float := consult time_time.

Local Open Scope py_scope.

(** No [try] around the call: what it raises leaves the method. *)
Definition get_balance (token : string) (decimals : N) : M St float :=
  got <- rpc (CGetBalance token) (get_balance_rpc token decimals) ;;
  must got.

Definition get_matic_balance : M St float :=
  got <- rpc CGetMaticBalance get_matic_balance_rpc ;;
  must got.

Definition approve_token (token spender : string) : M St bool :=
  got <- rpc (CAllowance token) (allowance_rpc token spender) ;;
  allowance <- must got ;;
  if (allowance >? 0)%Z then ret true
  else
    try_except
      (sent <- rpc (CApprove token) (send_approve token spender) ;;
       tx <- must sent ;;
       got <- rpc (CWaitReceipt tx) (wait_for_transaction_receipt tx) ;;
       receipt <- must got ;;
       if (status receipt =? 1)%Z then ret true else ret false)
      (ret false).

(** The statistics update and the record of a confirmed swap. *)
Definition record_swap (r : SwapRecord) (b : Bot) : Bot :=
  {| start_time := start_time b;
     total_volume := total_volume b + amount_in r;
     total_fees_paid := total_fees_paid b + gas_fee_matic r;
     transaction_count := transaction_count b + 1;
     transactions := transactions b ++ [r];
     initial_usdc_balance := initial_usdc_balance b |}.

Definition swap_tokens (token_in token_out : string) (amount : float)
    (decimals_in decimals_out : N) (slippage_percent : float)
  : M St (option (string * float * float)) :=
  try_except
    (scale <- must (Py.float_of_int (10 ^ Z.of_N decimals_in)) ;;
     amount_in_wei <- must (Py.int_of_float (amount * scale)) ;;
     if (amount_in_wei =? 0)%Z then
       print AmountTooSmall ;;; ret None
     else
       quoted <- rpc (CGetAmountsOut amount_in_wei)
                     (getAmountsOut amount_in_wei token_in token_out) ;;
       expected_out <- must quoted ;;
       expected <- must (Py.float_of_int expected_out) ;;
       min_amount_out <-
         must (Py.int_of_float (expected * (1 - slippage_percent / 100))) ;;
       sent <- rpc (CSendSwap amount_in_wei min_amount_out)
                   (send_swap amount_in_wei min_amount_out token_in token_out) ;;
       tx <- must sent ;;
       got <- rpc (CWaitReceipt tx) (wait_for_transaction_receipt tx) ;;
       receipt <- must got ;;
       if negb (status receipt =? 1)%Z then
         print SwapReverted ;;; ret None
       else
         gas_fee <- must (from_wei_ether
                            (gasUsed receipt * effectiveGasPrice receipt)) ;;
         out <- must (Py.truediv_int expected_out (10 ^ Z.of_N decimals_out)) ;;
         stamp <- now ;;
         update_bot (record_swap
           {| timestamp := stamp; tx_hash := tx;
              from_token := token_in; to_token := token_out;
              amount_in := amount; amount_out := out;
              gas_fee_matic := gas_fee |}) ;;;
         ret (Some (tx, out, gas_fee)))
    (print SwapError ;;; ret None).

(** The size of the first leg (line 382) and of the second (line 405). *)
Definition leg1_amount (use_full_balance : bool) (fixed_amount usdc_balance : float)
  : float :=
  if use_full_balance then usdc_balance else Py.min fixed_amount usdc_balance.

Definition leg2_amount (usdt_balance : float) : float := usdt_balance * 0.99.

(** [count / elapsed * 60], with an int on the left: a zero [elapsed]
    raises [ZeroDivisionError]. *)
Definition rate_per_minute (count : Z) (elapsed : float) : option float :=
  match Py.truediv_int_float count elapsed with
  | Some per_second => Some (per_second * 60)
  | None => None
  end.

(** The progress line of every tenth iteration (lines 425-428): the
    clock is read and the rate is computed; the line itself is
    narration. *)
Definition progress (i : Z) : M St unit :=
  if ((i + 1) mod 10 =? 0)%Z then
    t <- clock ;;
    s <- get ;;
    started <- must (start_time (bot s)) ;;
    let elapsed := t - started in
    _ <- must (rate_per_minute (transaction_count (bot s)) elapsed) ;;
    ret tt
  else ret tt.

(** The iteration [i] of the loop; [true] when the cycle counts as
    successful, [false] at each [continue]. *)
Definition cycle (i : Z) (use_full_balance : bool) (fixed_amount : float)
  : M St bool :=
  usdc_balance <- get_balance USDC_ADDRESS 6 ;;
  if Py.lt usdc_balance 0.1 then
    print InsufficientBalance ;;; ret false
  else
    let swap_amount := leg1_amount use_full_balance fixed_amount usdc_balance in
    print (Swapping swap_amount USDC_ADDRESS USDT_ADDRESS) ;;;
    result <- swap_tokens USDC_ADDRESS USDT_ADDRESS swap_amount 6 6 5 ;;
    match result with
    | None => print Swap1Failed ;;; ret false
    | Some _ =>
        sleep 3 ;;;
        usdt_balance <- get_balance USDT_ADDRESS 6 ;;
        let swap_amount := leg2_amount usdt_balance in
        print (Swapping swap_amount USDT_ADDRESS USDC_ADDRESS) ;;;
        result <- swap_tokens USDT_ADDRESS USDC_ADDRESS swap_amount 6 6 5 ;;
        match result with
        | None => print Swap2Failed ;;; ret false
        | Some _ => progress i ;;; sleep 2 ;;; ret true
        end
    end.

(** The [n] iterations of [for i in range(num_cycles)] that start at
    [i], with the two counters. *)
Fixpoint cycles (n : nat) (i : Z) (use_full_balance : bool) (fixed_amount : float)
    (successful failed : Z) : M St (Z * Z) :=
  match n with
  | O => ret (successful, failed)
  | S n' =>
      ok <- cycle i use_full_balance fixed_amount ;;
      if ok
      then cycles n' (i + 1) use_full_balance fixed_amount (successful + 1) failed
      else cycles n' (i + 1) use_full_balance fixed_amount successful (failed + 1)
  end.

(** The [results] that [_generate_report] writes (lines 443-445 and
    476-493), from the bot, the two counters, the final balance of A,
    the duration and the rate. *)
Definition report_of (b : Bot) (successful failed : Z)
    (final_usdc duration rate : float) : Report :=
  let capital_lost := initial_usdc_balance b - final_usdc in
  let positive := Py.gt (initial_usdc_balance b) 0 in
  {| start_balance := initial_usdc_balance b;
     final_balance := final_usdc;
     report_total_volume := total_volume b;
     report_transaction_count := transaction_count b;
     successful_cycles := successful;
     failed_cycles := failed;
     volume_multiplier :=
       if positive then total_volume b / initial_usdc_balance b else 0;
     capital_loss_percentage :=
       if positive then capital_lost / initial_usdc_balance b * 100 else 0;
     execution_time_seconds := duration;
     tx_rate_per_minute := rate;
     report_transactions := transactions b |}.

(** The duration is taken first; the rate is computed for the summary
    that is printed, before the file is written. *)
Definition _generate_report (successful failed : Z) : M St unit :=
  t <- clock ;;
  s0 <- get ;;
  started <- must (start_time (bot s0)) ;;
  let duration := t - started in
  final_usdc <- get_balance USDC_ADDRESS 6 ;;
  _ <- get_balance USDT_ADDRESS 6 ;;
  _ <- get_matic_balance ;;
  s <- get ;;
  rate <- must (rate_per_minute (transaction_count (bot s)) duration) ;;
  emit (Saved (report_of (bot s) successful failed final_usdc duration rate)).

Definition set_start_time (t : float) (b : Bot) : Bot :=
  {| start_time := Some t;
     total_volume := total_volume b;
     total_fees_paid := total_fees_paid b;
     transaction_count := transaction_count b;
     transactions := transactions b;
     initial_usdc_balance := initial_usdc_balance b |}.

Definition set_initial_usdc_balance (x : float) (b : Bot) : Bot :=
  {| start_time := start_time b;
     total_volume := total_volume b;
     total_fees_paid := total_fees_paid b;
     transaction_count := transaction_count b;
     transactions := transactions b;
     initial_usdc_balance := x |}.

Definition run (num_cycles : Z) (use_full_balance : bool) (fixed_amount : float)
  : M St unit :=
  usdc_balance <- get_balance USDC_ADDRESS 6 ;;
  _ <- get_balance USDT_ADDRESS 6 ;;
  matic_balance <- get_matic_balance ;;
  if Py.lt usdc_balance 1 then print InsufficientStart
  else
    (if Py.lt matic_balance 0.5 then print LowMatic else ret tt) ;;;
    update_bot (set_initial_usdc_balance usdc_balance) ;;;
    ok <- approve_token USDC_ADDRESS QUICKSWAP_ROUTER ;;
    if negb ok then print (ApproveFailed USDC_ADDRESS)
    else
      ok <- approve_token USDT_ADDRESS QUICKSWAP_ROUTER ;;
      if negb ok then print (ApproveFailed USDT_ADDRESS)
      else
        t <- clock ;;
        update_bot (set_start_time t) ;;;
        ' (successful, failed) <-
            cycles (Z.to_nat num_cycles) 0 use_full_balance fixed_amount 0 0 ;;
        _generate_report successful failed.

(** *** What the statements are about *)

(** How the bot object changes: by the statistics update of a
    confirmed swap, or by the assignment of the starting balance or of
    the starting time; [grows b b'] when [b'] comes from [b] by such
    steps. *)
Inductive grows (b : Bot) : Bot -> Prop :=
| grows_refl : grows b b
| grows_swap b' r : grows b b' -> grows b (record_swap r b')
| grows_initial b' x : grows b b' -> grows b (set_initial_usdc_balance x b')
| grows_started b' t : grows b b' -> grows b (set_start_time t b').

(** The counter is the number of records. *)
Definition counted (b : Bot) : Prop :=
  transaction_count b = Z.of_nat (List.length (transactions b)).

(** The volume is the sum of the input amounts of the records. *)
Definition summed (b : Bot) : Prop :=
  total_volume b = Py.fsum (map amount_in (transactions b)).

(** The events that a swap call may add to the output. *)
Definition swap_event (e : event) : bool :=
  match e with
  | Called (CGetAmountsOut _) | Called (CSendSwap _ _)
  | Called (CWaitReceipt _) => true
  | Printed AmountTooSmall | Printed SwapReverted | Printed SwapError => true
  | _ => false
  end.

(** The events that an iteration of the loop may add. *)
Definition cycle_event (e : event) : bool :=
  match e with
  | Called (CGetBalance _) | Slept _ => true
  | Printed InsufficientBalance | Printed Swap1Failed | Printed Swap2Failed => true
  | Printed (Swapping _ _ _) => true
  | _ => swap_event e
  end.

(** A cycle whose first leg was recorded and whose second leg failed
    shows as this line. *)
Definition partial_leg (e : event) : bool :=
  match e with Printed Swap2Failed => true | _ => false end.

(** The query of the balance of A: an iteration of the loop makes it
    once, when it begins. *)
Definition usdc_queried (e : event) : bool :=
  match e with
  | Called (CGetBalance token) => String.eqb token USDC_ADDRESS
  | _ => false
  end.

(** The queries of the balances. *)
Definition query_event (e : event) : bool :=
  match e with
  | Called (CGetBalance _) | Called CGetMaticBalance => true
  | _ => false
  end.

(** The events of [run] before its loop. *)
Definition startup_event (e : event) : bool :=
  match e with
  | Called (CGetBalance _) | Called CGetMaticBalance => true
  | Called (CAllowance _) | Called (CApprove _) | Called (CWaitReceipt _) => true
  | Printed LowMatic => true
  | _ => false
  end.

(** The calls of [approve_token]. *)
Definition approve_event (e : event) : bool :=
  match e with
  | Called (CAllowance _) | Called (CApprove _) | Called (CWaitReceipt _) => true
  | _ => false
  end.

Definition saved (e : event) : bool :=
  match e with Saved _ => true | _ => false end.

(** The reports saved in an output. *)
Fixpoint reports (evs : list event) : list Report :=
  match evs with
  | [] => []
  | Saved r :: evs' => r :: reports evs'
  | _ :: evs' => reports evs'
  end.

(** What holds after [swap_tokens]: it does not raise; it only adds
    events of a swap; and either it returns [None] and the bot is as
    before, or it returns the tuple of a swap that it has recorded. *)
Definition swap_post (token_in token_out : string) (amount : float) (s : St)
    (o : outcome (option (string * float * float))) (s' : St) : Prop :=
  exists evs,
    output s' = output s ++ evs /\
    forallb swap_event evs = true /\
    match o with
    | Raise => False
    | Val None => bot s' = bot s
    | Val (Some (tx, out, fee)) =>
        bot s' =
        record_swap {| timestamp := now_isoformat (world s'); tx_hash := tx;
                       from_token := token_in; to_token := token_out;
                       amount_in := amount; amount_out := out;
                       gas_fee_matic := fee |} (bot s)
    end.

(** What a query of the balance of [token] made in the state [s] gets;
    [None] when the query raises. *)
Definition balance_seen (token : string) (s : St) : option float :=
  fst (get_balance_rpc token 6 (world s)).

(** No swap ever succeeds. *)
Definition gateway_down : Prop :=
  forall token_in token_out amount decimals_in decimals_out slippage (s : St),
    fst (swap_tokens token_in token_out amount decimals_in decimals_out
                     slippage s) = Val None.


(** One of the queries that the script makes outside any [try] raises
    in some world. *)
Definition query_raised : Prop :=
  (exists token decimals w, fst (get_balance_rpc token decimals w) = None) \/
  (exists w, fst (get_matic_balance_rpc w) = None) \/
  (exists token spender w, fst (allowance_rpc token spender w) = None).

(** [self.transaction_count / (t - self.start_time) * 60] in the bot
    [b]: [None] when the run has not started, or when no time has
    passed since it did. *)
Definition rate_since (b : Bot) (t : float) : option float :=
  match start_time b with
  | Some started => rate_per_minute (transaction_count b) (t - started)
  | None => None
  end.

(** The rate cannot be computed in the bot [b] at the time that the
    clock gives in some world. *)
Definition rate_raised (b : Bot) : Prop :=
  exists w, rate_since b (fst (time_time w)) = None.

(** The swaps announced in an output, in order: the two tokens and
    the size. *)
Fixpoint announced (evs : list event) : list (string * string * float) :=
  match evs with
  | [] => []
  | Printed (Swapping amount token_in token_out) :: evs' =>
      (token_in, token_out, amount) :: announced evs'
  | _ :: evs' => announced evs'
  end.

(** The size of the first leg of a cycle started in [s], when the
    balance of A can be read. *)
Definition first_leg_size (full : bool) (fixed : float) (s : St) : option float :=
  option_map (leg1_amount full fixed) (balance_seen USDC_ADDRESS s).

(** The state in which the first swap of a cycle started in [s] is
    called: the balance of A was queried and the swap announced with
    its size. *)
Definition at_first_leg (size : float) (s : St) : St :=
  snd (print (Swapping size USDC_ADDRESS USDT_ADDRESS)
             (snd (get_balance USDC_ADDRESS 6 s))).

(** The first swap of a cycle started in [s] has returned [result] in
    the state [s1]. *)
Definition first_leg_returned (full : bool) (fixed : float) (s : St)
    (result : string * float * float) (s1 : St) : Prop :=
  exists size,
    first_leg_size full fixed s = Some size /\
    swap_tokens USDC_ADDRESS USDT_ADDRESS size 6 6 5 (at_first_leg size s)
    = (Val (Some result), s1).

(** The size of the second leg when the first has returned in [s1]:
    from the balance of B queried after the pause. *)
Definition second_leg_size (s1 : St) : option float :=
  option_map leg2_amount (balance_seen USDT_ADDRESS (snd (sleep 3 s1))).

(** [r1] is the record of the first leg of a cycle started in [s], and
    [s1] the state in which that swap has returned. *)
Definition first_leg (full : bool) (fixed : float) (s : St) (r1 : SwapRecord)
    (s1 : St) : Prop :=
  first_leg_size full fixed s = Some (amount_in r1) /\
  first_leg_returned full fixed s (tx_hash r1, amount_out r1, gas_fee_matic r1) s1.

(** [r2] is the record of a second leg whose first leg has returned
    in [s1]. *)
Definition second_leg (s1 : St) (r2 : SwapRecord) : Prop :=
  second_leg_size s1 = Some (amount_in r2).

(** The swaps that a cycle started in [s] announces: none; or the
    first leg, of A into B; or the first leg and then, the first swap
    having returned, the second leg, of B into A. *)
Definition legs_announced (full : bool) (fixed : float) (s : St)
    (evs : list event) : Prop :=
  announced evs = []
  \/
  (exists size,
     first_leg_size full fixed s = Some size /\
     announced evs = [(USDC_ADDRESS, USDT_ADDRESS, size)])
  \/
  exists size result s1 size',
    first_leg_size full fixed s = Some size /\
    first_leg_returned full fixed s result s1 /\
    second_leg_size s1 = Some size' /\
    announced evs
    = [(USDC_ADDRESS, USDT_ADDRESS, size); (USDT_ADDRESS, USDC_ADDRESS, size')].

(** What holds after one iteration.  A successful cycle has recorded
    two swaps; a failed one has recorded one, when it printed that the
    second swap failed, and none otherwise.  The iteration raises where
    the script has no [try]: at the query of the balance of A; at the
    query of the balance of B, the first swap being recorded; at the
    rate of the progress line, both swaps being recorded. *)
Definition cycle_post (i : Z) (full : bool) (fixed : float) (s : St)
    (o : outcome bool) (s' : St) : Prop :=
  exists evs,
    output s' = output s ++ evs /\
    forallb cycle_event evs = true /\
    count usdc_queried evs = 1%Z /\
    grows (bot s) (bot s') /\
    start_time (bot s') = start_time (bot s) /\
    legs_announced full fixed s evs /\
    match o with
    | Val true =>
        transaction_count (bot s') = (transaction_count (bot s) + 2)%Z /\
        count partial_leg evs = 0%Z /\
        ~ gateway_down /\
        exists r1 r2 s1,
          transactions (bot s') = transactions (bot s) ++ [r1; r2] /\
          first_leg full fixed s r1 s1 /\ second_leg s1 r2
    | Val false =>
        transaction_count (bot s') =
          (transaction_count (bot s) + count partial_leg evs)%Z /\
        (count partial_leg evs <= 1)%Z /\
        (transactions (bot s') = transactions (bot s) \/
         exists r1 s1,
           transactions (bot s') = transactions (bot s) ++ [r1] /\
           first_leg full fixed s r1 s1)
    | Raise =>
        count partial_leg evs = 0%Z /\
        ((balance_seen USDC_ADDRESS s = None /\ bot s' = bot s)
         \/
         (exists r1 s1,
            transactions (bot s') = transactions (bot s) ++ [r1] /\
            transaction_count (bot s') = (transaction_count (bot s) + 1)%Z /\
            first_leg full fixed s r1 s1 /\
            balance_seen USDT_ADDRESS (snd (sleep 3 s1)) = None)
         \/
         (exists r1 r2 s1,
            transactions (bot s') = transactions (bot s) ++ [r1; r2] /\
            transaction_count (bot s') = (transaction_count (bot s) + 2)%Z /\
            first_leg full fixed s r1 s1 /\ second_leg s1 r2 /\
            ((i + 1) mod 10 = 0)%Z /\
            rate_raised (bot s') /\
            ~ gateway_down))
    end.

(** What holds after [n] iterations started with the counters at
    [successful] and [failed]: they have all been made, unless one of
    them raised. *)
Definition cycles_post (n : nat) (successful failed : Z) (s : St)
    (o : outcome (Z * Z)) (s' : St) : Prop :=
  exists evs,
    output s' = output s ++ evs /\
    forallb cycle_event evs = true /\
    grows (bot s) (bot s') /\
    start_time (bot s') = start_time (bot s) /\
    match o with
    | Val (successful', failed') =>
        (successful <= successful')%Z /\ (failed <= failed')%Z /\
        ((successful' - successful) + (failed' - failed) = Z.of_nat n)%Z /\
        count usdc_queried evs = Z.of_nat n /\
        transaction_count (bot s') =
          (transaction_count (bot s) + 2 * (successful' - successful)
           + count partial_leg evs)%Z /\
        (count partial_leg evs <= failed' - failed)%Z /\
        (gateway_down -> successful' = successful)
    | Raise =>
        (1 <= count usdc_queried evs <= Z.of_nat n)%Z /\
        (query_raised \/ (rate_raised (bot s') /\ ~ gateway_down))
    end.

(** [run] has stopped before the loop on the line [m]: the starting
    balance was below 1, or it was not and the allowance of a token
    was not positive. *)
Definition startup_stop (s : St) (m : message) : Prop :=
  (m = InsufficientStart /\
   exists balance,
     balance_seen USDC_ADDRESS s = Some balance /\ Py.lt balance 1 = true)
  \/
  (exists token,
     m = ApproveFailed token /\
     (exists balance,
        balance_seen USDC_ADDRESS s = Some balance /\ Py.lt balance 1 = false) /\
     exists w allowance,
       fst (allowance_rpc token QUICKSWAP_ROUTER w) = Some allowance /\
       (allowance <= 0)%Z).

(** What holds after [run].  When it returns, it has stopped on a
    start-up error, without a report, or it has gone through all the
    cycles and saved the report last.  When it raises, it has saved
    no report. *)
Definition run_post (num_cycles : Z) (s : St) (o : outcome unit) (s' : St) : Prop :=
  exists evs,
    output s' = output s ++ evs /\
    grows (bot s) (bot s') /\
    match o with
    | Val tt =>
        (count saved evs = 0%Z /\
         transaction_count (bot s') = transaction_count (bot s) /\
         count usdc_queried evs = 1%Z /\
         exists evs' m, evs = evs' ++ [Printed m] /\ startup_stop s m)
        \/
        (exists evs' r,
           evs = evs' ++ [Saved r] /\
           count saved evs' = 0%Z /\
           (0 <= successful_cycles r)%Z /\ (0 <= failed_cycles r)%Z /\
           (successful_cycles r + failed_cycles r = Z.max 0 num_cycles)%Z /\
           count usdc_queried evs = (Z.max 0 num_cycles + 2)%Z /\
           (exists final_usdc duration rate,
              r = report_of (bot s') (successful_cycles r) (failed_cycles r)
                            final_usdc duration rate) /\
           transaction_count (bot s') =
             (transaction_count (bot s) + 2 * successful_cycles r
              + count partial_leg evs)%Z /\
           (0 <= count partial_leg evs <= failed_cycles r)%Z /\
           (exists balance,
              balance_seen USDC_ADDRESS s = Some balance /\
              Py.lt balance 1 = false) /\
           (gateway_down -> successful_cycles r = 0%Z))
    | Raise =>
        count saved evs = 0%Z /\
        (query_raised \/ rate_raised (bot s'))
    end.

End Bot.

End Polygon.

(** ** The Solana bot ([solana-bot/volume_bot.py]) *)

(** What [get_token_account_balance] answers: it raises, or the response
    has no value, or it carries a [ui_amount], possibly [None]. *)
Inductive balance_reply : Type :=
| BalanceRaised
| BalanceNoValue
| BalanceUi (ui_amount : option float).

(** What [send_raw_transaction] answers: it raises, or the response has an
    empty value, or it carries the signature. *)
Inductive send_reply : Type :=
| SendRaised
| SendNoValue
| SendSignature (signature : string).

(** What [get_transaction] answers for a confirmed signature: it raises,
    or there is no value or no meta, or the meta carries the fee. *)
Inductive tx_reply : Type :=
| TxRaised
| TxNoMeta
| TxFee (fee_lamports : Z).

(** One round of the confirmation loop: [get_signature_statuses] raises,
    or shows no confirmation status yet, or shows one, and then
    [get_transaction] is asked. *)
Inductive poll_reply : Type :=
| PollRaised
| PollPending
| PollConfirmed (tx : tx_reply).

Module Solana.

Local Open Scope float_scope.

Definition USDC_MINT : string := "EPjFWdd5AufqSSqeM2qN1xzybapC8G4wEGGkZwyTDt1v".
Definition USDT_MINT : string := "Es9vMFrzaCERmJfrF4H2FYD4KCoNkY11McCe8BenwNYB".

(** One entry of [self.transactions]. *)
Record SwapRecord : Type := {
  timestamp : string;
  signature : string;
  from_token : string;
  to_token : string;
  amount_in : float;
  amount_out : float;
  fee_sol : float
}.

Record Bot : Type := {
  total_volume : float;
  total_fees_paid : float;
  transaction_count : Z;
  transactions : list SwapRecord;
  initial_usdc_balance : float
}.

Definition init_bot : Bot :=
  {| total_volume := 0; total_fees_paid := 0; transaction_count := 0;
     transactions := []; initial_usdc_balance := 0 |}.

Record Report : Type := {
  start_balance : float;
  final_balance : float;
  report_total_volume : float;
  report_transaction_count : Z;
  successful_cycles : Z;
  failed_cycles : Z;
  volume_multiplier : float;
  capital_loss_percentage : float;
  report_transactions : list SwapRecord
}.

Inductive call : Type :=
| CTokenBalance (mint : string)
| CSolBalance
| CQuote (input_mint output_mint : string) (amount_lamports : Z)
| CSwapTransaction
| CSendRaw
| CAwaitConfirmation (signature : string).

Inductive message : Type :=
| AmountTooSmall
| SendFailed
| ConfirmationTimeout (signature : string)
| SwapError
| SolBalanceError
| InsufficientStart
| LowSol
| InsufficientBalance
| Swapping (amount : float) (input_mint output_mint : string)
| Swap1Failed
| Swap2Failed.

Inductive event : Type :=
| Called (c : call)
| Slept (secs : float)
| Printed (m : message)
| Saved (r : Report).

(** What the bot consumes from the Solana RPC client and from the
    Jupiter HTTP API.  [None] is a raised exception. *)
Class Gateway (World : Type) : Type := {
  (** [client.get_token_account_balance(ata)] *)
  get_token_account_balance : string -> World -> balance_reply * World;
  (** [client.get_balance(pubkey).value], in lamports *)
  get_balance_lamports : World -> option Z * World;
  (** GET [/quote], [raise_for_status], [json] and
      [int(quote_data['outAmount'])] *)
  jupiter_quote : string -> string -> Z -> Z -> World -> option Z * World;
  (** POST [/swap], then decoding, deserialising and signing the
      transaction: the bytes to send *)
  jupiter_swap_transaction : World -> option string * World;
  (** [client.send_raw_transaction(tx_bytes)] *)
  send_raw_transaction : string -> World -> send_reply * World;
  (** The confirmation loop's rounds: what the successive polls of the
      signature answer while [time.time() - start_time < timeout], one
      every [pause] seconds, and the world when the loop is left. *)
  confirmation_polls : string -> float -> float -> World -> list poll_reply * World;
  (** [datetime.now().isoformat()] *)
  now_isoformat : World -> string;
  (** [time.sleep(secs)] *)
  sleep_rpc : float -> World -> World
}.

Section Bot.

Context {World : Type} `{Gateway World}.

(** The state of a run: this bot, the world, the events. *)
Definition St : Type := Sys Bot World event.

Definition print (m : message) : M St unit := emit (Printed m).

Definition rpc {A} (c : call) (f : World -> A * World) : M St A :=
  outbound (Called c) f.

Definition sleep (secs : float) : M St unit :=
  pass (Slept secs) (sleep_rpc secs).

Definition now : M St string := ask now_isoformat.

Local Open Scope py_scope.

Definition get_token_balance (mint : string) : M St float :=
  reply <- rpc (CTokenBalance mint) (get_token_account_balance mint) ;;
  match reply with
  | BalanceRaised => ret 0
  | BalanceNoValue => ret 0
  | BalanceUi None => ret 0
  | BalanceUi (Some ui_amount) =>
      ret (if Py.truthy ui_amount then ui_amount else 0)
  end.

Definition get_sol_balance : M St float :=
  try_except
    (reply <- rpc CSolBalance get_balance_lamports ;;
     lamports <- must reply ;;
     must (Py.truediv_int_float lamports 1e9))
    (print SolBalanceError ;;; ret 0).

Definition record_swap (r : SwapRecord) (b : Bot) : Bot :=
  {| total_volume := total_volume b + amount_in r;
     total_fees_paid := total_fees_paid b + fee_sol r;
     transaction_count := transaction_count b + 1;
     transactions := transactions b ++ [r];
     initial_usdc_balance := initial_usdc_balance b |}.

(** The body of the confirmation loop's inner [try], for one round. *)
Definition confirmed_round (p : poll_reply) (sig input_mint output_mint : string)
    (amount expected_out : float) : M St (option (string * float * float)) :=
  match p with
  | PollRaised => raise
  | PollPending => ret None
  | PollConfirmed tx =>
      fee_lamports <- match tx with
                      | TxRaised => raise
                      | TxNoMeta => ret 5000%Z
                      | TxFee fee => ret fee
                      end ;;
      fee <- must (Py.truediv_int_float fee_lamports 1e9) ;;
      stamp <- now ;;
      update_bot (record_swap
        {| timestamp := stamp; signature := sig;
           from_token := input_mint; to_token := output_mint;
           amount_in := amount; amount_out := expected_out;
           fee_sol := fee |}) ;;;
      ret (Some (sig, expected_out, fee))
  end.

(** [while time.time() - start_time < timeout], one round per poll;
    [None] when the loop is left by its condition. *)
Fixpoint await_confirmation (polls : list poll_reply)
    (sig input_mint output_mint : string) (amount expected_out : float)
  : M St (option (string * float * float)) :=
  match polls with
  | [] => ret None
  | p :: rest =>
      done <- try_except
                (confirmed_round p sig input_mint output_mint amount expected_out)
                (ret None) ;;
      match done with
      | Some result => ret (Some result)
      | None =>
          await_confirmation rest sig input_mint output_mint amount expected_out
      end
  end.

Definition swap_tokens_jupiter (input_mint output_mint : string) (amount : float)
    (slippage_bps : Z) : M St (option (string * float * float)) :=
  try_except
    (amount_lamports <- must (Py.int_of_float (amount * 1e6)) ;;
     if (amount_lamports =? 0)%Z then
       print AmountTooSmall ;;; ret None
     else
       quoted <- rpc (CQuote input_mint output_mint amount_lamports)
                     (jupiter_quote input_mint output_mint amount_lamports
                                    slippage_bps) ;;
       expected_out_lamports <- must quoted ;;
       expected_out <- must (Py.truediv_int_float expected_out_lamports 1e6) ;;
       built <- rpc CSwapTransaction jupiter_swap_transaction ;;
       tx_bytes <- must built ;;
       response <- rpc CSendRaw (send_raw_transaction tx_bytes) ;;
       match response with
       | SendRaised => raise
       | SendNoValue => print SendFailed ;;; ret None
       | SendSignature sig =>
           polls <- rpc (CAwaitConfirmation sig)
                        (confirmation_polls sig 30 0.5) ;;
           done <- await_confirmation polls sig input_mint output_mint
                                      amount expected_out ;;
           match done with
           | Some result => ret (Some result)
           | None =>
               print (ConfirmationTimeout sig) ;;;
               ret (Some (sig, expected_out, 0.000005))
           end
       end)
    (print SwapError ;;; ret None).

Definition leg1_amount (use_full_balance : bool) (fixed_amount usdc_balance : float)
  : float :=
  if use_full_balance then usdc_balance else Py.min fixed_amount usdc_balance.

Definition leg2_amount (usdt_balance : float) : float := usdt_balance * 0.99.

Definition cycle (use_full_balance : bool) (fixed_amount : float) : M St bool :=
  usdc_balance <- get_token_balance USDC_MINT ;;
  if Py.lt usdc_balance 0.1 then
    print InsufficientBalance ;;; ret false
  else
    let swap_amount := leg1_amount use_full_balance fixed_amount usdc_balance in
    print (Swapping swap_amount USDC_MINT USDT_MINT) ;;;
    result <- swap_tokens_jupiter USDC_MINT USDT_MINT swap_amount 50 ;;
    match result with
    | None => print Swap1Failed ;;; ret false
    | Some _ =>
        sleep 2 ;;;
        usdt_balance <- get_token_balance USDT_MINT ;;
        let swap_amount := leg2_amount usdt_balance in
        print (Swapping swap_amount USDT_MINT USDC_MINT) ;;;
        result <- swap_tokens_jupiter USDT_MINT USDC_MINT swap_amount 50 ;;
        match result with
        | None => print Swap2Failed ;;; ret false
        | Some _ => sleep 1 ;;; ret true
        end
    end.

Fixpoint cycles (n : nat) (use_full_balance : bool) (fixed_amount : float)
    (successful failed : Z) : M St (Z * Z) :=
  match n with
  | O => ret (successful, failed)
  | S n' =>
      ok <- cycle use_full_balance fixed_amount ;;
      if ok then cycles n' use_full_balance fixed_amount (successful + 1) failed
      else cycles n' use_full_balance fixed_amount successful (failed + 1)
  end.

Definition _generate_report (successful failed : Z) : M St unit :=
  final_usdc <- get_token_balance USDC_MINT ;;
  _ <- get_token_balance USDT_MINT ;;
  _ <- get_sol_balance ;;
  s <- get ;;
  let b := bot s in
  let capital_lost := initial_usdc_balance b - final_usdc in
  let positive := Py.gt (initial_usdc_balance b) 0 in
  emit (Saved
    {| start_balance := initial_usdc_balance b;
       final_balance := final_usdc;
       report_total_volume := total_volume b;
       report_transaction_count := transaction_count b;
       successful_cycles := successful;
       failed_cycles := failed;
       volume_multiplier :=
         if positive then total_volume b / initial_usdc_balance b else 0;
       capital_loss_percentage :=
         if positive then capital_lost / initial_usdc_balance b * 100 else 0;
       report_transactions := transactions b |}).

Definition set_initial_usdc_balance (x : float) (b : Bot) : Bot :=
  {| total_volume := total_volume b;
     total_fees_paid := total_fees_paid b;
     transaction_count := transaction_count b;
     transactions := transactions b;
     initial_usdc_balance := x |}.

Definition run (num_cycles : Z) (use_full_balance : bool) (fixed_amount : float)
  : M St unit :=
  usdc_balance <- get_token_balance USDC_MINT ;;
  _ <- get_token_balance USDT_MINT ;;
  sol_balance <- get_sol_balance ;;
  if Py.lt usdc_balance 1 then print InsufficientStart
  else
    (if Py.lt sol_balance 0.01 then print LowSol else ret tt) ;;;
    update_bot (set_initial_usdc_balance usdc_balance) ;;;
    ' (successful, failed) <-
        cycles (Z.to_nat num_cycles) use_full_balance fixed_amount 0 0 ;;
    _generate_report successful failed.

(** *** What the statements are about *)

Inductive grows (b : Bot) : Bot -> Prop :=
| grows_refl : grows b b
| grows_swap b' r : grows b b' -> grows b (record_swap r b')
| grows_initial b' x : grows b b' -> grows b (set_initial_usdc_balance x b').

(** The counter is the number of records. *)
Definition counted (b : Bot) : Prop :=
  transaction_count b = Z.of_nat (List.length (transactions b)).

(** The volume is the sum of the input amounts of the records. *)
Definition summed (b : Bot) : Prop :=
  total_volume b = Py.fsum (map amount_in (transactions b)).

(** A block returns and the bot is as before. *)
Definition returns_same {A} (s : St) (o : outcome A) (s' : St) : Prop :=
  o <> Raise /\ bot s' = bot s.

(** A block returns and the bot has grown. *)
Definition returns_grown {A} (s : St) (o : outcome A) (s' : St) : Prop :=
  o <> Raise /\ grows (bot s) (bot s').

(** A poll that shows no confirmation. *)
Definition pending (p : poll_reply) : bool :=
  match p with
  | PollConfirmed _ => false
  | _ => true
  end.

(** The line printed when the confirmation loop is left by its
    condition. *)
Definition timed_out (e : event) : bool :=
  match e with Printed (ConfirmationTimeout _) => true | _ => false end.

(** What holds after the confirmation loop: it leaves the world and
    the output alone; it returns [None], the bot being as before, or
    the tuple of a confirmed swap that it has recorded. *)
Definition await_post (sig input_mint output_mint : string)
    (amount expected_out : float) (s : St)
    (o : outcome (option (string * float * float))) (s' : St) : Prop :=
  world s' = world s /\ output s' = output s /\
  match o with
  | Raise => False
  | Val None => bot s' = bot s
  | Val (Some (sig', out, fee)) =>
      sig' = sig /\ out = expected_out /\
      bot s' =
      record_swap {| timestamp := now_isoformat (world s); signature := sig;
                     from_token := input_mint; to_token := output_mint;
                     amount_in := amount; amount_out := expected_out;
                     fee_sol := fee |} (bot s)
  end.

(** What holds after [swap_tokens_jupiter]: it does not raise; it
    returns [None], the bot being as before; or the tuple of a swap
    that it has recorded; or, when the confirmation did not come in
    time, a tuple with the fee [0.000005], nothing being recorded. *)
Definition swap_post (input_mint output_mint : string) (amount : float) (s : St)
    (o : outcome (option (string * float * float))) (s' : St) : Prop :=
  exists evs,
    output s' = output s ++ evs /\
    match o with
    | Raise => False
    | Val None => bot s' = bot s /\ count timed_out evs = 0%Z
    | Val (Some (sig, out, fee)) =>
        (count timed_out evs = 0%Z /\
         bot s' =
         record_swap {| timestamp := now_isoformat (world s'); signature := sig;
                        from_token := input_mint; to_token := output_mint;
                        amount_in := amount; amount_out := out;
                        fee_sol := fee |} (bot s))
        \/
        (bot s' = bot s /\ fee = 0.000005 /\
         exists evs', evs = evs' ++ [Printed (ConfirmationTimeout sig)] /\
                      count timed_out evs' = 0%Z)
    end.

End Bot.

End Solana.

(** ** The ultra-optimised Solana bot ([solana-bot-ultra/volume_bot.py]) *)

Module SolanaUltra.

Local Open Scope float_scope.

Definition USDC_MINT : string := "EPjFWdd5AufqSSqeM2qN1xzybapC8G4wEGGkZwyTDt1v".
Definition USDCE_MINT : string := "A9mUU4qviSctJVPJdBJW3qp3HnZ1utdhKi1Qpr4BWK5r".

(** One entry of [self.transactions]. *)
Record SwapRecord : Type := {
  timestamp : string;
  signature : string;
  from_token : string;
  to_token : string;
  amount_in : float;
  amount_out : float;
  fee_sol : float;
  priority_fee_sol : float;
  attempt : Z
}.

(** The attributes set by [__init__]: the retry configuration, the
    priority fee and the statistics. *)
Record Bot : Type := {
  priority_fee : Z;
  max_retries : Z;
  retry_delay : float;
  total_volume : float;
  total_fees_paid : float;
  total_priority_fees : float;
  transaction_count : Z;
  transactions : list SwapRecord;
  initial_usdc_balance : float;
  retry_count : Z
}.

Definition init_bot (priority_fee : Z) : Bot :=
  {| priority_fee := priority_fee;
     max_retries := 3;
     retry_delay := 0.5;
     total_volume := 0; total_fees_paid := 0; total_priority_fees := 0;
     transaction_count := 0; transactions := [];
     initial_usdc_balance := 0; retry_count := 0 |}.

Record Report : Type := {
  start_balance : float;
  final_balance : float;
  report_total_volume : float;
  report_transaction_count : Z;
  successful_cycles : Z;
  failed_cycles : Z;
  volume_multiplier : float;
  capital_loss_percentage : float;
  report_retry_count : Z;
  priority_fee_lamports : Z;
  total_priority_fees_sol : float;
  improvement_vs_standard : float;
  report_transactions : list SwapRecord
}.

Inductive call : Type :=
| CTokenBalance (mint : string)
| CSolBalance
| CQuote (input_mint output_mint : string) (amount_lamports : Z)
| CSwapTransaction
| CSendRaw
| CAwaitConfirmation (signature : string).

Inductive message : Type :=
| AmountTooSmall
| AttemptFailed (attempt : Z)
| SwapFailedAfter (attempts : Z)
| SolBalanceError
| InsufficientStart
| TightSol
| InsufficientBalance
| Swapping (amount : float) (input_mint output_mint : string)
| Swap1Failed
| Swap2Failed.

Inductive event : Type :=
| Called (c : call)
| Slept (secs : float)
| Printed (m : message)
| Saved (r : Report).

(** The same collaborators as the original Solana bot; the swap request
    carries the priority fee. *)
Class Gateway (World : Type) : Type := {
  get_token_account_balance : string -> World -> balance_reply * World;
  get_balance_lamports : World -> option Z * World;
  jupiter_quote : string -> string -> Z -> Z -> World -> option Z * World;
  jupiter_swap_transaction : Z -> World -> option string * World;
  send_raw_transaction : string -> World -> send_reply * World;
  confirmation_polls : string -> float -> float -> World -> list poll_reply * World;
  now_isoformat : World -> string;
  sleep_rpc : float -> World -> World
}.

(** How a [try] statement inside a loop hands control on: by a [return]
    of the function, or by falling through to the next iteration. *)
Inductive flow (A : Type) : Type :=
| Return (a : A)
| Continue.
Arguments Return {A} a.
Arguments Continue {A}.

Section Bot.

Context {World : Type} `{Gateway World}.

(** The state of a run: this bot, the world, the events. *)
Definition St : Type := Sys Bot World event.

Definition print (m : message) : M St unit := emit (Printed m).

Definition rpc {A} (c : call) (f : World -> A * World) : M St A :=
  outbound (Called c) f.

Definition sleep (secs : float) : M St unit :=
  pass (Slept secs) (sleep_rpc secs).

Definition now : M St string := ask now_isoformat.

Local Open Scope py_scope.

Definition get_token_balance (mint : string) : M St float :=
  reply <- rpc (CTokenBalance mint) (get_token_account_balance mint) ;;
  match reply with
  | BalanceRaised => ret 0
  | BalanceNoValue => ret 0
  | BalanceUi None => ret 0
  | BalanceUi (Some ui_amount) =>
      ret (if Py.truthy ui_amount then ui_amount else 0)
  end.

Definition get_sol_balance : M St float :=
  try_except
    (reply <- rpc CSolBalance get_balance_lamports ;;
     lamports <- must reply ;;
     must (Py.truediv_int_float lamports 1e9))
    (print SolBalanceError ;;; ret 0).

Definition record_swap (r : SwapRecord) (b : Bot) : Bot :=
  {| priority_fee := priority_fee b;
     max_retries := max_retries b;
     retry_delay := retry_delay b;
     total_volume := total_volume b + amount_in r;
     total_fees_paid := total_fees_paid b + fee_sol r;
     total_priority_fees := total_priority_fees b + priority_fee_sol r;
     transaction_count := transaction_count b + 1;
     transactions := transactions b ++ [r];
     initial_usdc_balance := initial_usdc_balance b;
     retry_count := retry_count b |}.

(** [self.retry_count += 1] *)
Definition count_retry (b : Bot) : Bot :=
  {| priority_fee := priority_fee b;
     max_retries := max_retries b;
     retry_delay := retry_delay b;
     total_volume := total_volume b;
     total_fees_paid := total_fees_paid b;
     total_priority_fees := total_priority_fees b;
     transaction_count := transaction_count b;
     transactions := transactions b;
     initial_usdc_balance := initial_usdc_balance b;
     retry_count := retry_count b + 1 |}.

(** The body of the confirmation loop's inner [try], for one round. *)
Definition confirmed_round (p : poll_reply) (sig input_mint output_mint : string)
    (amount expected_out : float) (attempt_index : Z)
  : M St (option (string * float * float)) :=
  match p with
  | PollRaised => raise
  | PollPending => ret None
  | PollConfirmed tx =>
      fee_lamports <- match tx with
                      | TxRaised => raise
                      | TxNoMeta => ret 5000%Z
                      | TxFee fee => ret fee
                      end ;;
      fee <- must (Py.truediv_int_float fee_lamports 1e9) ;;
      s <- get ;;
      priority <- must (Py.truediv_int_float (priority_fee (bot s)) 1e9) ;;
      stamp <- now ;;
      update_bot (record_swap
        {| timestamp := stamp; signature := sig;
           from_token := input_mint; to_token := output_mint;
           amount_in := amount; amount_out := expected_out;
           fee_sol := fee; priority_fee_sol := priority;
           attempt := attempt_index + 1 |}) ;;;
      ret (Some (sig, expected_out, fee))
  end.

Fixpoint await_confirmation (polls : list poll_reply)
    (sig input_mint output_mint : string) (amount expected_out : float)
    (attempt_index : Z) : M St (option (string * float * float)) :=
  match polls with
  | [] => ret None
  | p :: rest =>
      done <- try_except
                (confirmed_round p sig input_mint output_mint amount
                                 expected_out attempt_index)
                (ret None) ;;
      match done with
      | Some result => ret (Some result)
      | None =>
          await_confirmation rest sig input_mint output_mint amount
                             expected_out attempt_index
      end
  end.

(** The body of the outer [try], for one attempt: it returns from the
    function with a result or with [None], or it raises. *)
Definition attempt_swap (attempt_index : Z) (input_mint output_mint : string)
    (amount : float) (slippage_bps : Z)
  : M St (option (string * float * float)) :=
  amount_lamports <- must (Py.int_of_float (amount * 1e6)) ;;
  if (amount_lamports =? 0)%Z then
    print AmountTooSmall ;;; ret None
  else
    quoted <- rpc (CQuote input_mint output_mint amount_lamports)
                  (jupiter_quote input_mint output_mint amount_lamports
                                 slippage_bps) ;;
    expected_out_lamports <- must quoted ;;
    expected_out <- must (Py.truediv_int_float expected_out_lamports 1e6) ;;
    s <- get ;;
    built <- rpc CSwapTransaction (jupiter_swap_transaction (priority_fee (bot s))) ;;
    tx_bytes <- must built ;;
    response <- rpc CSendRaw (send_raw_transaction tx_bytes) ;;
    match response with
    | SendRaised => raise
    | SendNoValue => raise
    | SendSignature sig =>
        polls <- rpc (CAwaitConfirmation sig)
                     (confirmation_polls sig 15 0.3) ;;
        done <- await_confirmation polls sig input_mint output_mint
                                   amount expected_out attempt_index ;;
        match done with
        | Some result => ret (Some result)
        | None => raise
        end
    end.

(** The [except Exception] clause of an attempt. *)
Definition on_failure (attempt_index : Z)
  : M St (flow (option (string * float * float))) :=
  s <- get ;;
  if (attempt_index <? max_retries (bot s) - 1)%Z then
    update_bot count_retry ;;;
    print (AttemptFailed (attempt_index + 1)) ;;;
    s <- get ;;
    sleep (retry_delay (bot s)) ;;;
    ret Continue
  else
    s <- get ;;
    print (SwapFailedAfter (max_retries (bot s))) ;;;
    ret (Return None).

(** [for attempt in range(self.max_retries)], from the iteration
    [attempt_index] on, [remaining] iterations being left; the
    [return None] after the loop is the case [O]. *)
Fixpoint attempts (remaining : nat) (attempt_index : Z)
    (input_mint output_mint : string) (amount : float) (slippage_bps : Z)
  : M St (option (string * float * float)) :=
  match remaining with
  | O => ret None
  | S remaining' =>
      next <- try_except
                (result <- attempt_swap attempt_index input_mint output_mint
                                        amount slippage_bps ;;
                 ret (Return result))
                (on_failure attempt_index) ;;
      match next with
      | Return result => ret result
      | Continue =>
          attempts remaining' (attempt_index + 1) input_mint output_mint
                   amount slippage_bps
      end
  end.

Definition swap_tokens_jupiter (input_mint output_mint : string) (amount : float)
    (slippage_bps : Z) : M St (option (string * float * float)) :=
  s <- get ;;
  attempts (Z.to_nat (max_retries (bot s))) 0 input_mint output_mint
           amount slippage_bps.

(** The size of the first leg (line 404) and of the second (line 424). *)
Definition leg1_amount (use_full_balance : bool) (fixed_amount usdc_balance : float)
  : float :=
  if use_full_balance then usdc_balance * 0.999
  else Py.min fixed_amount usdc_balance.

Definition leg2_amount (usdce_balance : float) : float := usdce_balance * 0.999.

Definition cycle (use_full_balance : bool) (fixed_amount : float) : M St bool :=
  usdc_balance <- get_token_balance USDC_MINT ;;
  if Py.lt usdc_balance 0.01 then
    print InsufficientBalance ;;; ret false
  else
    let swap_amount := leg1_amount use_full_balance fixed_amount usdc_balance in
    print (Swapping swap_amount USDC_MINT USDCE_MINT) ;;;
    result <- swap_tokens_jupiter USDC_MINT USDCE_MINT swap_amount 50 ;;
    match result with
    | None => print Swap1Failed ;;; ret false
    | Some _ =>
        usdce_balance <- get_token_balance USDCE_MINT ;;
        let swap_amount := leg2_amount usdce_balance in
        print (Swapping swap_amount USDCE_MINT USDC_MINT) ;;;
        result <- swap_tokens_jupiter USDCE_MINT USDC_MINT swap_amount 50 ;;
        match result with
        | None => print Swap2Failed ;;; ret false
        | Some _ => ret true
        end
    end.

Fixpoint cycles (n : nat) (use_full_balance : bool) (fixed_amount : float)
    (successful failed : Z) : M St (Z * Z) :=
  match n with
  | O => ret (successful, failed)
  | S n' =>
      ok <- cycle use_full_balance fixed_amount ;;
      if ok then cycles n' use_full_balance fixed_amount (successful + 1) failed
      else cycles n' use_full_balance fixed_amount successful (failed + 1)
  end.

Definition _generate_report (successful failed : Z) : M St unit :=
  final_usdc <- get_token_balance USDC_MINT ;;
  _ <- get_token_balance USDCE_MINT ;;
  _ <- get_sol_balance ;;
  s <- get ;;
  let b := bot s in
  let capital_lost := initial_usdc_balance b - final_usdc in
  let positive := Py.gt (initial_usdc_balance b) 0 in
  let multiplier :=
    if positive then total_volume b / initial_usdc_balance b else 0 in
  emit (Saved
    {| start_balance := initial_usdc_balance b;
       final_balance := final_usdc;
       report_total_volume := total_volume b;
       report_transaction_count := transaction_count b;
       successful_cycles := successful;
       failed_cycles := failed;
       volume_multiplier := multiplier;
       capital_loss_percentage :=
         if positive then capital_lost / initial_usdc_balance b * 100 else 0;
       report_retry_count := retry_count b;
       priority_fee_lamports := priority_fee b;
       total_priority_fees_sol := total_priority_fees b;
       improvement_vs_standard := multiplier / 210;
       report_transactions := transactions b |}).

Definition set_initial_usdc_balance (x : float) (b : Bot) : Bot :=
  {| priority_fee := priority_fee b;
     max_retries := max_retries b;
     retry_delay := retry_delay b;
     total_volume := total_volume b;
     total_fees_paid := total_fees_paid b;
     total_priority_fees := total_priority_fees b;
     transaction_count := transaction_count b;
     transactions := transactions b;
     initial_usdc_balance := x;
     retry_count := retry_count b |}.

(** The gas estimate of the start-up narration: [num_cycles * 2] times
    a fee, both for the base fee and for the priority fee. *)
Definition expected_total (num_cycles : Z) : M St float :=
  s <- get ;;
  swaps <- must (Py.float_of_int (num_cycles * 2)) ;;
  priority <- must (Py.truediv_int_float (priority_fee (bot s)) 1e9) ;;
  ret (swaps * 0.000005 + swaps * priority).

Definition run (num_cycles : Z) (use_full_balance : bool) (fixed_amount : float)
  : M St unit :=
  usdc_balance <- get_token_balance USDC_MINT ;;
  _ <- get_token_balance USDCE_MINT ;;
  sol_balance <- get_sol_balance ;;
  if Py.lt usdc_balance 1 then print InsufficientStart
  else
    total_expected <- expected_total num_cycles ;;
    (if Py.lt sol_balance (total_expected * 1.2) then print TightSol
     else ret tt) ;;;
    update_bot (set_initial_usdc_balance usdc_balance) ;;;
    ' (successful, failed) <-
        cycles (Z.to_nat num_cycles) use_full_balance fixed_amount 0 0 ;;
    _generate_report successful failed.

(** *** What the statements are about *)

(** How the bot object changes: by the statistics update of a
    confirmed swap, by a counted retry, or by the assignment of the
    starting balance. *)
Inductive grows (b : Bot) : Bot -> Prop :=
| grows_refl : grows b b
| grows_swap b' r : grows b b' -> grows b (record_swap r b')
| grows_retry b' : grows b b' -> grows b (count_retry b')
| grows_initial b' x : grows b b' -> grows b (set_initial_usdc_balance x b').

(** The counter is the number of records. *)
Definition counted (b : Bot) : Prop :=
  transaction_count b = Z.of_nat (List.length (transactions b)).

(** The volume is the sum of the input amounts of the records. *)
Definition summed (b : Bot) : Prop :=
  total_volume b = Py.fsum (map amount_in (transactions b)).

(** The bot after [k] counted retries. *)
Definition retried (k : nat) (b : Bot) : Bot := Nat.iter k count_retry b.

(** The durations of the sleeps of an output, in order. *)
Fixpoint sleeps (evs : list event) : list float :=
  match evs with
  | [] => []
  | Slept secs :: evs' => secs :: sleeps evs'
  | _ :: evs' => sleeps evs'
  end.

(** The swaps announced in an output, in order: the two mints and the
    size. *)
Fixpoint announced (evs : list event) : list (string * string * float) :=
  match evs with
  | [] => []
  | Printed (Swapping amount input_mint output_mint) :: evs' =>
      (input_mint, output_mint, amount) :: announced evs'
  | _ :: evs' => announced evs'
  end.

Definition quote_call (e : event) : bool :=
  match e with Called (CQuote _ _ _) => true | _ => false end.

Definition send_call (e : event) : bool :=
  match e with Called CSendRaw => true | _ => false end.

(** A block returns and the bot is as before. *)
Definition returns_same {A} (s : St) (o : outcome A) (s' : St) : Prop :=
  o <> Raise /\ bot s' = bot s.

(** What holds after the confirmation loop. *)
Definition await_post (sig input_mint output_mint : string)
    (amount expected_out : float) (attempt_index : Z) (s : St)
    (o : outcome (option (string * float * float))) (s' : St) : Prop :=
  world s' = world s /\ output s' = output s /\
  match o with
  | Raise => False
  | Val None => bot s' = bot s
  | Val (Some (sig', out, fee)) =>
      sig' = sig /\ out = expected_out /\
      exists priority,
        bot s' =
        record_swap {| timestamp := now_isoformat (world s); signature := sig;
                       from_token := input_mint; to_token := output_mint;
                       amount_in := amount; amount_out := expected_out;
                       fee_sol := fee; priority_fee_sol := priority;
                       attempt := attempt_index + 1 |} (bot s)
  end.

(** What holds after one attempt: it has asked for one quote and sent
    one transaction at most, and has not slept; when it raises, or
    returns [None], the bot is as before; when it returns a tuple, the
    swap is recorded. *)
Definition attempt_post (attempt_index : Z) (input_mint output_mint : string)
    (amount : float) (s : St)
    (o : outcome (option (string * float * float))) (s' : St) : Prop :=
  exists evs,
    output s' = output s ++ evs /\
    sleeps evs = [] /\
    announced evs = [] /\
    (count quote_call evs <= 1)%Z /\ (count send_call evs <= 1)%Z /\
    match o with
    | Raise => bot s' = bot s
    | Val None => bot s' = bot s
    | Val (Some (sig, out, fee)) =>
        exists priority,
          bot s' =
          record_swap {| timestamp := now_isoformat (world s'); signature := sig;
                         from_token := input_mint; to_token := output_mint;
                         amount_in := amount; amount_out := out;
                         fee_sol := fee; priority_fee_sol := priority;
                         attempt := attempt_index + 1 |} (bot s)
    end.

(** What holds after the loop of attempts, entered at the iteration
    [attempt_index] with [remaining] iterations left: it does not
    raise; it has counted [k] retries, each followed by a sleep of
    [retry_delay], and made [k + 1] attempts at most; it returns
    [None], the statistics being as before, or the tuple of a swap
    that it has recorded. *)
Definition attempts_post (remaining : nat) (attempt_index : Z)
    (input_mint output_mint : string) (amount : float) (s : St)
    (o : outcome (option (string * float * float))) (s' : St) : Prop :=
  exists evs k,
    output s' = output s ++ evs /\
    (k <= remaining)%nat /\
    (Z.of_nat k <= Z.max 0 (max_retries (bot s) - 1 - attempt_index))%Z /\
    sleeps evs = repeat (retry_delay (bot s)) k /\
    announced evs = [] /\
    (count quote_call evs <= Z.of_nat (Nat.min remaining (S k)))%Z /\
    (count send_call evs <= Z.of_nat (Nat.min remaining (S k)))%Z /\
    match o with
    | Raise => False
    | Val None => bot s' = retried k (bot s)
    | Val (Some (sig, out, fee)) =>
        exists priority,
          bot s' =
          record_swap {| timestamp := now_isoformat (world s'); signature := sig;
                         from_token := input_mint; to_token := output_mint;
                         amount_in := amount; amount_out := out;
                         fee_sol := fee; priority_fee_sol := priority;
                         attempt := attempt_index + Z.of_nat k + 1 |}
                      (retried k (bot s))
    end.

(** A block returns and the bot has grown. *)
Definition returns_grown {A} (s : St) (o : outcome A) (s' : St) : Prop :=
  o <> Raise /\ grows (bot s) (bot s').

(** The balance that a query of [mint] made in the state [s] gets. *)
Definition balance_seen (mint : string) (s : St) : float :=
  match fst (get_token_balance mint s) with
  | Val balance => balance
  | Raise => 0
  end.

(** The state in which the first swap of a cycle started in [s] is
    called: the balance of A was queried and the swap announced. *)
Definition at_first_leg (full : bool) (fixed : float) (s : St) : St :=
  snd (print (Swapping (leg1_amount full fixed (balance_seen USDC_MINT s))
                       USDC_MINT USDCE_MINT)
             (snd (get_token_balance USDC_MINT s))).

(** The first swap of a cycle started in [s] has returned [result] in
    the state [s1]. *)
Definition first_leg_returned (full : bool) (fixed : float) (s : St)
    (result : string * float * float) (s1 : St) : Prop :=
  swap_tokens_jupiter USDC_MINT USDCE_MINT
                      (leg1_amount full fixed (balance_seen USDC_MINT s)) 50
                      (at_first_leg full fixed s)
  = (Val (Some result), s1).

(** The size of the second leg when the first has returned in [s1]:
    from the balance of B queried then. *)
Definition second_leg_size (s1 : St) : float :=
  leg2_amount (balance_seen USDCE_MINT s1).

(** [r1] is the record of the first leg of a cycle started in [s], and
    [s1] the state in which that swap has returned. *)
Definition first_leg (full : bool) (fixed : float) (s : St) (r1 : SwapRecord)
    (s1 : St) : Prop :=
  amount_in r1 = leg1_amount full fixed (balance_seen USDC_MINT s) /\
  first_leg_returned full fixed s (signature r1, amount_out r1, fee_sol r1) s1.

(** [r2] is the record of a second leg whose first leg has returned
    in [s1]. *)
Definition second_leg (s1 : St) (r2 : SwapRecord) : Prop :=
  amount_in r2 = second_leg_size s1.

(** The swaps that a cycle started in [s] announces: none; or the
    first leg, of A into B; or the first leg and then, the first swap
    having returned, the second leg, of B into A. *)
Definition legs_announced (full : bool) (fixed : float) (s : St)
    (evs : list event) : Prop :=
  announced evs = []
  \/
  announced evs
  = [(USDC_MINT, USDCE_MINT, leg1_amount full fixed (balance_seen USDC_MINT s))]
  \/
  exists result s1,
    first_leg_returned full fixed s result s1 /\
    announced evs
    = [(USDC_MINT, USDCE_MINT, leg1_amount full fixed (balance_seen USDC_MINT s));
       (USDCE_MINT, USDC_MINT, second_leg_size s1)].

Definition cycle_post (full : bool) (fixed : float) (s : St)
    (o : outcome bool) (s' : St) : Prop :=
  grows (bot s) (bot s') /\
  (exists evs, output s' = output s ++ evs /\ legs_announced full fixed s evs) /\
  match o with
  | Raise => False
  | Val true =>
      exists r1 r2 s1,
        transactions (bot s') = transactions (bot s) ++ [r1; r2] /\
        first_leg full fixed s r1 s1 /\ second_leg s1 r2
  | Val false =>
      transactions (bot s') = transactions (bot s) \/
      exists r1 s1,
        transactions (bot s') = transactions (bot s) ++ [r1] /\
        first_leg full fixed s r1 s1
  end.

(** A poll that shows no confirmation. *)
Definition pending (p : poll_reply) : bool :=
  match p with
  | PollConfirmed _ => false
  | _ => true
  end.

(** The gateway accepts what is sent, but no confirmation ever comes
    within the wait. *)
Definition never_confirms : Prop :=
  forall sig timeout pause w,
    forallb pending (fst (confirmation_polls sig timeout pause w)) = true.

(** The gateway takes the swap of [amount_lamports]: it answers the
    quote, builds the transaction, and accepts what is sent with a
    signature. *)
Definition accepts (input_mint output_mint : string) (amount_lamports : Z)
    (slippage_bps : Z) : Prop :=
  (forall w,
     exists quoted expected_out,
       fst (jupiter_quote input_mint output_mint amount_lamports slippage_bps w)
       = Some quoted /\
       Py.truediv_int_float quoted 1e6 = Some expected_out) /\
  (forall fee w, exists tx, fst (jupiter_swap_transaction fee w) = Some tx) /\
  (forall tx w, exists sig, fst (send_raw_transaction tx w) = SendSignature sig).

Definition wait_call (e : event) : bool :=
  match e with Called (CAwaitConfirmation _) => true | _ => false end.

(** The state in which the handler of a failed attempt leaves. *)
Definition after_failure (attempt_index : Z) (s : St) : St :=
  snd (on_failure attempt_index s).

End Bot.

End SolanaUltra.

(** ** Scripted collaborators *)

(** Worlds to run the bots in: the world is the number of quotes asked so
    far, and [quote_ok] tells which of them are answered, at the rate of
    one to one; every balance is [balance]; whatever is sent is accepted.
    The clock of the Polygon chain shows one second for every quote
    asked. *)

Module Scripted.

Local Open Scope float_scope.

Definition receipt (status : Z) : Polygon.Receipt :=
  {| Polygon.status := status;
     Polygon.gasUsed := 21000;
     Polygon.effectiveGasPrice := 30000000000 |}.

Definition seconds (w : nat) : float :=
  match Py.float_of_int (Z.of_nat w) with
  | Some t => t
  | None => 0
  end.

(** A chain for the Polygon bot; the swaps are confirmed with the
    receipt status [status]; the node answers the queries of a balance
    in the worlds [balance_ok] and raises in the others. *)
Definition node (balance_ok quote_ok : nat -> bool) (balance : float) (status : Z)
  : Polygon.Chain nat :=
  {| Polygon.get_balance_rpc :=
       fun _ _ w => (if balance_ok w then Some balance else None, w);
     Polygon.get_matic_balance_rpc := fun w => (Some 1, w);
     Polygon.allowance_rpc := fun _ _ w => (Some 1%Z, w);
     Polygon.send_approve := fun _ _ w => (None, w);
     Polygon.getAmountsOut :=
       fun amount _ _ w => (if quote_ok w then Some amount else None, S w);
     Polygon.send_swap := fun _ _ _ _ w => (Some "0x5a"%string, w);
     Polygon.wait_for_transaction_receipt := fun _ w => (Some (receipt status), w);
     Polygon.from_wei_ether := fun wei => Py.truediv_int wei (10 ^ 18);
     Polygon.now_isoformat := fun _ => "2025-01-01T00:00:00"%string;
     Polygon.sleep_rpc := fun _ w => w;
     Polygon.time_time := fun w => (seconds w, w) |}.

Definition always (_ : nat) : bool := true.
Definition never (_ : nat) : bool := false.
(** Only the first quote is answered. *)
Definition first_only (w : nat) : bool := Nat.eqb w 0.
(** The first two quotes fail. *)
Definition from_third (w : nat) : bool := Nat.leb 2 w.

(** The chain whose node answers every query of a balance. *)
Definition chain (quote_ok : nat -> bool) (balance : float) (status : Z)
  : Polygon.Chain nat :=
  node always quote_ok balance status.

(** A gateway for the original Solana bot; the confirmation loop sees
    the answers [polls]. *)
Definition gateway (quote_ok : nat -> bool) (balance : float)
    (polls : list poll_reply) : Solana.Gateway nat :=
  {| Solana.get_token_account_balance := fun _ w => (BalanceUi (Some balance), w);
     Solana.get_balance_lamports := fun w => (Some 1000000000%Z, w);
     Solana.jupiter_quote :=
       fun _ _ amount _ w => (if quote_ok w then Some amount else None, S w);
     Solana.jupiter_swap_transaction := fun w => (Some "tx"%string, w);
     Solana.send_raw_transaction := fun _ w => (SendSignature "5sig", w);
     Solana.confirmation_polls := fun _ _ _ w => (polls, w);
     Solana.now_isoformat := fun _ => "2025-01-01T00:00:00"%string;
     Solana.sleep_rpc := fun _ w => w |}.

(** The same for the ultra-optimised bot. *)
Definition ultra_gateway (quote_ok : nat -> bool) (balance : float)
    (polls : list poll_reply) : SolanaUltra.Gateway nat :=
  {| SolanaUltra.get_token_account_balance :=
       fun _ w => (BalanceUi (Some balance), w);
     SolanaUltra.get_balance_lamports := fun w => (Some 1000000000%Z, w);
     SolanaUltra.jupiter_quote :=
       fun _ _ amount _ w => (if quote_ok w then Some amount else None, S w);
     SolanaUltra.jupiter_swap_transaction := fun _ w => (Some "tx"%string, w);
     SolanaUltra.send_raw_transaction := fun _ w => (SendSignature "5sig", w);
     SolanaUltra.confirmation_polls := fun _ _ _ w => (polls, w);
     SolanaUltra.now_isoformat := fun _ => "2025-01-01T00:00:00"%string;
     SolanaUltra.sleep_rpc := fun _ w => w |}.

(** A fresh bot in a world where no quote was asked yet. *)
Definition polygon_start : Sys Polygon.Bot nat Polygon.event :=
  {| bot := Polygon.init_bot; world := O; output := [] |}.

Definition solana_start : Sys Solana.Bot nat Solana.event :=
  {| bot := Solana.init_bot; world := O; output := [] |}.

Definition ultra_start : Sys SolanaUltra.Bot nat SolanaUltra.event :=
  {| bot := SolanaUltra.init_bot 5000; world := O; output := [] |}.


(** One cycle of the Polygon bot in which the first swap is confirmed
    and the quote of the second is refused. *)
Definition partial_run : Sys Polygon.Bot nat Polygon.event :=
  snd (Polygon.run (H := chain first_only 100 1) 1 true 50 polygon_start).


(** Two cycles of the ultra-optimised bot, every swap being confirmed
    at the first poll. *)
Definition ultra_run : Sys SolanaUltra.Bot nat SolanaUltra.event :=
  snd (SolanaUltra.run (H := ultra_gateway always 100 [PollConfirmed TxNoMeta])
                       2 true 50 ultra_start).

(** One cycle of the original Solana bot, the first swap being confirmed
    at the second poll and the second swap never. *)
Definition solana_run : Sys Solana.Bot nat Solana.event :=
  snd (Solana.run (H := gateway first_only 100 [PollPending; PollConfirmed (TxFee 5000)])
                  1 true 50 solana_start).

(** The first cycle of the Polygon bot in full-balance mode, both
    balances being 100 when they are queried and every swap being
    confirmed. *)
Definition full_cycle : Sys Polygon.Bot nat Polygon.event :=
  snd (Polygon.cycle (H := chain always 100 1) 0 true 50 polygon_start).

(** The first cycle in fixed-amount mode, 10 being asked for and 7
    held. *)
Definition capped_cycle : Sys Polygon.Bot nat Polygon.event :=
  snd (Polygon.cycle (H := chain always 7 1) 0 false 10 polygon_start).




(** A run of no cycle: the clock is read twice at the same second. *)
Definition empty_run
  : outcome unit * Sys Polygon.Bot nat Polygon.event :=
  Polygon.run (H := chain always 100 1) 0 true 50 polygon_start.

Definition ultra_capped_cycle : Sys SolanaUltra.Bot nat SolanaUltra.event :=
  snd (SolanaUltra.cycle (H := ultra_gateway always 7 [PollConfirmed TxNoMeta])
                         false 10 ultra_start).

Definition ultra_full_cycle : Sys SolanaUltra.Bot nat SolanaUltra.event :=
  snd (SolanaUltra.cycle (H := ultra_gateway always 100 [PollConfirmed TxNoMeta])
                         true 50 ultra_start).

(** A swap of the original Solana bot that is quoted, sent and accepted,
    and whose confirmation does not come before the wait is over. *)
Definition timed_out_swap
  : outcome (option (string * float * float)) * Sys Solana.Bot nat Solana.event :=
  Solana.swap_tokens_jupiter (H := gateway always 100 [PollPending; PollPending])
    Solana.USDC_MINT Solana.USDT_MINT 5 50 solana_start.

(** The gateway of the ultra-optimised bot whose first two quotes fail
    and whose third swap is confirmed at the second poll. *)
Definition flaky : SolanaUltra.Gateway nat :=
  ultra_gateway from_third 100 [PollPending; PollConfirmed (TxFee 5000)].

(** The gateway of the ultra-optimised bot that accepts everything and
    confirms nothing. *)
Definition silent : SolanaUltra.Gateway nat :=
  ultra_gateway always 100 [PollPending; PollPending].

End Scripted.

(** * Reasoning rules *)

Section Rules.

Context {S : Type}.

Lemma wp_ret {A} (a : A) (Q : outcome A -> S -> Prop) s :
  Q (Val a) s -> wp (ret a) Q s.
Proof. exact (fun q => q). Qed.

Lemma wp_raise {A} (Q : outcome A -> S -> Prop) s :
  Q Raise s -> wp raise Q s.
Proof. exact (fun q => q). Qed.

Lemma wp_bind {A B} (m : M S A) (k : A -> M S B) (Q : outcome B -> S -> Prop) s :
  wp m (fun o s' => match o with
                    | Val a => wp (k a) Q s'
                    | Raise => Q Raise s'
                    end) s ->
  wp (bind m k) Q s.
Proof.
  unfold wp, bind. destruct (m s) as [[a|] s']; simpl; trivial.
Qed.

Lemma wp_try_except {A} (body handler : M S A) (Q : outcome A -> S -> Prop) s :
  wp body (fun o s' => match o with
                       | Val a => Q (Val a) s'
                       | Raise => wp handler Q s'
                       end) s ->
  wp (try_except body handler) Q s.
Proof.
  unfold wp, try_except. destruct (body s) as [[a|] s']; simpl; trivial.
Qed.

Lemma wp_mono {A} (m : M S A) (Q Q' : outcome A -> S -> Prop) s :
  wp m Q s -> (forall o s', Q o s' -> Q' o s') -> wp m Q' s.
Proof. unfold wp. auto. Qed.

Lemma wp_get (Q : outcome S -> S -> Prop) s :
  Q (Val s) s -> wp get Q s.
Proof. exact (fun q => q). Qed.

Lemma wp_modify (f : S -> S) (Q : outcome unit -> S -> Prop) s :
  Q (Val tt) (f s) -> wp (modify f) Q s.
Proof. exact (fun q => q). Qed.

Lemma wp_must {A} (o : option A) (Q : outcome A -> S -> Prop) s :
  match o with Some a => Q (Val a) s | None => Q Raise s end ->
  wp (must o) Q s.
Proof. destruct o; exact (fun q => q). Qed.

Lemma wp_and {A} (m : M S A) (Q Q' : outcome A -> S -> Prop) s :
  wp m Q s -> wp m Q' s -> wp m (fun o s' => Q o s' /\ Q' o s') s.
Proof. unfold wp. auto. Qed.

(** The outcome and the state that [wp] speaks of are those of the run. *)
Lemma wp_eq {A} (m : M S A) s : wp m (fun o s' => m s = (o, s')) s.
Proof. unfold wp. apply surjective_pairing. Qed.

(** What a run gives is what [wp] speaks of. *)
Lemma wp_run {A} (m : M S A) (Q : outcome A -> S -> Prop) s o s' :
  wp m Q s -> m s = (o, s') -> Q o s'.
Proof. unfold wp. intros q e. rewrite e in q. exact q. Qed.

End Rules.

Section EffectRules.

Context {B W E : Type}.
Let St : Type := Sys B W E.

Lemma wp_emit (e : E) (Q : outcome unit -> St -> Prop) s :
  Q (Val tt) {| bot := bot s; world := world s; output := output s ++ [e] |} ->
  wp (emit e) Q s.
Proof. exact (fun q => q). Qed.

Lemma wp_outbound {A} (e : E) (f : W -> A * W) (Q : outcome A -> St -> Prop) s :
  (forall a w, f (world s) = (a, w) ->
     Q (Val a) {| bot := bot s; world := w; output := output s ++ [e] |}) ->
  wp (outbound e f) Q s.
Proof.
  unfold wp, outbound. intros q.
  destruct (f (world s)) as [a w] eqn:fw. simpl. auto.
Qed.

Lemma wp_pass (e : E) (f : W -> W) (Q : outcome unit -> St -> Prop) s :
  Q (Val tt) {| bot := bot s; world := f (world s); output := output s ++ [e] |} ->
  wp (pass e f) Q s.
Proof. exact (fun q => q). Qed.

Lemma wp_ask {A} (f : W -> A) (Q : outcome A -> St -> Prop) s :
  Q (Val (f (world s))) s -> wp (ask f) Q s.
Proof. exact (fun q => q). Qed.

Lemma wp_consult {A} (f : W -> A * W) (Q : outcome A -> St -> Prop) s :
  (forall a w, f (world s) = (a, w) ->
     Q (Val a) {| bot := bot s; world := w; output := output s |}) ->
  wp (consult f) Q s.
Proof.
  unfold wp, consult. intros q.
  destruct (f (world s)) as [a w] eqn:fw. simpl. auto.
Qed.

Lemma wp_update_bot (f : B -> B) (Q : outcome unit -> St -> Prop) s :
  Q (Val tt) {| bot := f (bot s); world := world s; output := output s |} ->
  wp (update_bot f) Q s.
Proof. exact (fun q => q). Qed.

End EffectRules.

(** One step of symbolic execution of a block. *)
Ltac wp_step_raw :=
  lazymatch goal with
  | |- wp (bind _ _) _ _ => apply wp_bind
  | |- wp (try_except _ _) _ _ => apply wp_try_except
  | |- wp (ret _) _ _ => apply wp_ret
  | |- wp raise _ _ => apply wp_raise
  | |- wp get _ _ => apply wp_get
  | |- wp (modify _) _ _ => apply wp_modify
  | |- wp (must ?o) _ _ => apply wp_must; destruct o eqn:?
  | |- wp (emit _) _ _ => apply wp_emit
  | |- wp (outbound _ _) _ _ => apply wp_outbound; intros ? ? ?
  | |- wp (pass _ _) _ _ => apply wp_pass
  | |- wp (ask _) _ _ => apply wp_ask
  | |- wp (consult _) _ _ => apply wp_consult; intros ? ? ?
  | |- wp (update_bot _) _ _ => apply wp_update_bot
  | |- wp (if ?b then _ else _) _ _ => destruct b eqn:?
  | |- wp (match ?x with _ => _ end) _ _ => destruct x eqn:?
  end.

Ltac wp_step := wp_step_raw; cbn beta iota.

Ltac wp_steps := repeat wp_step.

(** The specification of a block used at a call of it. *)
Tactic Notation "wp_use" constr(spec) "as" ident(o) ident(s) ident(post) :=
  eapply wp_mono; [ apply spec | cbn beta; intros o s post ].

(** The same, keeping the equation of the run. *)
Tactic Notation "wp_use" constr(spec) "as" ident(o) ident(s) ident(post) ident(eq) :=
  eapply wp_mono;
  [ apply wp_and; [ apply spec | apply wp_eq ]
  | cbn beta; intros o s [post eq] ].

Section Counting.

Context {E : Type}.
Implicit Types (p q : E -> bool) (l : list E).

Lemma count_nil p : count p [] = 0%Z.
Proof. reflexivity. Qed.

Lemma count_app p l l' : count p (l ++ l') = (count p l + count p l')%Z.
Proof.
  unfold count. rewrite filter_app, length_app. lia.
Qed.

Lemma count_one p e : count p [e] = if p e then 1%Z else 0%Z.
Proof. unfold count. simpl. destruct (p e); reflexivity. Qed.

Lemma count_cons p e l :
  count p (e :: l) = ((if p e then 1 else 0) + count p l)%Z.
Proof. change (e :: l) with ([e] ++ l). rewrite count_app, count_one. reflexivity. Qed.

Lemma count_nonneg p l : (0 <= count p l)%Z.
Proof. unfold count. lia. Qed.

(** Events of one kind are none of a kind that excludes it. *)
Lemma count_excluded p q l :
  (forall e, q e = true -> p e = false) ->
  forallb q l = true -> count p l = 0%Z.
Proof.
  intros excl. induction l as [|e l IH]; simpl; intros all.
  - reflexivity.
  - apply andb_true_iff in all. destruct all as [qe ql].
    change (e :: l) with ([e] ++ l). rewrite count_app, count_one.
    rewrite (excl e qe), (IH ql). reflexivity.
Qed.

Lemma forallb_weaken p q l :
  (forall e, p e = true -> q e = true) ->
  forallb p l = true -> forallb q l = true.
Proof.
  intros pq. rewrite !forallb_forall. auto.
Qed.

End Counting.

(** * The Polygon bot: what a swap, a cycle and a run do *)

Module PolygonFacts.

Import Polygon.
Local Open Scope Z_scope.

Section Facts.

Context {World : Type} `{Chain World}.

Lemma polygon_swap_tokens_spec token_in token_out amount decimals_in decimals_out
    slippage (s : Polygon.St) :
  wp (swap_tokens token_in token_out amount decimals_in decimals_out slippage)
     (swap_post token_in token_out amount s) s.
Proof.
  unfold swap_tokens, swap_post, print, rpc, now.
  wp_steps; cbn [bot world output].
  all: rewrite <- ?app_assoc; cbn [app].
  all: try (eexists; split; [reflexivity|]).
  all: try (exists []; split; [symmetry; apply app_nil_r|]).
  all: cbn; auto 10.
  all: eauto.
Qed.

Lemma polygon_swap_event_cycle_event e : swap_event e = true -> cycle_event e = true.
Proof. destruct e as [[]| |[]|]; simpl; congruence. Qed.

Lemma polygon_swap_event_not_partial e : swap_event e = true -> partial_leg e = false.
Proof. destruct e as [[]| |[]|]; simpl; congruence. Qed.

(** The output of the state reached, as the output at the start and
    what was added. *)
Ltac extend_output :=
  cbn [bot world output];
  repeat match goal with
         | e : output _ = _ ++ _ |- _ => rewrite e; clear e
         end;
  rewrite <- ?app_assoc; cbn [app];
  first [ eexists; split; [reflexivity|]
        | exists []; split; [symmetry; apply app_nil_r|] ].

Ltac events_ok :=
  repeat first [ rewrite forallb_app
               | progress cbn [forallb cycle_event swap_event andb] ];
  repeat match goal with
         | e : forallb swap_event _ = true |- _ =>
             rewrite (forallb_weaken swap_event cycle_event _ polygon_swap_event_cycle_event e); clear e
         end;
  reflexivity.

Ltac count_ok :=
  repeat first [ rewrite count_app | rewrite count_cons | rewrite count_nil
               | progress cbn [partial_leg] ];
  repeat match goal with
         | e : forallb swap_event _ = true |- _ =>
             rewrite (count_excluded partial_leg swap_event _ polygon_swap_event_not_partial e)
         end;
  try lia.

Lemma polygon_swap_post_grows token_in token_out amount s o s' :
  swap_post token_in token_out amount s o s' -> grows (bot s) (bot s').
Proof.
  intros (evs & _ & _ & res).
  destruct o as [[[[tx out] fee]|]|]; try contradiction; rewrite res.
  - apply grows_swap, grows_refl.
  - apply grows_refl.
Qed.

Lemma polygon_grows_trans b1 b2 b3 : grows b1 b2 -> grows b2 b3 -> grows b1 b3.
Proof.
  intros g12 g23. induction g23.
  - assumption.
  - apply grows_swap. assumption.
  - apply grows_initial. assumption.
  - apply grows_started. assumption.
Qed.


Lemma polygon_grows_counted b b' : grows b b' -> counted b -> counted b'.
Proof.
  unfold counted. intros g c.
  induction g; cbn [record_swap transaction_count transactions].
  - exact c.
  - rewrite IHg, length_app. cbn [List.length]. lia.
  - exact IHg.
  - exact IHg.
Qed.


Lemma polygon_announced_app evs evs' :
  announced (evs ++ evs') = announced evs ++ announced evs'.
Proof.
  induction evs as [|[| |[]|] evs IH]; cbn [announced app]; rewrite ?IH;
    reflexivity.
Qed.

(** A swap call announces nothing. *)
Lemma polygon_swap_events_silent evs :
  forallb swap_event evs = true -> announced evs = [].
Proof.
  induction evs as [|e evs IH]; [reflexivity|].
  cbn [forallb]. intros all. apply andb_true_iff in all.
  destruct all as [one rest].
  destruct e as [[]| |[]|]; try discriminate one; cbn [announced]; auto.
Qed.

Ltac announce_ok :=
  repeat first [ rewrite polygon_announced_app
               | progress cbn [announced app]
               | match goal with
                 | e : forallb swap_event _ = true |- _ =>
                     rewrite (polygon_swap_events_silent _ e)
                 end ];
  reflexivity.

Lemma polygon_swap_event_not_queried e :
  swap_event e = true -> usdc_queried e = false.
Proof. destruct e as [[]| |[]|]; simpl; congruence. Qed.

Lemma polygon_swap_post_started token_in token_out amount s o s' :
  swap_post token_in token_out amount s o s' ->
  start_time (bot s') = start_time (bot s).
Proof.
  intros (evs & _ & _ & res).
  destruct o as [[[[tx out] fee]|]|]; try contradiction; rewrite res; reflexivity.
Qed.

(** A query of a balance logs the call, leaves the bot alone, and
    raises when the node does. *)
Lemma polygon_get_balance_spec token (s : Polygon.St) :
  wp (get_balance token 6)
     (fun o s' =>
        s' = snd (get_balance token 6 s) /\
        bot s' = bot s /\
        output s' = output s ++ [Called (CGetBalance token)] /\
        match o with
        | Val balance => balance_seen token s = Some balance
        | Raise => balance_seen token s = None
        end) s.
Proof.
  unfold wp, get_balance, rpc, bind, outbound, balance_seen, must.
  destruct (get_balance_rpc token 6 (world s)) as [[balance|] w]; cbn; auto.
Qed.

Lemma polygon_get_matic_balance_spec (s : Polygon.St) :
  wp get_matic_balance
     (fun o s' =>
        bot s' = bot s /\
        output s' = output s ++ [Called CGetMaticBalance] /\
        match o with
        | Val _ => True
        | Raise => fst (get_matic_balance_rpc (world s)) = None
        end) s.
Proof.
  unfold wp, get_matic_balance, rpc, bind, outbound, must.
  destruct (get_matic_balance_rpc (world s)) as [[balance|] w]; cbn; auto.
Qed.

(** The progress line leaves the bot and the output alone; it raises
    on a tenth iteration whose rate cannot be computed. *)
Lemma polygon_progress_spec i (s : Polygon.St) :
  wp (progress i)
     (fun o s' =>
        bot s' = bot s /\ output s' = output s /\
        match o with
        | Val _ => True
        | Raise => ((i + 1) mod 10 = 0)%Z /\ rate_raised (bot s)
        end) s.
Proof.
  unfold progress, clock.
  destruct ((i + 1) mod 10 =? 0) eqn:tenth.
  - apply Z.eqb_eq in tenth.
    unfold wp, bind, consult, get, must, rate_raised, rate_since.
    destruct (time_time (world s)) as [t w] eqn:read. cbn [bot fst snd].
    destruct (start_time (bot s)) as [started|] eqn:st; cbn.
    + destruct (rate_per_minute (transaction_count (bot s))
                  (PrimFloat.sub t started)) eqn:rate; cbn; auto.
      split; [reflexivity|]. split; [reflexivity|]. split; [exact tenth|].
      exists (world s). rewrite read. exact rate.
    + split; [reflexivity|]. split; [reflexivity|]. split; [exact tenth|].
      exists (world s). reflexivity.
  - wp_step. auto.
Qed.

Ltac queried_ok :=
  repeat first [ rewrite count_app | rewrite count_cons | rewrite count_nil
               | progress cbn [usdc_queried String.eqb USDC_ADDRESS USDT_ADDRESS] ];
  repeat match goal with
         | e : forallb swap_event _ = true |- _ =>
             rewrite (count_excluded usdc_queried swap_event _
                        polygon_swap_event_not_queried e)
         end;
  try reflexivity; try lia.

Lemma polygon_cycle_spec i full fixed (s : Polygon.St) :
  wp (cycle i full fixed) (cycle_post i full fixed s) s.
Proof.
  unfold cycle.
  wp_step. wp_use polygon_get_balance_spec as o sA postA.
  destruct postA as (stA & botA & outA & seenA).
  destruct o as [usdc_balance|].
  2:{ (* the balance of A cannot be read *)
    unfold cycle_post. exists [Called (CGetBalance USDC_ADDRESS)].
    split; [exact outA|]. split; [reflexivity|]. split; [reflexivity|].
    rewrite botA. split; [apply grows_refl|]. split; [reflexivity|].
    split; [left; reflexivity|]. split; [reflexivity|].
    left. split; [exact seenA|reflexivity]. }
  assert (sizeA : first_leg_size full fixed s
                  = Some (leg1_amount full fixed usdc_balance))
    by (unfold first_leg_size; rewrite seenA; reflexivity).
  wp_step.
  - unfold print. wp_steps. unfold cycle_post. extend_output.
    split; [reflexivity|]. split; [reflexivity|]. cbn [bot]. rewrite botA.
    split; [apply grows_refl|]. split; [reflexivity|].
    split; [left; reflexivity|].
    cbn. repeat split; auto; lia.
  - cbn zeta. wp_step. unfold print at 1. wp_step.
    match goal with
    | |- wp _ _ ?here =>
        assert (there : here = at_first_leg (leg1_amount full fixed usdc_balance) s)
          by (unfold at_first_leg, print, emit, modify; rewrite <- stA;
              reflexivity)
    end.
    unfold print, sleep.
    wp_step. wp_use polygon_swap_tokens_spec as o s1 post1 eq1.
    rewrite there in eq1.
    pose proof (polygon_swap_post_grows post1) as g1.
    pose proof (polygon_swap_post_started post1) as st1.
    destruct post1 as (evs1 & out1 & ev1 & res1).
    cbn [bot world output] in *. rewrite botA in *.
    destruct o as [[[[tx1 o1] fee1]|]|]; [| |contradiction].
    + wp_step. wp_step. wp_step.
      wp_use polygon_get_balance_spec as o sB postB.
      destruct postB as (_ & botB & outB & seenB).
      cbn [bot world output] in *.
      set (r1 := {| timestamp := now_isoformat (world s1); tx_hash := tx1;
                    from_token := USDC_ADDRESS; to_token := USDT_ADDRESS;
                    amount_in := leg1_amount full fixed usdc_balance;
                    amount_out := o1; gas_fee_matic := fee1 |}) in *.
      assert (returned : first_leg_returned full fixed s (tx1, o1, fee1) s1).
      { exists (leg1_amount full fixed usdc_balance).
        split; [exact sizeA|exact eq1]. }
      assert (leg1 : first_leg full fixed s r1 s1).
      { split; [exact sizeA|exact returned]. }
      change {| bot := bot s1; world := sleep_rpc 3 (world s1);
                output := output s1 ++ [Slept 3] |}
        with (snd (sleep 3 s1)) in seenB.
      destruct o as [usdt_balance|].
      2:{ (* the balance of B cannot be read *)
        unfold cycle_post. extend_output.
        split; [events_ok|]. split; [queried_ok|].
        rewrite botB. split; [exact g1|]. split; [exact st1|].
        split.
        { right. left. exists (leg1_amount full fixed usdc_balance).
          split; [exact sizeA|announce_ok]. }
        split; [count_ok|]. right. left. exists r1, s1.
        rewrite res1. cbn [record_swap transactions transaction_count].
        split; [reflexivity|]. split; [reflexivity|].
        split; [exact leg1|exact seenB]. }
      assert (sizeB : second_leg_size s1 = Some (leg2_amount usdt_balance))
        by (unfold second_leg_size; rewrite seenB; reflexivity).
      cbn zeta. do 3 wp_step.
      wp_use polygon_swap_tokens_spec as o s2 post2.
      pose proof (polygon_swap_post_grows post2) as g2.
      pose proof (polygon_swap_post_started post2) as st2.
      destruct post2 as (evs2 & out2 & ev2 & res2).
      cbn [bot world output] in *. rewrite botB in *.
      assert (both : forall evs,
                 announced evs
                 = [(USDC_ADDRESS, USDT_ADDRESS,
                     leg1_amount full fixed usdc_balance);
                    (USDT_ADDRESS, USDC_ADDRESS, leg2_amount usdt_balance)] ->
                 legs_announced full fixed s evs).
      { intros evs said. right. right.
        exists (leg1_amount full fixed usdc_balance), (tx1, o1, fee1), s1,
               (leg2_amount usdt_balance).
        split; [exact sizeA|]. split; [exact returned|].
        split; [exact sizeB|exact said]. }
      assert (up : forall result, o = Val (Some result) -> ~ gateway_down).
      { intros result _ down.
        specialize (down USDC_ADDRESS USDT_ADDRESS
                      (leg1_amount full fixed usdc_balance)
                      6%N 6%N 5%float
                      (at_first_leg (leg1_amount full fixed usdc_balance) s)).
        rewrite eq1 in down. discriminate down. }
      destruct o as [[[[tx2 o2] fee2]|]|]; [| |contradiction].
      * specialize (up _ eq_refl).
        wp_step. wp_use polygon_progress_spec as o s3 post3.
        destruct post3 as (bot3 & out3 & res3).
        assert (two : transactions (bot s2) = transactions (bot s) ++ [r1] ++
                        [{| timestamp := now_isoformat (world s2); tx_hash := tx2;
                            from_token := USDT_ADDRESS; to_token := USDC_ADDRESS;
                            amount_in := leg2_amount usdt_balance;
                            amount_out := o2; gas_fee_matic := fee2 |}] /\
                      transaction_count (bot s2) = transaction_count (bot s) + 2).
        { rewrite res2, res1.
          cbn [bot transaction_count transactions record_swap].
          rewrite <- app_assoc. split; [reflexivity|lia]. }
        destruct two as (txs2 & tc2).
        destruct o as [[]|].
        -- wp_steps. unfold cycle_post. cbn [bot world output]. rewrite out3.
           extend_output. rewrite bot3.
           split; [events_ok|]. split; [queried_ok|].
           split; [eapply polygon_grows_trans; eassumption|].
           split; [congruence|].
           split; [apply both; announce_ok|].
           split; [exact tc2|]. split; [count_ok|]. split; [exact up|].
           eexists r1, _, s1. split; [exact txs2|].
           split; [exact leg1|exact sizeB].
        -- destruct res3 as (tenth & rate).
           unfold cycle_post. rewrite out3. extend_output. rewrite bot3.
           split; [events_ok|]. split; [queried_ok|].
           split; [eapply polygon_grows_trans; eassumption|].
           split; [congruence|].
           split; [apply both; announce_ok|].
           split; [count_ok|]. right. right.
           eexists r1, _, s1. split; [exact txs2|]. split; [exact tc2|].
           split; [exact leg1|]. split; [exact sizeB|].
           split; [exact tenth|]. split; [exact rate|exact up].
      * wp_steps. unfold cycle_post. extend_output.
        split; [events_ok|]. split; [queried_ok|].
        split; [eapply polygon_grows_trans; eassumption|].
        split; [congruence|].
        split; [apply both; announce_ok|].
        rewrite res2, res1. cbn [bot transaction_count transactions record_swap].
        split; [count_ok|]. split; [count_ok|].
        right. exists r1, s1. auto.
    + wp_steps. unfold cycle_post. extend_output.
      split; [events_ok|]. split; [queried_ok|].
      split; [assumption|]. split; [congruence|].
      split.
      { right. left. exists (leg1_amount full fixed usdc_balance).
        split; [exact sizeA|announce_ok]. }
      rewrite res1. split; [count_ok|]. split; [count_ok|]. left. reflexivity.
Qed.

(** The events that a cycle adds, and what they announce. *)
Lemma polygon_cycle_announces i full fixed (s : Polygon.St) evs :
  output (snd (cycle i full fixed s)) = output s ++ evs ->
  legs_announced full fixed s evs.
Proof.
  intros out.
  destruct (polygon_cycle_spec i full fixed s)
    as (evs' & out' & _ & _ & _ & _ & said & _).
  rewrite out' in out. apply app_inv_head in out. subst evs'. exact said.
Qed.

(** A swap of A into B that a cycle announces has the size of the
    first leg. *)
Lemma polygon_cycle_first_size i full fixed (s : Polygon.St) evs size :
  output (snd (cycle i full fixed s)) = output s ++ evs ->
  In (USDC_ADDRESS, USDT_ADDRESS, size) (announced evs) ->
  first_leg_size full fixed s = Some size.
Proof.
  intros out said.
  destruct (polygon_cycle_announces i full fixed s evs out)
    as [none | [(size1 & is1 & one) | (size1 & result & s1 & size2 & is1 & _ & _ & two)]].
  - rewrite none in said. contradiction.
  - rewrite one in said. destruct said as [same|[]].
    injection same as <-. exact is1.
  - rewrite two in said. destruct said as [same|[other|[]]].
    + injection same as <-. exact is1.
    + discriminate other.
Qed.

(** A swap of B into A that a cycle announces comes after the first
    swap has returned, and has the size of the second leg. *)
Lemma polygon_cycle_second_size i full fixed (s : Polygon.St) evs size :
  output (snd (cycle i full fixed s)) = output s ++ evs ->
  In (USDT_ADDRESS, USDC_ADDRESS, size) (announced evs) ->
  exists result s1,
    first_leg_returned full fixed s result s1 /\ second_leg_size s1 = Some size.
Proof.
  intros out said.
  destruct (polygon_cycle_announces i full fixed s evs out)
    as [none | [(size1 & is1 & one)
               | (size1 & result & s1 & size2 & is1 & returned & is2 & two)]].
  - rewrite none in said. contradiction.
  - rewrite one in said. destruct said as [other|[]]. discriminate other.
  - rewrite two in said. destruct said as [other|[same|[]]].
    + discriminate other.
    + injection same as <-. exists result, s1. split; [exact returned|exact is2].
Qed.

(** What raises in an iteration: a query of a balance, or the rate of
    the progress line after a successful cycle. *)
Lemma polygon_cycle_raised i full fixed (s s' : Polygon.St) :
  cycle_post i full fixed s Raise s' ->
  query_raised \/ (rate_raised (bot s') /\ ~ gateway_down).
Proof.
  intros (evs & _ & _ & _ & _ & _ & _ & _ & [(none & _) | [second | third]]).
  - left. left. exists USDC_ADDRESS, 6%N, (world s). exact none.
  - destruct second as (r1 & s1 & _ & _ & _ & none).
    left. left. exists USDT_ADDRESS, 6%N, (world (snd (sleep 3 s1))). exact none.
  - destruct third as (r1 & r2 & s1 & _ & _ & _ & _ & _ & rate & up).
    right. split; assumption.
Qed.

Lemma polygon_cycles_spec full fixed n : forall i successful failed (s : Polygon.St),
  wp (cycles n i full fixed successful failed)
     (cycles_post n successful failed s) s.
Proof.
  induction n as [|n IH]; intros i successful failed s; cbn [cycles].
  - wp_step. exists []. rewrite app_nil_r, !count_nil.
    repeat split; try reflexivity; try lia. apply grows_refl.
  - wp_step. wp_use polygon_cycle_spec as o s1 post1.
    pose proof post1 as (evs1 & out1 & ev1 & asked1 & g1 & st1 & _ & res1).
    destruct o as [[|]|].
    + destruct res1 as (tc1 & partial1 & up & _).
      wp_use IH as o s2 post2.
      destruct post2 as (evs2 & out2 & ev2 & g2 & st2 & res2).
      exists (evs1 ++ evs2).
      rewrite out2, out1, app_assoc, forallb_app, ev1, ev2.
      split; [reflexivity|]. split; [reflexivity|].
      split; [eapply polygon_grows_trans; eassumption|].
      split; [congruence|].
      rewrite !count_app, asked1.
      pose proof (count_nonneg usdc_queried evs2).
      destruct o as [[successful' failed']|].
      * destruct res2 as (le_s & le_f & total & asked2 & tc2 & partial2 & down2).
        repeat split; try lia. intros down. contradiction.
      * destruct res2 as (asked2 & cause). split; [lia|exact cause].
    + destruct res1 as (tc1 & partial1 & _).
      wp_use IH as o s2 post2.
      destruct post2 as (evs2 & out2 & ev2 & g2 & st2 & res2).
      exists (evs1 ++ evs2).
      rewrite out2, out1, app_assoc, forallb_app, ev1, ev2.
      split; [reflexivity|]. split; [reflexivity|].
      split; [eapply polygon_grows_trans; eassumption|].
      split; [congruence|].
      rewrite !count_app, asked1.
      pose proof (count_nonneg usdc_queried evs2).
      pose proof (count_nonneg partial_leg evs1).
      destruct o as [[successful' failed']|].
      * destruct res2 as (le_s & le_f & total & asked2 & tc2 & partial2 & down2).
        repeat split; try lia. exact down2.
      * destruct res2 as (asked2 & cause). split; [lia|exact cause].
    + exists evs1. split; [exact out1|]. split; [exact ev1|].
      split; [exact g1|]. split; [exact st1|].
      split; [lia|]. exact (polygon_cycle_raised post1).
Qed.

Lemma polygon_query_event_not_saved e : query_event e = true -> saved e = false.
Proof. destruct e as [[]| |[]|]; simpl; congruence. Qed.

Lemma polygon_query_event_not_partial e :
  query_event e = true -> partial_leg e = false.
Proof. destruct e as [[]| |[]|]; simpl; congruence. Qed.

Lemma polygon_cycle_event_not_saved e : cycle_event e = true -> saved e = false.
Proof. destruct e as [[]| |[]|]; simpl; congruence. Qed.

Lemma polygon_approve_event_not_queried e :
  approve_event e = true -> usdc_queried e = false.
Proof. destruct e as [[]| |[]|]; simpl; congruence. Qed.

(** [approve_token] leaves the bot alone and only makes calls; it
    returns [False] only when the allowance is not positive, and
    raises only when the query of the allowance does. *)
Lemma polygon_approve_token_spec token spender (s : Polygon.St) :
  wp (approve_token token spender)
     (fun o s' =>
        bot s' = bot s /\
        (exists evs, output s' = output s ++ evs /\
                     forallb approve_event evs = true) /\
        match o with
        | Val true => True
        | Val false =>
            exists allowance,
              fst (allowance_rpc token spender (world s)) = Some allowance /\
              allowance <= 0
        | Raise => fst (allowance_rpc token spender (world s)) = None
        end) s.
Proof.
  unfold approve_token, rpc.
  wp_step. wp_step.
  match goal with e : allowance_rpc _ _ _ = _ |- _ => rename e into asked end.
  assert (answer : fst (allowance_rpc token spender (world s)) = a)
    by (rewrite asked; reflexivity).
  clear asked. subst a.
  wp_step. wp_step.
  2:{ cbn [bot world output]. split; [reflexivity|]. split; [|reflexivity].
      eexists. split; reflexivity. }
  wp_step.
  { wp_step. cbn [bot world output]. split; [reflexivity|].
    split; [eexists; split; reflexivity|exact I]. }
  match goal with e : (_ >? 0) = false |- _ => rename e into nothing end.
  match goal with
  | |- context [Some ?z = Some _] =>
      assert (refused : exists allowance, Some z = Some allowance /\ allowance <= 0)
        by (exists z; split; [reflexivity|lia])
  end.
  wp_steps; cbn [bot world output].
  all: split; [reflexivity|].
  all: rewrite <- ?app_assoc; cbn [app].
  all: split; [eexists; split; reflexivity|].
  all: first [exact I | exact refused].
Qed.

Lemma polygon_query_events evs :
  forallb query_event evs = true ->
  count saved evs = 0 /\ count partial_leg evs = 0.
Proof.
  intros all. split.
  - exact (count_excluded saved query_event _ polygon_query_event_not_saved all).
  - exact (count_excluded partial_leg query_event _
             polygon_query_event_not_partial all).
Qed.

(** [_generate_report] leaves the bot alone.  It saves the report
    last, after the three queries of the balances; or it raises, at
    one of these queries or at the rate, and saves nothing. *)
Lemma polygon_generate_report_spec successful failed (s : Polygon.St) :
  wp (_generate_report successful failed)
     (fun o s' =>
        bot s' = bot s /\
        exists evs,
          forallb query_event evs = true /\
          match o with
          | Val _ =>
              exists final_usdc duration rate,
                output s' = output s ++ evs ++
                  [Saved (report_of (bot s) successful failed final_usdc
                                    duration rate)] /\
                count usdc_queried evs = 1
          | Raise =>
              output s' = output s ++ evs /\
              (query_raised \/ rate_raised (bot s))
          end) s.
Proof.
  unfold _generate_report, clock.
  wp_step. wp_step.
  match goal with e : time_time _ = _ |- _ => rename e into read end.
  wp_step. wp_step. wp_step. cbn [bot world output]. wp_step.
  2:{ split; [reflexivity|]. exists []. split; [reflexivity|].
      rewrite app_nil_r. split; [reflexivity|]. right.
      exists (world s). unfold rate_since.
      match goal with e : start_time _ = None |- _ => rewrite e end.
      reflexivity. }
  match goal with e : start_time _ = Some _ |- _ => rename e into at_start end.
  cbn zeta. wp_step.
  wp_use polygon_get_balance_spec as o s1 post1.
  destruct post1 as (_ & bot1 & out1 & seen1). cbn [bot world output] in *.
  destruct o as [final_usdc|].
  2:{ split; [exact bot1|]. exists [Called (CGetBalance USDC_ADDRESS)].
      split; [reflexivity|]. split; [exact out1|]. left. left.
      eexists _, _, _. exact seen1. }
  wp_step. wp_use polygon_get_balance_spec as o s2 post2.
  destruct post2 as (_ & bot2 & out2 & seen2).
  destruct o as [final_usdt|].
  2:{ split; [congruence|].
      exists [Called (CGetBalance USDC_ADDRESS); Called (CGetBalance USDT_ADDRESS)].
      split; [reflexivity|]. split.
      { rewrite out2, out1, <- app_assoc. reflexivity. }
      left. left. eexists _, _, _. exact seen2. }
  wp_step. wp_use polygon_get_matic_balance_spec as o s3 post3.
  destruct post3 as (bot3 & out3 & seen3).
  assert (out : output s3 = output s ++
                  [Called (CGetBalance USDC_ADDRESS);
                   Called (CGetBalance USDT_ADDRESS); Called CGetMaticBalance]).
  { rewrite out3, out2, out1, <- !app_assoc. reflexivity. }
  assert (same : bot s3 = bot s) by congruence.
  destruct o as [final_matic|].
  2:{ split; [exact same|]. eexists. split; [|split; [exact out|]].
      - reflexivity.
      - left. right. left. eexists. exact seen3. }
  wp_step. wp_step. wp_step. wp_step.
  + wp_step. cbn [bot world output]. split; [exact same|].
    eexists. split; [|eexists _, _, _; split;
                      [rewrite out, <- app_assoc, same; reflexivity|]].
    * reflexivity.
    * reflexivity.
  + split; [exact same|]. eexists. split; [|split; [exact out|]].
    * reflexivity.
    * right. exists (world s). unfold rate_since. rewrite read. cbn [fst].
      rewrite at_start, <- same.
      match goal with e : rate_per_minute _ _ = None |- _ => exact e end.
Qed.

Lemma polygon_approve_event_startup e :
  approve_event e = true -> startup_event e = true.
Proof. destruct e as [[]| |[]|]; simpl; congruence. Qed.

Lemma polygon_startup_event_not_saved e : startup_event e = true -> saved e = false.
Proof. destruct e as [[]| |[]|]; simpl; congruence. Qed.

Lemma polygon_startup_event_not_partial e :
  startup_event e = true -> partial_leg e = false.
Proof. destruct e as [[]| |[]|]; simpl; congruence. Qed.

Lemma polygon_approve_events evs :
  forallb approve_event evs = true ->
  forallb startup_event evs = true /\ count usdc_queried evs = 0.
Proof.
  intros all. split.
  - exact (forallb_weaken approve_event startup_event _
             polygon_approve_event_startup all).
  - exact (count_excluded usdc_queried approve_event _
             polygon_approve_event_not_queried all).
Qed.



(** The events of the start of a run: no report, no failed second
    leg. *)
Lemma polygon_startup_events evs :
  forallb startup_event evs = true ->
  count saved evs = 0 /\ count partial_leg evs = 0.
Proof.
  intros all. split.
  - exact (count_excluded saved startup_event _ polygon_startup_event_not_saved all).
  - exact (count_excluded partial_leg startup_event _
             polygon_startup_event_not_partial all).
Qed.

Lemma polygon_cycle_events_unsaved evs :
  forallb cycle_event evs = true -> count saved evs = 0.
Proof.
  exact (count_excluded saved cycle_event _ polygon_cycle_event_not_saved).
Qed.

Lemma polygon_run_spec num_cycles full fixed (s : Polygon.St) :
  wp (run num_cycles full fixed) (run_post num_cycles s) s.
Proof.
  unfold run.
  wp_step. wp_use polygon_get_balance_spec as o s1 post1.
  destruct post1 as (_ & bot1 & out1 & seen1).
  destruct o as [usdc_balance|].
  2:{ exists [Called (CGetBalance USDC_ADDRESS)]. split; [exact out1|].
      rewrite bot1. split; [apply grows_refl|]. split; [reflexivity|].
      left. left. eexists _, _, _. exact seen1. }
  wp_step. wp_use polygon_get_balance_spec as o s2 post2.
  destruct post2 as (_ & bot2 & out2 & seen2).
  destruct o as [usdt_balance|].
  2:{ exists [Called (CGetBalance USDC_ADDRESS); Called (CGetBalance USDT_ADDRESS)].
      rewrite out2, out1, <- app_assoc. split; [reflexivity|].
      rewrite bot2, bot1. split; [apply grows_refl|]. split; [reflexivity|].
      left. left. eexists _, _, _. exact seen2. }
  wp_step. wp_use polygon_get_matic_balance_spec as o s3 post3.
  destruct post3 as (bot3 & out3 & seen3).
  set (start := [Called (CGetBalance USDC_ADDRESS);
                 Called (CGetBalance USDT_ADDRESS); Called CGetMaticBalance]).
  assert (out : output s3 = output s ++ start).
  { rewrite out3, out2, out1, <- !app_assoc. reflexivity. }
  assert (same : bot s3 = bot s) by congruence.
  clear out1 out2 out3 bot1 bot2 bot3 seen2.
  destruct o as [matic_balance|].
  2:{ exists start. split; [exact out|]. rewrite same.
      split; [apply grows_refl|]. split; [reflexivity|].
      left. right. left. eexists. exact seen3. }
  clear seen3.
  assert (start_ok : forallb startup_event start = true) by reflexivity.
  assert (start_asked : count usdc_queried start = 1) by reflexivity.
  clearbody start.
  unfold print.
  wp_step.
  { (* the starting balance is below the minimum *)
    match goal with e : Py.lt _ _ = true |- _ => rename e into low end.
    wp_step. cbn [bot world output].
    exists (start ++ [Printed InsufficientStart]).
    rewrite out, app_assoc. split; [reflexivity|].
    rewrite same. split; [apply grows_refl|].
    left. rewrite !count_app, !count_one. cbn [saved usdc_queried].
    rewrite (proj1 (polygon_startup_events _ start_ok)), start_asked.
    split; [reflexivity|]. split; [reflexivity|]. split; [reflexivity|].
    exists start, InsufficientStart. split; [reflexivity|]. left.
    split; [reflexivity|]. exists usdc_balance. split; assumption. }
  match goal with e : Py.lt _ _ = false |- _ => rename e into enough end.
  assert (started : exists balance,
             balance_seen USDC_ADDRESS s = Some balance /\
             Py.lt balance 1 = false)
    by (exists usdc_balance; split; assumption).
  clear seen1 enough.
  wp_step.
  (* the warning about gas, if any, joins the start-up events *)
  match goal with
  | |- wp (if ?b then _ else _) ?Q ?s0 =>
      assert (warn : exists start',
                 forallb startup_event start' = true /\
                 count usdc_queried start' = 1 /\
                 wp (if b then emit (Printed LowMatic) else ret tt)
                    (fun o s' => o = Val tt /\ bot s' = bot s /\
                                 output s' = output s ++ start') s0);
      [ destruct b;
        [ exists (start ++ [Printed LowMatic]); split;
          [ rewrite forallb_app, start_ok; reflexivity
          | split;
            [ rewrite count_app, count_one, start_asked; reflexivity
            | apply wp_emit; cbn [bot world output]; rewrite out, app_assoc;
              auto ] ]
        | exists start; split; [assumption|]; split; [assumption|];
          apply wp_ret; auto ]
      | ]
  end.
  destruct warn as (start' & start'_ok & start'_asked & warn).
  eapply wp_mono; [exact warn|]. cbn beta.
  intros o s4 (-> & bot4 & out4). clear warn start_ok start_asked out same s3 start.
  do 3 wp_step. cbn [bot world output].
  wp_use polygon_approve_token_spec as o s5 post5.
  destruct post5 as (bot5 & (evs5 & out5 & ev5) & res5).
  cbn [bot world output] in *.
  destruct (polygon_approve_events _ ev5) as (ev5' & asked5).
  assert (g5 : grows (bot s) (bot s5)).
  { rewrite bot5, bot4. apply grows_initial, grows_refl. }
  assert (tc5 : transaction_count (bot s5) = transaction_count (bot s)).
  { rewrite bot5, bot4. reflexivity. }
  assert (out5' : exists start2, output s5 = output s ++ start2 /\
                                 forallb startup_event start2 = true /\
                                 count usdc_queried start2 = 1).
  { exists (start' ++ evs5).
    rewrite out5, out4, app_assoc, forallb_app, start'_ok, count_app.
    split; [reflexivity|]. split; [exact ev5'|]. lia. }
  clear out5 ev5 ev5' asked5 evs5 out4 start'_ok start'_asked start' bot5 bot4.
  destruct out5' as (start2 & out5 & ev5 & asked5).
  destruct (polygon_startup_events _ ev5) as (unsaved5 & whole5).
  destruct o as [[|]|]; cbn [negb]; cycle 1.
  { (* the approval of A has failed *)
    wp_step. cbn [bot world output].
    exists (start2 ++ [Printed (ApproveFailed USDC_ADDRESS)]).
    rewrite out5, app_assoc. split; [reflexivity|]. split; [assumption|].
    left. rewrite !count_app, !count_one. cbn [saved usdc_queried].
    rewrite unsaved5, asked5.
    split; [reflexivity|]. split; [assumption|]. split; [reflexivity|].
    eexists _, _. split; [reflexivity|]. right. exists USDC_ADDRESS.
    split; [reflexivity|]. split; [exact started|].
    destruct res5 as (allowance & asked & none). eexists _, _.
    split; [exact asked|exact none]. }
  { (* the allowance of A cannot be read *)
    exists start2. split; [exact out5|]. split; [assumption|].
    split; [exact unsaved5|]. left. right. right. eexists _, _, _. exact res5. }
  clear res5.
  wp_step.
  wp_use polygon_approve_token_spec as o s6 post6.
  destruct post6 as (bot6 & (evs6 & out6 & ev6) & res6).
  destruct (polygon_approve_events _ ev6) as (ev6' & asked6).
  destruct (polygon_startup_events _ ev6') as (unsaved6 & whole6).
  destruct o as [[|]|]; cbn [negb]; cycle 1.
  { (* the approval of B has failed *)
    wp_step. cbn [bot world output].
    exists (start2 ++ evs6 ++ [Printed (ApproveFailed USDT_ADDRESS)]).
    rewrite out6, out5, <- !app_assoc. split; [reflexivity|].
    rewrite bot6. split; [assumption|].
    left. rewrite !count_app, !count_one. cbn [saved usdc_queried].
    rewrite unsaved5, unsaved6, asked5, asked6.
    split; [reflexivity|]. split; [assumption|]. split; [reflexivity|].
    exists (start2 ++ evs6), (ApproveFailed USDT_ADDRESS).
    rewrite <- app_assoc. split; [reflexivity|]. right. exists USDT_ADDRESS.
    split; [reflexivity|]. split; [exact started|].
    destruct res6 as (allowance & asked & none). eexists _, _.
    split; [exact asked|exact none]. }
  { (* the allowance of B cannot be read *)
    exists (start2 ++ evs6). rewrite out6, out5, <- app_assoc.
    split; [reflexivity|]. rewrite bot6. split; [assumption|].
    rewrite count_app, unsaved5, unsaved6. split; [reflexivity|].
    left. right. right. eexists _, _, _. exact res6. }
  clear res6.
  unfold clock. do 4 wp_step. cbn [bot world output].
  match goal with e : time_time _ = _ |- _ => clear e end.
  wp_step.
  match goal with |- wp _ _ ?here => set (s7 := here) end.
  assert (bot7 : grows (bot s) (bot s7)).
  { subst s7. cbn [bot]. rewrite bot6. apply grows_started. exact g5. }
  assert (tc7 : transaction_count (bot s7) = transaction_count (bot s)).
  { subst s7. cbn [bot set_start_time transaction_count]. rewrite bot6. exact tc5. }
  assert (out7 : output s7 = output s ++ start2 ++ evs6).
  { subst s7. cbn [output]. rewrite out6, out5, <- app_assoc. reflexivity. }
  clearbody s7. clear bot6 out6 out5 g5 tc5.
  wp_use polygon_cycles_spec as o s8 post8.
  destruct post8 as (evs8 & out8 & ev8 & g8 & _ & res8).
  pose proof (polygon_cycle_events_unsaved _ ev8) as unsaved8.
  destruct o as [[successful failed]|].
  2:{ (* an iteration has raised *)
    exists (start2 ++ evs6 ++ evs8). rewrite out8, out7, <- !app_assoc.
    split; [reflexivity|].
    split; [eapply polygon_grows_trans; eassumption|].
    rewrite !count_app, unsaved5, unsaved6, unsaved8. split; [reflexivity|].
    destruct res8 as (_ & [query|(rate & _)]); [left|right]; assumption. }
  destruct res8 as (le_s & le_f & total & asked8 & tc8 & partial8 & down8).
  wp_use polygon_generate_report_spec as o s9 post9.
  destruct post9 as (bot9 & evs9 & ev9 & res9).
  destruct (polygon_query_events _ ev9) as (unsaved9 & whole9).
  destruct o as [[]|].
  2:{ (* the report has raised *)
    destruct res9 as (out9 & cause).
    exists (start2 ++ evs6 ++ evs8 ++ evs9).
    rewrite out9, out8, out7, <- !app_assoc. split; [reflexivity|].
    rewrite bot9.
    split; [eapply polygon_grows_trans; eassumption|].
    rewrite !count_app, unsaved5, unsaved6, unsaved8, unsaved9.
    split; [reflexivity|]. exact cause. }
  destruct res9 as (final_usdc & duration & rate & out9 & asked9).
  set (r := report_of (bot s8) successful failed final_usdc duration rate) in *.
  exists (start2 ++ evs6 ++ evs8 ++ evs9 ++ [Saved r]).
  rewrite out9, out8, out7, <- !app_assoc. split; [reflexivity|].
  rewrite bot9.
  split; [eapply polygon_grows_trans; eassumption|].
  right. exists (start2 ++ evs6 ++ evs8 ++ evs9), r.
  rewrite <- !app_assoc. split; [reflexivity|].
  rewrite !count_app, !count_one. cbn [saved partial_leg usdc_queried].
  rewrite unsaved5, unsaved6, unsaved8, unsaved9, whole5, whole6, whole9.
  rewrite asked5, asked6, asked8, asked9.
  pose proof (count_nonneg partial_leg evs8).
  cbn [r report_of successful_cycles failed_cycles]. rewrite tc8, tc7.
  repeat split; try reflexivity; try lia; try exact started.
  - eexists _, _, _. reflexivity.
  - intros down. specialize (down8 down). lia.
Qed.



End Facts.

End PolygonFacts.

(** * The Solana bot: what a swap, a cycle and a run do *)

Module SolanaFacts.

Import Solana.
Local Open Scope Z_scope.

Section Facts.

Context {World : Type} `{Gateway World}.

Lemma solana_grows_trans b1 b2 b3 : grows b1 b2 -> grows b2 b3 -> grows b1 b3.
Proof.
  intros g12 g23. induction g23.
  - assumption.
  - apply grows_swap. assumption.
  - apply grows_initial. assumption.
Qed.

Lemma solana_fsum_snoc xs x : Py.fsum (xs ++ [x]) = PrimFloat.add (Py.fsum xs) x.
Proof. unfold Py.fsum. rewrite fold_left_app. reflexivity. Qed.

Lemma solana_grows_counted b b' : grows b b' -> counted b -> counted b'.
Proof.
  unfold counted. intros g c.
  induction g; cbn [record_swap transaction_count transactions].
  - exact c.
  - rewrite IHg, length_app. cbn [List.length]. lia.
  - exact IHg.
Qed.

Lemma solana_grows_summed b b' : grows b b' -> summed b -> summed b'.
Proof.
  unfold summed. intros g c.
  induction g; cbn [record_swap total_volume transactions].
  - exact c.
  - rewrite map_app. cbn [map]. rewrite solana_fsum_snoc, IHg. reflexivity.
  - exact IHg.
Qed.

Lemma solana_await_confirmation_spec sig input_mint output_mint amount expected_out polls :
  forall s : Solana.St,
    wp (await_confirmation polls sig input_mint output_mint amount expected_out)
       (await_post sig input_mint output_mint amount expected_out s) s.
Proof.
  induction polls as [|p polls IH]; intros s; cbn [await_confirmation].
  - wp_step. repeat split.
  - unfold confirmed_round, now.
    wp_step. wp_step. destruct p as [| |[| |fee]].
    all: wp_steps; cbn [bot world output].
    all: try apply IH.
    all: repeat split.
Qed.

Lemma solana_swap_tokens_jupiter_spec input_mint output_mint amount slippage
    (s : Solana.St) :
  wp (swap_tokens_jupiter input_mint output_mint amount slippage)
     (swap_post input_mint output_mint amount s) s.
Proof.
  unfold swap_tokens_jupiter, swap_post, print, rpc.
  wp_steps.
  all: try solve [ cbn [bot world output]; rewrite <- ?app_assoc;
                   first [ eexists; split; [reflexivity|]
                         | exists []; split; [symmetry; apply app_nil_r|] ];
                   split; reflexivity ].
  wp_use solana_await_confirmation_spec as o s1 post1.
  destruct post1 as (world1 & out1 & res1).
  cbn [bot world output] in *.
  destruct o as [[[[sig' out] fee]|]|]; [| |contradiction].
  - destruct res1 as (-> & -> & bot1).
    wp_step. rewrite out1, <- !app_assoc.
    eexists. split; [reflexivity|]. left.
    split; [reflexivity|]. rewrite world1. exact bot1.
  - wp_steps. cbn [bot world output]. rewrite out1, <- !app_assoc.
    eexists. split; [reflexivity|]. right.
    split; [exact res1|]. split; [reflexivity|].
    eexists [_; _; _; _]. split; reflexivity.
Qed.

Lemma solana_swap_post_grows input_mint output_mint amount s o s' :
  swap_post input_mint output_mint amount s o s' ->
  o <> Raise /\ grows (bot s) (bot s').
Proof.
  intros (evs & _ & res).
  destruct o as [[[[sig out] fee]|]|]; try contradiction.
  - split; [discriminate|]. destruct res as [[_ ->]|[-> _]].
    + apply grows_swap, grows_refl.
    + apply grows_refl.
  - split; [discriminate|]. destruct res as [-> _]. apply grows_refl.
Qed.

Lemma solana_get_token_balance_spec mint (s : Solana.St) :
  wp (get_token_balance mint) (returns_same s) s.
Proof.
  unfold get_token_balance, rpc, returns_same.
  wp_steps; cbn [bot]; split; (discriminate || reflexivity).
Qed.

Lemma solana_get_sol_balance_spec (s : Solana.St) :
  wp get_sol_balance (returns_same s) s.
Proof.
  unfold get_sol_balance, rpc, print, returns_same.
  wp_steps; cbn [bot]; split; (discriminate || reflexivity).
Qed.

Lemma solana_cycle_spec full fixed (s : Solana.St) :
  wp (cycle full fixed) (returns_grown s) s.
Proof.
  unfold cycle, print, sleep, returns_grown.
  wp_step. wp_use solana_get_token_balance_spec as o s1 post1.
  destruct post1 as [ok1 bot1]. destruct o as [usdc|]; [|congruence].
  wp_step.
  { wp_steps. cbn [bot]. rewrite bot1. split; [discriminate|apply grows_refl]. }
  cbn zeta. do 3 wp_step. wp_use solana_swap_tokens_jupiter_spec as o s2 post2.
  apply solana_swap_post_grows in post2. destruct post2 as [ok2 g2].
  cbn [bot] in g2. rewrite bot1 in g2.
  destruct o as [[result|]|]; [| |congruence].
  2:{ wp_steps. cbn [bot]. split; [discriminate|assumption]. }
  do 3 wp_step. wp_use solana_get_token_balance_spec as o s3 post3.
  destruct post3 as [ok3 bot3]. cbn [bot] in bot3.
  destruct o as [usdt|]; [|congruence].
  cbn zeta. do 3 wp_step. wp_use solana_swap_tokens_jupiter_spec as o s4 post4.
  apply solana_swap_post_grows in post4. destruct post4 as [ok4 g4].
  cbn [bot] in g4. rewrite bot3 in g4.
  destruct o as [[result'|]|]; [| |congruence].
  all: wp_steps; cbn [bot]; (split; [discriminate|]).
  all: eapply solana_grows_trans; eassumption.
Qed.

Lemma solana_cycles_spec full fixed n : forall successful failed (s : Solana.St),
  wp (cycles n full fixed successful failed) (returns_grown s) s.
Proof.
  induction n as [|n IH]; intros successful failed s; cbn [cycles].
  - wp_step. split; [discriminate|apply grows_refl].
  - wp_step. wp_use solana_cycle_spec as o s1 post1.
    destruct post1 as [ok1 g1]. destruct o as [ok|]; [|congruence].
    destruct ok; wp_use IH as o s2 post2; destruct post2 as [ok2 g2].
    all: split; [assumption|]; eapply solana_grows_trans; eassumption.
Qed.

Lemma solana_generate_report_spec successful failed (s : Solana.St) :
  wp (_generate_report successful failed) (returns_same s) s.
Proof.
  unfold _generate_report.
  wp_step. wp_use solana_get_token_balance_spec as o s1 post1.
  destruct post1 as [ok1 bot1]. destruct o as [usdc|]; [|congruence].
  wp_step. wp_use solana_get_token_balance_spec as o s2 post2.
  destruct post2 as [ok2 bot2]. destruct o as [usdt|]; [|congruence].
  wp_step. wp_use solana_get_sol_balance_spec as o s3 post3.
  destruct post3 as [ok3 bot3]. destruct o as [sol|]; [|congruence].
  wp_steps. split; [discriminate|]. cbn [bot]. congruence.
Qed.

Lemma solana_run_spec num_cycles full fixed (s : Solana.St) :
  wp (run num_cycles full fixed) (returns_grown s) s.
Proof.
  unfold run, print.
  wp_step. wp_use solana_get_token_balance_spec as o s1 post1.
  destruct post1 as [ok1 bot1]. destruct o as [usdc|]; [|congruence].
  wp_step. wp_use solana_get_token_balance_spec as o s2 post2.
  destruct post2 as [ok2 bot2]. destruct o as [usdt|]; [|congruence].
  wp_step. wp_use solana_get_sol_balance_spec as o s3 post3.
  destruct post3 as [ok3 bot3]. destruct o as [sol|]; [|congruence].
  assert (same : bot s3 = bot s) by congruence.
  wp_step.
  { wp_steps. cbn [bot]. rewrite same. split; [discriminate|apply grows_refl]. }
  wp_step.
  match goal with
  | |- wp (if ?b then _ else _) _ _ =>
      eapply wp_mono with (Q := returns_same s3);
      [ destruct b; wp_steps; split; (discriminate || reflexivity) | ]
  end.
  intros o s4 [ok4 bot4]. destruct o as [[]|]; [|congruence].
  do 3 wp_step.
  wp_use solana_cycles_spec as o s5 post5.
  destruct post5 as [ok5 g5]. cbn [bot] in g5.
  destruct o as [[successful failed]|]; [|congruence].
  wp_use solana_generate_report_spec as o s6 post6.
  destruct post6 as [ok6 bot6].
  split; [assumption|]. rewrite bot6.
  eapply solana_grows_trans; [|exact g5].
  rewrite bot4, same. apply grows_initial, grows_refl.
Qed.

(** Polls that show no confirmation leave the loop by its condition:
    nothing is recorded. *)
Lemma solana_await_pending sig input_mint output_mint amount expected_out polls :
  forallb pending polls = true ->
  forall s : Solana.St,
    await_confirmation polls sig input_mint output_mint amount expected_out s
    = (Val None, s).
Proof.
  induction polls as [|p polls IH]; intros all s; [reflexivity|].
  cbn [forallb] in all. apply andb_true_iff in all. destruct all as [one rest].
  cbn [await_confirmation]. unfold bind at 1. unfold try_except.
  destruct p as [| |tx]; [| |discriminate one]; cbn; apply IH; exact rest.
Qed.

(** A swap that is quoted, built, sent and accepted, and whose polls
    show no confirmation: the warning is printed and the tuple of the
    signature is returned, with the quoted amount and the estimated
    fee; the bot is as before. *)
Lemma solana_swap_timed_out input_mint output_mint amount slippage (s : Solana.St)
    lamports quoted expected_out w1 tx w2 sig w3 polls w4 :
  Py.int_of_float (PrimFloat.mul amount 1e6) = Some lamports ->
  lamports <> 0 ->
  jupiter_quote input_mint output_mint lamports slippage (world s)
  = (Some quoted, w1) ->
  Py.truediv_int_float quoted 1e6 = Some expected_out ->
  jupiter_swap_transaction w1 = (Some tx, w2) ->
  send_raw_transaction tx w2 = (SendSignature sig, w3) ->
  confirmation_polls sig 30 0.5 w3 = (polls, w4) ->
  forallb pending polls = true ->
  swap_tokens_jupiter input_mint output_mint amount slippage s
  = (Val (Some (sig, expected_out, 0.000005%float)),
     {| bot := bot s; world := w4;
        output := output s ++
                  [Called (CQuote input_mint output_mint lamports);
                   Called CSwapTransaction; Called CSendRaw;
                   Called (CAwaitConfirmation sig);
                   Printed (ConfirmationTimeout sig)] |}).
Proof.
  intros converted nonzero asked scaled made taken waited waiting.
  apply Z.eqb_neq in nonzero.
  unfold swap_tokens_jupiter, try_except, rpc, outbound, bind, must, print, emit,
    modify.
  rewrite converted. cbn beta iota delta [ret]. rewrite nonzero.
  rewrite asked. cbn beta iota delta [ret bot world output].
  rewrite scaled. cbn beta iota delta [ret bot world output].
  rewrite made. cbn beta iota delta [ret bot world output].
  rewrite taken. cbn beta iota delta [ret bot world output].
  rewrite waited. cbn beta iota delta [ret bot world output].
  rewrite (solana_await_pending _ _ _ _ _ _ waiting).
  cbn. rewrite <- !app_assoc. reflexivity.
Qed.

End Facts.


End SolanaFacts.

(** * The ultra-optimised bot: what an attempt, a swap, a cycle and a run do *)

Module SolanaUltraFacts.

Import SolanaUltra.
Local Open Scope Z_scope.

Section Facts.

Context {World : Type} `{Gateway World}.

Lemma ultra_grows_trans b1 b2 b3 : grows b1 b2 -> grows b2 b3 -> grows b1 b3.
Proof.
  intros g12 g23. induction g23.
  - assumption.
  - apply grows_swap. assumption.
  - apply grows_retry. assumption.
  - apply grows_initial. assumption.
Qed.


Lemma ultra_grows_counted b b' : grows b b' -> counted b -> counted b'.
Proof.
  unfold counted. intros g c.
  induction g; cbn [record_swap transaction_count transactions].
  - exact c.
  - rewrite IHg, length_app. cbn [List.length]. lia.
  - exact IHg.
  - exact IHg.
Qed.


Lemma ultra_sleeps_app evs evs' : sleeps (evs ++ evs') = sleeps evs ++ sleeps evs'.
Proof.
  induction evs as [|[| | |] evs IH]; cbn [sleeps app]; rewrite ?IH; reflexivity.
Qed.

Lemma ultra_announced_app evs evs' :
  announced (evs ++ evs') = announced evs ++ announced evs'.
Proof.
  induction evs as [|[| |[]|] evs IH]; cbn [announced app]; rewrite ?IH;
    reflexivity.
Qed.

Lemma ultra_await_confirmation_spec sig input_mint output_mint amount expected_out
    attempt_index polls :
  forall s : SolanaUltra.St,
    wp (await_confirmation polls sig input_mint output_mint amount expected_out
                           attempt_index)
       (await_post sig input_mint output_mint amount expected_out
                   attempt_index s) s.
Proof.
  induction polls as [|p polls IH]; intros s; cbn [await_confirmation].
  - wp_step. repeat split.
  - unfold confirmed_round, now.
    wp_step. wp_step. destruct p as [| |[| |fee]].
    all: wp_steps; cbn [bot world output].
    all: try apply IH.
    all: repeat split.
    all: eexists; reflexivity.
Qed.

Lemma ultra_attempt_swap_spec attempt_index input_mint output_mint amount slippage
    (s : SolanaUltra.St) :
  wp (attempt_swap attempt_index input_mint output_mint amount slippage)
     (attempt_post attempt_index input_mint output_mint amount s) s.
Proof.
  unfold attempt_swap, attempt_post, print, rpc.
  wp_steps.
  all: try solve [ cbn [bot world output]; rewrite <- ?app_assoc;
                   first [ eexists; split; [reflexivity|]
                         | exists []; split; [symmetry; apply app_nil_r|] ];
                   cbn; repeat split; lia ].
  wp_use ultra_await_confirmation_spec as o s1 post1.
  destruct post1 as (world1 & out1 & res1).
  cbn [bot world output] in *.
  destruct o as [[[[sig' out] fee]|]|]; [| |contradiction].
  - destruct res1 as (-> & -> & priority & bot1).
    wp_step. rewrite out1, <- !app_assoc.
    eexists. split; [reflexivity|]. cbn. repeat split; try lia.
    exists priority. rewrite world1. exact bot1.
  - wp_steps. cbn [bot world output]. rewrite out1, <- !app_assoc.
    eexists. split; [reflexivity|]. cbn. repeat split; try lia. exact res1.
Qed.

Lemma ultra_retried_count_retry k b : retried k (count_retry b) = retried (S k) b.
Proof. unfold retried. symmetry. apply Nat.iter_succ_r. Qed.

Lemma ultra_attempts_spec input_mint output_mint amount slippage remaining :
  forall attempt_index (s : SolanaUltra.St),
    wp (attempts remaining attempt_index input_mint output_mint amount slippage)
       (attempts_post remaining attempt_index input_mint output_mint amount s) s.
Proof.
  induction remaining as [|remaining IH]; intros attempt_index s;
    cbn [attempts].
  - wp_step. exists [], 0%nat. rewrite app_nil_r. cbn.
    repeat split; lia.
  - do 3 wp_step. wp_use ultra_attempt_swap_spec as o s1 post1.
    destruct post1 as (evs1 & out1 & sleeps1 & said1 & quotes1 & sends1 & res1).
    destruct o as [[[[sig out] fee]|]|].
    + destruct res1 as (priority & bot1). wp_steps.
      exists evs1, 0%nat. rewrite Z.add_0_r.
      repeat split; try assumption; try lia. exists priority. exact bot1.
    + wp_steps. exists evs1, 0%nat.
      repeat split; try assumption; lia.
    + unfold on_failure, print, sleep. do 3 wp_step.
      * cbn [bot world output] in *. rewrite res1 in *.
        apply Z.ltb_lt in Heqb.
        wp_steps. cbn [bot world output].
        wp_use IH as o s2 post2.
        destruct post2 as (evs2 & k & out2 & le_k & bound_k & sleeps2 & said2
                           & quotes2 & sends2 & res2).
        cbn [bot world output] in *. rewrite res1 in *.
        cbn [count_retry max_retries retry_delay] in *.
        exists (evs1 ++ [Printed (AttemptFailed (attempt_index + 1));
                         Slept (retry_delay (bot s))] ++ evs2), (S k).
        rewrite out2, out1, <- !app_assoc. split; [reflexivity|].
        rewrite !ultra_sleeps_app, sleeps1, sleeps2, !count_app, !count_cons, !count_nil.
        rewrite !ultra_announced_app, said1, said2.
        cbn [app sleeps announced quote_call send_call repeat].
        repeat (split; [try reflexivity; lia|]).
        destruct o as [[[[sig out] fee]|]|]; [| |contradiction].
        -- destruct res2 as (priority & bot2). exists priority.
           rewrite bot2, ultra_retried_count_retry.
           replace (attempt_index + Z.of_nat (S k) + 1)
             with (attempt_index + 1 + Z.of_nat k + 1) by lia.
           reflexivity.
        -- rewrite res2. apply ultra_retried_count_retry.
      * wp_steps.
        exists (evs1 ++ [Printed (SwapFailedAfter (max_retries (bot s)))]), 0%nat.
        cbn [bot world output]. rewrite out1, res1, <- !app_assoc.
        split; [reflexivity|].
        rewrite !ultra_sleeps_app, sleeps1, !count_app, !count_cons, !count_nil.
        rewrite !ultra_announced_app, said1.
        cbn [app sleeps announced quote_call send_call repeat retried Nat.iter].
        repeat split; try assumption; lia.
Qed.

(** What holds after [swap_tokens_jupiter]: [attempts_post] for the
    whole loop. *)
Lemma ultra_swap_tokens_jupiter_spec input_mint output_mint amount slippage
    (s : SolanaUltra.St) :
  wp (swap_tokens_jupiter input_mint output_mint amount slippage)
     (attempts_post (Z.to_nat (max_retries (bot s))) 0
                    input_mint output_mint amount s) s.
Proof.
  unfold swap_tokens_jupiter. do 2 wp_step. apply ultra_attempts_spec.
Qed.

Lemma ultra_retried_grows k b : grows b (retried k b).
Proof.
  unfold retried. induction k as [|k IH].
  - apply grows_refl.
  - rewrite Nat.iter_succ. apply grows_retry, IH.
Qed.

Lemma ultra_retried_transactions k b : transactions (retried k b) = transactions b.
Proof.
  unfold retried. induction k as [|k IH].
  - reflexivity.
  - rewrite Nat.iter_succ. exact IH.
Qed.

(** The retry policy is set once and for all: nothing that the bot
    does to itself changes [max_retries] or [retry_delay]. *)
Lemma ultra_grows_policy b b' :
  grows b b' ->
  max_retries b' = max_retries b /\ retry_delay b' = retry_delay b.
Proof.
  induction 1 as [|b' r _ IH|b' _ IH|b' x _ IH]; [split; reflexivity|..];
    exact IH.
Qed.

(** Counting retries touches the retry counter only. *)
Lemma ultra_retried_stats k b :
  total_volume (retried k b) = total_volume b /\
  total_fees_paid (retried k b) = total_fees_paid b /\
  total_priority_fees (retried k b) = total_priority_fees b /\
  transaction_count (retried k b) = transaction_count b /\
  transactions (retried k b) = transactions b /\
  max_retries (retried k b) = max_retries b /\
  retry_count (retried k b) = retry_count b + Z.of_nat k.
Proof.
  unfold retried. induction k as [|k IH].
  - cbn. repeat split; lia.
  - rewrite Nat.iter_succ. cbn [count_retry total_volume total_fees_paid
      total_priority_fees transaction_count transactions max_retries retry_count].
    destruct IH as (v & f & p & c & t & m & r).
    repeat split; try assumption. lia.
Qed.

Lemma ultra_attempts_post_grows remaining attempt_index input_mint output_mint amount
    s o s' :
  attempts_post remaining attempt_index input_mint output_mint amount s o s' ->
  o <> Raise /\ grows (bot s) (bot s').
Proof.
  intros (evs & k & _ & _ & _ & _ & _ & _ & _ & res).
  destruct o as [[[[sig out] fee]|]|]; try contradiction.
  - split; [discriminate|]. destruct res as (priority & ->).
    apply grows_swap, ultra_retried_grows.
  - split; [discriminate|]. rewrite res. apply ultra_retried_grows.
Qed.

Lemma ultra_get_token_balance_spec mint (s : SolanaUltra.St) :
  wp (get_token_balance mint) (returns_same s) s.
Proof.
  unfold get_token_balance, rpc, returns_same.
  wp_steps; cbn [bot]; split; (discriminate || reflexivity).
Qed.

Lemma ultra_get_sol_balance_spec (s : SolanaUltra.St) :
  wp get_sol_balance (returns_same s) s.
Proof.
  unfold get_sol_balance, rpc, print, returns_same.
  wp_steps; cbn [bot]; split; (discriminate || reflexivity).
Qed.

(** A balance query, with the balance it gets named. *)
Lemma ultra_get_token_balance_seen mint (s : SolanaUltra.St) :
  wp (get_token_balance mint)
     (fun o s' => o = Val (balance_seen mint s) /\ bot s' = bot s /\
                  s' = snd (get_token_balance mint s)) s.
Proof.
  eapply wp_mono.
  - apply wp_and; [apply ultra_get_token_balance_spec | apply wp_eq].
  - cbn beta. intros o s' [[ok same] eq]. unfold balance_seen.
    rewrite eq. cbn [fst snd]. destruct o; [auto|congruence].
Qed.

Lemma ultra_cycle_spec full fixed (s : SolanaUltra.St) :
  wp (cycle full fixed) (cycle_post full fixed s) s.
Proof.
  unfold cycle, cycle_post.
  wp_step. wp_use ultra_get_token_balance_seen as o sA postA.
  destruct postA as (-> & botA & eqA).
  assert (outA : exists evsA, output sA = output s ++ evsA /\ announced evsA = []).
  { rewrite eqA. unfold get_token_balance, rpc, bind, outbound.
    destruct (get_token_account_balance USDC_MINT (world s)) as [[| |[ui|]] w];
      cbn; eexists; split; reflexivity. }
  destruct outA as (evsA & outA & saidA).
  wp_step.
  { unfold print. wp_steps. cbn [bot output]. rewrite botA.
    split; [apply grows_refl|]. split; [|left; reflexivity].
    exists (evsA ++ [Printed InsufficientBalance]).
    rewrite outA, <- app_assoc. split; [reflexivity|]. left.
    rewrite ultra_announced_app, saidA. reflexivity. }
  cbn zeta. wp_step. unfold print at 1. wp_step.
  match goal with
  | |- wp _ _ ?here =>
      assert (there : here = at_first_leg full fixed s)
        by (unfold at_first_leg, print, emit, modify; rewrite <- eqA;
            reflexivity)
  end.
  unfold print.
  wp_step. wp_use ultra_swap_tokens_jupiter_spec as o s1 post1 eq1.
  rewrite there in eq1.
  pose proof (ultra_attempts_post_grows post1) as [ok1 g1].
  destruct post1 as (evs1 & k1 & out1 & _ & _ & _ & said1 & _ & _ & res1).
  cbn [bot world output] in *. rewrite botA in *.
  set (size1 := leg1_amount full fixed (balance_seen USDC_MINT s)) in *.
  assert (out1' : output s1
                  = output s ++ evsA ++ [Printed (Swapping size1 USDC_MINT
                                                           USDCE_MINT)] ++ evs1).
  { rewrite out1, outA, <- !app_assoc. reflexivity. }
  destruct o as [[[[sig1 o1] fee1]|]|]; [| |contradiction].
  2:{ wp_steps. cbn [bot output]. split; [assumption|]. split.
      - eexists. rewrite out1', <- !app_assoc. split; [reflexivity|].
        right. left.
        rewrite !ultra_announced_app, saidA, said1. reflexivity.
      - left. rewrite res1. apply ultra_retried_transactions. }
  destruct res1 as (priority1 & bot1).
  match type of bot1 with _ = record_swap ?r _ => set (r1 := r) in * end.
  assert (leg1 : first_leg full fixed s r1 s1).
  { split; [reflexivity|]. exact eq1. }
  wp_step. wp_use ultra_get_token_balance_seen as o sB postB.
  destruct postB as (-> & botB & eqB).
  assert (outB : exists evsB, output sB = output s1 ++ evsB /\ announced evsB = []).
  { rewrite eqB. unfold get_token_balance, rpc, bind, outbound.
    destruct (get_token_account_balance USDCE_MINT (world s1)) as [[| |[ui|]] w];
      cbn; eexists; split; reflexivity. }
  destruct outB as (evsB & outB & saidB).
  cbn zeta. fold (second_leg_size s1). do 3 wp_step.
  wp_use ultra_swap_tokens_jupiter_spec as o s2 post2.
  pose proof (ultra_attempts_post_grows post2) as [ok2 g2].
  destruct post2 as (evs2 & k2 & out2 & _ & _ & _ & said2 & _ & _ & res2).
  cbn [bot world output] in *. rewrite botB in *.
  assert (both : forall tail,
             announced tail = [] ->
             exists evs,
               output s2 ++ tail = output s ++ evs /\
               legs_announced full fixed s evs).
  { intros tail quiet. eexists.
    rewrite out2, outB, out1', <- !app_assoc. split; [reflexivity|].
    right. right. exists (sig1, o1, fee1), s1. split; [exact eq1|].
    rewrite !ultra_announced_app, saidA, said1, saidB, said2, quiet.
    reflexivity. }
  destruct o as [[[[sig2 o2'] fee2]|]|]; [| |contradiction].
  - destruct res2 as (priority2 & bot2). wp_steps.
    split; [eapply ultra_grows_trans; eassumption|]. split.
    { destruct (both [] eq_refl) as (evs & out & said).
      rewrite app_nil_r in out. exists evs. split; assumption. }
    eexists r1, _, s1. split; [|split; [exact leg1|]].
    + rewrite bot2. cbn [transactions record_swap].
      rewrite ultra_retried_transactions, bot1. cbn [transactions record_swap].
      rewrite ultra_retried_transactions, <- app_assoc. reflexivity.
    + reflexivity.
  - wp_steps. cbn [bot output].
    split; [eapply ultra_grows_trans; eassumption|]. split.
    { apply both. reflexivity. }
    right. exists r1, s1. split; [|exact leg1].
    rewrite res2, ultra_retried_transactions, bot1. cbn [transactions record_swap].
    rewrite ultra_retried_transactions. reflexivity.
Qed.

(** The events that a cycle adds, and what they announce. *)
Lemma ultra_cycle_announces full fixed (s : SolanaUltra.St) evs :
  output (snd (cycle full fixed s)) = output s ++ evs ->
  legs_announced full fixed s evs.
Proof.
  intros out.
  destruct (ultra_cycle_spec full fixed s) as (_ & (evs' & out' & said) & _).
  rewrite out' in out. apply app_inv_head in out. subst evs'. exact said.
Qed.

Lemma ultra_cycle_first_size full fixed (s : SolanaUltra.St) evs size :
  output (snd (cycle full fixed s)) = output s ++ evs ->
  In (USDC_MINT, USDCE_MINT, size) (announced evs) ->
  size = leg1_amount full fixed (balance_seen USDC_MINT s).
Proof.
  intros out said.
  destruct (ultra_cycle_announces full fixed s evs out)
    as [none | [one | (result & s1 & _ & two)]].
  - rewrite none in said. contradiction.
  - rewrite one in said. destruct said as [same|[]].
    injection same as <-. reflexivity.
  - rewrite two in said. destruct said as [same|[other|[]]].
    + injection same as <-. reflexivity.
    + discriminate other.
Qed.

Lemma ultra_cycle_second_size full fixed (s : SolanaUltra.St) evs size :
  output (snd (cycle full fixed s)) = output s ++ evs ->
  In (USDCE_MINT, USDC_MINT, size) (announced evs) ->
  exists result s1,
    first_leg_returned full fixed s result s1 /\ size = second_leg_size s1.
Proof.
  intros out said.
  destruct (ultra_cycle_announces full fixed s evs out)
    as [none | [one | (result & s1 & returned & two)]].
  - rewrite none in said. contradiction.
  - rewrite one in said. destruct said as [other|[]]. discriminate other.
  - rewrite two in said. destruct said as [other|[same|[]]].
    + discriminate other.
    + injection same as <-. exists result, s1. split; [exact returned|reflexivity].
Qed.

Lemma ultra_cycles_spec full fixed n : forall successful failed (s : SolanaUltra.St),
  wp (cycles n full fixed successful failed) (returns_grown s) s.
Proof.
  induction n as [|n IH]; intros successful failed s; cbn [cycles].
  - wp_step. split; [discriminate|apply grows_refl].
  - wp_step. wp_use ultra_cycle_spec as o s1 post1.
    destruct post1 as (g1 & _ & res1). destruct o as [ok|]; [|contradiction].
    destruct ok; wp_use IH as o s2 post2; destruct post2 as [ok2 g2].
    all: split; [assumption|]; eapply ultra_grows_trans; eassumption.
Qed.

Lemma ultra_generate_report_spec successful failed (s : SolanaUltra.St) :
  wp (_generate_report successful failed) (returns_same s) s.
Proof.
  unfold _generate_report.
  wp_step. wp_use ultra_get_token_balance_spec as o s1 post1.
  destruct post1 as [ok1 bot1]. destruct o as [usdc|]; [|congruence].
  wp_step. wp_use ultra_get_token_balance_spec as o s2 post2.
  destruct post2 as [ok2 bot2]. destruct o as [usdce|]; [|congruence].
  wp_step. wp_use ultra_get_sol_balance_spec as o s3 post3.
  destruct post3 as [ok3 bot3]. destruct o as [sol|]; [|congruence].
  wp_steps. split; [discriminate|]. cbn [bot]. congruence.
Qed.

(** [run] may raise while it estimates the gas, before the loop;
    whatever it does, the bot has grown. *)
Lemma ultra_run_spec num_cycles full fixed (s : SolanaUltra.St) :
  wp (run num_cycles full fixed) (fun _ s' => grows (bot s) (bot s')) s.
Proof.
  unfold run, print, expected_total.
  wp_step. wp_use ultra_get_token_balance_spec as o s1 post1.
  destruct post1 as [ok1 bot1]. destruct o as [usdc|]; [|congruence].
  wp_step. wp_use ultra_get_token_balance_spec as o s2 post2.
  destruct post2 as [ok2 bot2]. destruct o as [usdce|]; [|congruence].
  wp_step. wp_use ultra_get_sol_balance_spec as o s3 post3.
  destruct post3 as [ok3 bot3]. destruct o as [sol|]; [|congruence].
  assert (same : bot s3 = bot s) by congruence.
  wp_step.
  { wp_steps. cbn [bot]. rewrite same. apply grows_refl. }
  wp_steps.
  all: cbn [bot world output].
  all: try solve [rewrite same; apply grows_refl].
  all: wp_use ultra_cycles_spec as o s5 post5.
  all: destruct post5 as [ok5 g5]; cbn [bot] in g5.
  all: destruct o as [[successful failed]|]; [|congruence].
  all: wp_use ultra_generate_report_spec as o s6 post6.
  all: destruct post6 as [ok6 bot6].
  all: rewrite bot6.
  all: eapply ultra_grows_trans; [|exact g5].
  all: rewrite same; apply grows_initial, grows_refl.
Qed.

(** *** The loop of attempts, one attempt at a time *)

Lemma ultra_on_failure_retry attempt_index (s : SolanaUltra.St) :
  attempt_index < max_retries (bot s) - 1 ->
  on_failure attempt_index s
  = (Val Continue,
     {| bot := count_retry (bot s);
        world := sleep_rpc (retry_delay (bot s)) (world s);
        output := output s ++ [Printed (AttemptFailed (attempt_index + 1));
                               Slept (retry_delay (bot s))] |}).
Proof.
  intros less. apply Z.ltb_lt in less.
  unfold on_failure, bind, get. rewrite less.
  cbn. rewrite <- app_assoc. reflexivity.
Qed.

Lemma ultra_on_failure_give_up attempt_index (s : SolanaUltra.St) :
  max_retries (bot s) - 1 <= attempt_index ->
  on_failure attempt_index s
  = (Val (Return None),
     {| bot := bot s; world := world s;
        output := output s ++ [Printed (SwapFailedAfter (max_retries (bot s)))] |}).
Proof.
  intros over. apply Z.ltb_ge in over.
  unfold on_failure, bind, get. rewrite over. reflexivity.
Qed.

Lemma ultra_attempts_raised remaining attempt_index input_mint output_mint amount
    slippage (s s1 : SolanaUltra.St) :
  attempt_swap attempt_index input_mint output_mint amount slippage s
  = (Raise, s1) ->
  attempts (S remaining) attempt_index input_mint output_mint amount slippage s
  = if attempt_index <? max_retries (bot s1) - 1
    then attempts remaining (attempt_index + 1) input_mint output_mint amount
                  slippage (after_failure attempt_index s1)
    else (Val None, after_failure attempt_index s1).
Proof.
  intros raised. cbn [attempts]. unfold after_failure.
  unfold bind at 1. unfold try_except. unfold bind at 1. rewrite raised.
  destruct (Z.ltb_spec attempt_index (max_retries (bot s1) - 1)) as [less|over].
  - rewrite (ultra_on_failure_retry _ less). reflexivity.
  - rewrite (ultra_on_failure_give_up _ over). reflexivity.
Qed.

Lemma ultra_attempts_returned remaining attempt_index input_mint output_mint amount
    slippage (s s1 : SolanaUltra.St) result :
  attempt_swap attempt_index input_mint output_mint amount slippage s
  = (Val result, s1) ->
  attempts (S remaining) attempt_index input_mint output_mint amount slippage s
  = (Val result, s1).
Proof.
  intros returned. cbn [attempts].
  unfold bind at 1. unfold try_except. unfold bind at 1. rewrite returned.
  reflexivity.
Qed.

(** An attempt that raises leaves the bot as it was. *)
Lemma ultra_attempt_raised_bot attempt_index input_mint output_mint amount slippage
    (s s1 : SolanaUltra.St) :
  attempt_swap attempt_index input_mint output_mint amount slippage s
  = (Raise, s1) ->
  bot s1 = bot s.
Proof.
  intros raised.
  destruct (wp_run _ _ _ (ultra_attempt_swap_spec attempt_index input_mint
                          output_mint amount slippage s) raised)
    as (evs & _ & _ & _ & _ & _ & same).
  exact same.
Qed.

Lemma ultra_after_failure_retry attempt_index (s : SolanaUltra.St) :
  attempt_index < max_retries (bot s) - 1 ->
  bot (after_failure attempt_index s) = count_retry (bot s).
Proof.
  intros less. unfold after_failure.
  rewrite (ultra_on_failure_retry _ less). reflexivity.
Qed.

Lemma ultra_after_failure_give_up attempt_index (s : SolanaUltra.St) :
  max_retries (bot s) - 1 <= attempt_index ->
  bot (after_failure attempt_index s) = bot s.
Proof.
  intros over. unfold after_failure.
  rewrite (ultra_on_failure_give_up _ over). reflexivity.
Qed.

(** With three attempts allowed, a swap whose first two attempts raise
    goes on as its third attempt, two retries being counted. *)
Lemma ultra_two_failures input_mint output_mint amount slippage
    (s s1 s2 : SolanaUltra.St) :
  max_retries (bot s) = 3 ->
  attempt_swap 0 input_mint output_mint amount slippage s = (Raise, s1) ->
  attempt_swap 1 input_mint output_mint amount slippage (after_failure 0 s1)
  = (Raise, s2) ->
  swap_tokens_jupiter input_mint output_mint amount slippage s
  = attempts 1 2 input_mint output_mint amount slippage (after_failure 1 s2) /\
  max_retries (bot (after_failure 1 s2)) = 3 /\
  retry_count (bot (after_failure 1 s2)) = retry_count (bot s) + 2.
Proof.
  intros three first second.
  pose proof (ultra_attempt_raised_bot _ _ _ _ _ _ first) as bot1.
  pose proof (ultra_attempt_raised_bot _ _ _ _ _ _ second) as bot2.
  assert (retry1 : bot (after_failure 0 s1) = count_retry (bot s)).
  { rewrite ultra_after_failure_retry; rewrite bot1; [reflexivity|lia]. }
  assert (retry2 : bot (after_failure 1 s2) = count_retry (count_retry (bot s))).
  { rewrite ultra_after_failure_retry; rewrite bot2, retry1; [reflexivity|].
    cbn [count_retry max_retries]. lia. }
  split; [|rewrite retry2; cbn [count_retry max_retries retry_count]; lia].
  unfold swap_tokens_jupiter, bind, get. cbn beta iota.
  rewrite three. change (Z.to_nat 3) with 3%nat.
  erewrite ultra_attempts_raised; [|exact first].
  rewrite bot1, three. cbn [Z.ltb Z.sub Z.add Z.compare Z.opp Z.pos_sub
                            Pos.pred_double].
  change (0 + 1) with 1.
  erewrite ultra_attempts_raised; [|exact second].
  rewrite bot2, retry1. cbn [count_retry max_retries]. rewrite three.
  reflexivity.
Qed.

(** *** A gateway that never confirms *)

Lemma ultra_await_pending sig input_mint output_mint amount expected_out
    attempt_index polls :
  forallb pending polls = true ->
  forall s : SolanaUltra.St,
    await_confirmation polls sig input_mint output_mint amount expected_out
                       attempt_index s
    = (Val None, s).
Proof.
  induction polls as [|p polls IH]; intros all s; [reflexivity|].
  cbn [forallb] in all. apply andb_true_iff in all. destruct all as [one rest].
  cbn [await_confirmation]. unfold bind at 1. unfold try_except.
  destruct p as [| |tx]; [| |discriminate one]; cbn; apply IH; exact rest.
Qed.

Lemma ultra_attempt_unconfirmed attempt_index input_mint output_mint amount
    slippage (s : SolanaUltra.St) :
  never_confirms ->
  wp (attempt_swap attempt_index input_mint output_mint amount slippage)
     (fun o _ => o = Val None \/ o = Raise) s.
Proof.
  intros silent. unfold attempt_swap, print, rpc.
  wp_steps; auto.
  unfold wp. rewrite ultra_await_pending.
  - cbn. auto.
  - match goal with
    | e : confirmation_polls ?sig ?t ?p ?w = _ |- _ =>
        specialize (silent sig t p w); rewrite e in silent; exact silent
    end.
Qed.

Lemma ultra_attempts_unconfirmed input_mint output_mint amount slippage remaining :
  never_confirms ->
  forall attempt_index (s : SolanaUltra.St),
    fst (attempts remaining attempt_index input_mint output_mint amount
                  slippage s) = Val None.
Proof.
  intros silent. induction remaining as [|remaining IH]; intros attempt_index s;
    [reflexivity|].
  destruct (attempt_swap attempt_index input_mint output_mint amount slippage s)
    as [o s1] eqn:run.
  pose proof (wp_run _ _ _ (ultra_attempt_unconfirmed attempt_index input_mint
                            output_mint amount slippage s silent) run)
    as [-> | ->].
  - erewrite ultra_attempts_returned; [reflexivity|exact run].
  - erewrite ultra_attempts_raised; [|exact run].
    destruct (attempt_index <? max_retries (bot s1) - 1); [apply IH|reflexivity].
Qed.

(** *** An attempt that is sent and never confirmed *)

(** The attempt asks for the quote and for the transaction, sends it,
    waits for the confirmation, and raises: the bot is as before. *)
Lemma ultra_attempt_timed_out attempt_index input_mint output_mint amount slippage
    lamports (s : SolanaUltra.St) :
  accepts input_mint output_mint lamports slippage ->
  never_confirms ->
  Py.int_of_float (PrimFloat.mul amount 1e6) = Some lamports ->
  lamports <> 0 ->
  exists sig w,
    attempt_swap attempt_index input_mint output_mint amount slippage s
    = (Raise,
       {| bot := bot s; world := w;
          output := output s ++
                    [Called (CQuote input_mint output_mint lamports);
                     Called CSwapTransaction; Called CSendRaw;
                     Called (CAwaitConfirmation sig)] |}).
Proof.
  intros (quoted & built & sent) silent converted nonzero.
  apply Z.eqb_neq in nonzero.
  unfold attempt_swap, rpc, outbound, bind, must, get.
  rewrite converted. cbn beta iota delta [ret]. rewrite nonzero.
  destruct (quoted (world s)) as (q & expected_out & asked & scaled).
  destruct (jupiter_quote input_mint output_mint lamports slippage (world s))
    as [answer w1].
  cbn [fst] in asked. subst answer. cbn beta iota delta [ret bot world output].
  rewrite scaled. cbn beta iota delta [ret bot world output].
  destruct (built (priority_fee (bot s)) w1) as (tx & made).
  destruct (jupiter_swap_transaction (priority_fee (bot s)) w1) as [answer w2].
  cbn [fst] in made. subst answer. cbn beta iota delta [ret bot world output].
  destruct (sent tx w2) as (sig & taken).
  destruct (send_raw_transaction tx w2) as [answer w3].
  cbn [fst] in taken. subst answer. cbn beta iota delta [ret bot world output].
  pose proof (silent sig 15%float 0.3%float w3) as waiting.
  destruct (confirmation_polls sig 15 0.3 w3) as [polls w4].
  cbn [fst] in waiting.
  rewrite (ultra_await_pending _ _ _ _ _ _ _ waiting).
  exists sig, w4. cbn. rewrite <- !app_assoc. reflexivity.
Qed.

Lemma ultra_retried_policy k b :
  max_retries (retried k b) = max_retries b /\
  retry_delay (retried k b) = retry_delay b.
Proof.
  induction k as [|k IH]; [split; reflexivity|].
  unfold retried in *. cbn [Nat.iter]. exact IH.
Qed.

(** When no attempt is confirmed, each of the [remaining] attempts is
    made in full, a retry is counted and slept on between two of
    them, and the loop ends in [None]. *)
Lemma ultra_attempts_timed_out input_mint output_mint amount slippage lamports :
  accepts input_mint output_mint lamports slippage ->
  never_confirms ->
  Py.int_of_float (PrimFloat.mul amount 1e6) = Some lamports ->
  lamports <> 0 ->
  forall remaining attempt_index (s : SolanaUltra.St),
    max_retries (bot s) = attempt_index + Z.of_nat (S remaining) ->
    fst (attempts (S remaining) attempt_index input_mint output_mint amount
                  slippage s) = Val None /\
    bot (snd (attempts (S remaining) attempt_index input_mint output_mint amount
                       slippage s)) = retried remaining (bot s) /\
    exists evs,
      output (snd (attempts (S remaining) attempt_index input_mint output_mint
                            amount slippage s)) = output s ++ evs /\
      count quote_call evs = Z.of_nat (S remaining) /\
      count send_call evs = Z.of_nat (S remaining) /\
      count wait_call evs = Z.of_nat (S remaining) /\
      sleeps evs = repeat (retry_delay (bot s)) remaining.
Proof.
  intros taken silent converted nonzero.
  induction remaining as [|remaining IH]; intros attempt_index s bound.
  - destruct (ultra_attempt_timed_out attempt_index amount s taken silent
                converted nonzero) as (sig & w & raised).
    erewrite ultra_attempts_raised; [|exact raised].
    cbn [bot]. replace (attempt_index <? max_retries (bot s) - 1) with false
      by (symmetry; apply Z.ltb_ge; lia).
    unfold after_failure. rewrite ultra_on_failure_give_up by (cbn [bot]; lia).
    cbn [fst snd bot world output]. split; [reflexivity|].
    split; [reflexivity|]. rewrite <- app_assoc. eexists.
    split; [reflexivity|]. repeat split.
  - destruct (ultra_attempt_timed_out attempt_index amount s taken silent
                converted nonzero) as (sig & w & raised).
    erewrite ultra_attempts_raised; [|exact raised].
    cbn [bot]. replace (attempt_index <? max_retries (bot s) - 1) with true
      by (symmetry; apply Z.ltb_lt; lia).
    unfold after_failure. rewrite ultra_on_failure_retry by (cbn [bot]; lia).
    cbn [snd bot world output].
    match goal with
    | |- context [attempts (S remaining) (attempt_index + 1) _ _ _ _ ?here] =>
        destruct (IH (attempt_index + 1) here) as (none & same & evs & out & rest)
    end.
    { cbn [bot count_retry max_retries]. lia. }
    split; [exact none|]. cbn [bot] in same.
    split; [rewrite same; apply ultra_retried_count_retry|].
    rewrite out. cbn [output bot count_retry retry_delay] in *.
    destruct rest as (quotes & sends & waits & slept).
    rewrite <- !app_assoc. eexists. split; [reflexivity|].
    cbn [app sleeps]. rewrite !count_cons.
    cbn [quote_call send_call wait_call]. rewrite quotes, sends, waits, slept.
    repeat split; try lia.
Qed.

End Facts.




End SolanaUltraFacts.

(** * The properties of the specification *)

Local Open Scope Z_scope.

Section CountingMore.

Context {E : Type}.

Lemma count_zero_In (p : E -> bool) l e :
  count p l = 0%Z -> In e l -> p e = false.
Proof.
  induction l as [|x l IH]; cbn [In]; [contradiction|].
  rewrite count_cons. pose proof (count_nonneg p l).
  intros zero [->|inl].
  - destruct (p e); [lia|reflexivity].
  - apply IH; [destruct (p x); lia|assumption].
Qed.

End CountingMore.

(** ** Transaction count and successful cycles (C1) *)

(** C1, as the code has it.  After [run] of the Polygon bot has
    returned, either the run has stopped on a start-up error and the
    counter is as before, or the report is the last event and the counter
    has grown by two for every successful cycle and by one for every
    failed cycle that printed that its second swap failed (its first swap
    was confirmed and recorded); there are at most as many of these as
    failed cycles.  A run that raises saves no report.  The second part
    is the same for one cycle: a successful cycle adds two to the counter,
    a failed one adds one or none; an iteration that raises has added
    none, one or two, and has not printed that its second swap failed. *)
Theorem C1_transaction_count_after_run :
  forall (World : Type) (C : Polygon.Chain World) (num_cycles : Z) (full : bool)
         (fixed : float) (s : Polygon.St),
    (exists evs,
       output (snd (Polygon.run num_cycles full fixed s)) = output s ++ evs /\
       match fst (Polygon.run num_cycles full fixed s) with
       | Val _ =>
           (count Polygon.saved evs = 0 /\
            Polygon.transaction_count (bot (snd (Polygon.run num_cycles full fixed s)))
            = Polygon.transaction_count (bot s))
           \/
           (exists evs' r,
              evs = evs' ++ [Polygon.Saved r] /\
              count Polygon.saved evs' = 0 /\
              Polygon.report_transaction_count r
              = Polygon.transaction_count
                  (bot (snd (Polygon.run num_cycles full fixed s))) /\
              Polygon.transaction_count
                (bot (snd (Polygon.run num_cycles full fixed s)))
              = Polygon.transaction_count (bot s) + 2 * Polygon.successful_cycles r
                + count Polygon.partial_leg evs /\
              0 <= count Polygon.partial_leg evs <= Polygon.failed_cycles r)
       | Raise => count Polygon.saved evs = 0
       end)
    /\
    (forall i,
       exists evs,
         output (snd (Polygon.cycle i full fixed s)) = output s ++ evs /\
         match fst (Polygon.cycle i full fixed s) with
         | Val true =>
             Polygon.transaction_count (bot (snd (Polygon.cycle i full fixed s)))
             = Polygon.transaction_count (bot s) + 2 /\
             count Polygon.partial_leg evs = 0
         | Val false =>
             Polygon.transaction_count (bot (snd (Polygon.cycle i full fixed s)))
             = Polygon.transaction_count (bot s) + count Polygon.partial_leg evs /\
             0 <= count Polygon.partial_leg evs <= 1
         | Raise =>
             count Polygon.partial_leg evs = 0 /\
             Polygon.transaction_count (bot s)
             <= Polygon.transaction_count (bot (snd (Polygon.cycle i full fixed s)))
             <= Polygon.transaction_count (bot s) + 2
         end).
Proof.
  intros World C num_cycles full fixed s. split.
  - pose proof (PolygonFacts.polygon_run_spec num_cycles full fixed s) as ran.
    unfold wp, Polygon.run_post in ran. destruct ran as (evs & out & _ & res).
    exists evs. split; [exact out|].
    destruct (fst (Polygon.run num_cycles full fixed s)) as [[]|].
    + destruct res as [(none & same & _) | (evs' & r & -> & rest)].
      * left. split; assumption.
      * destruct rest as (none & _ & _ & _ & _ & built & tc & partial & _).
        destruct built as (final_usdc & duration & rate & built).
        right. exists evs', r. split; [reflexivity|]. split; [exact none|].
        split; [rewrite built; reflexivity|]. split; [exact tc|exact partial].
    + apply res.
  - intros i.
    pose proof (PolygonFacts.polygon_cycle_spec i full fixed s) as ran.
    unfold wp, Polygon.cycle_post in ran.
    destruct ran as (evs & out & _ & _ & _ & _ & _ & res).
    exists evs. split; [exact out|].
    destruct (fst (Polygon.cycle i full fixed s)) as [[|]|].
    + destruct res as (tc & partial & _). split; assumption.
    + destruct res as (tc & partial & _).
      pose proof (count_nonneg Polygon.partial_leg evs). repeat split; assumption.
    + destruct res as (partial & [(_ & same) | [second | third]]).
      * rewrite same. split; [exact partial|]. lia.
      * destruct second as (r1 & s1 & _ & tc & _). split; [exact partial|]. lia.
      * destruct third as (r1 & r2 & s1 & _ & tc & _). split; [exact partial|]. lia.
Qed.

(** C1 as stated fails: with one cycle whose first swap is confirmed and
    whose second swap fails, the run reports no successful cycle and one
    transaction. *)
Lemma C1_counterexample_second_leg_fails :
  map Polygon.successful_cycles (Polygon.reports (output Scripted.partial_run)) = [0]
  /\ map Polygon.failed_cycles (Polygon.reports (output Scripted.partial_run)) = [1]
  /\ map Polygon.report_transaction_count
         (Polygon.reports (output Scripted.partial_run)) = [1]
  /\ Polygon.transaction_count (bot Scripted.partial_run) = 1
  /\ Polygon.transaction_count (bot Scripted.partial_run) <> 2 * 0.
Proof.
  vm_compute. repeat split; discriminate.
Qed.

(** ** The run goes through all its cycles (C5) *)




(** ** The volume is the sum of the recorded input amounts (C3) *)




(** ** The counter is the number of records (C8) *)

(** C8.  For the three bots: [transaction_count] is the length of
    [transactions] when the bot is created, and stays so through every
    swap call, every cycle, every number of iterations of the loop and
    every run, so at every point between two operations of a run.  A swap
    call either appends one record and adds one to the counter, or leaves
    both as they were; nothing else in a run touches them. *)
Theorem C8_transaction_count_is_number_of_records :
  (Polygon.counted Polygon.init_bot /\
   forall (World : Type) (C : Polygon.Chain World) (s : Polygon.St),
     Polygon.counted (bot s) ->
     (forall token_in token_out amount decimals_in decimals_out slippage,
        Polygon.counted
          (bot (snd (Polygon.swap_tokens token_in token_out amount decimals_in
                                         decimals_out slippage s))) /\
        ((exists r,
            Polygon.transactions
              (bot (snd (Polygon.swap_tokens token_in token_out amount decimals_in
                                             decimals_out slippage s)))
            = Polygon.transactions (bot s) ++ [r] /\
            Polygon.transaction_count
              (bot (snd (Polygon.swap_tokens token_in token_out amount decimals_in
                                             decimals_out slippage s)))
            = Polygon.transaction_count (bot s) + 1)
         \/
         (Polygon.transactions
            (bot (snd (Polygon.swap_tokens token_in token_out amount decimals_in
                                           decimals_out slippage s)))
          = Polygon.transactions (bot s) /\
          Polygon.transaction_count
            (bot (snd (Polygon.swap_tokens token_in token_out amount decimals_in
                                           decimals_out slippage s)))
          = Polygon.transaction_count (bot s)))) /\
     (forall i full fixed,
        Polygon.counted (bot (snd (Polygon.cycle i full fixed s)))) /\
     (forall n i full fixed successful failed,
        Polygon.counted
          (bot (snd (Polygon.cycles n i full fixed successful failed s)))) /\
     (forall num_cycles full fixed,
        Polygon.counted (bot (snd (Polygon.run num_cycles full fixed s)))))
  /\
  (Solana.counted Solana.init_bot /\
   forall (World : Type) (G : Solana.Gateway World) (s : Solana.St),
     Solana.counted (bot s) ->
     (forall input_mint output_mint amount slippage,
        Solana.counted
          (bot (snd (Solana.swap_tokens_jupiter input_mint output_mint amount
                                                slippage s))) /\
        ((exists r,
            Solana.transactions
              (bot (snd (Solana.swap_tokens_jupiter input_mint output_mint amount
                                                    slippage s)))
            = Solana.transactions (bot s) ++ [r] /\
            Solana.transaction_count
              (bot (snd (Solana.swap_tokens_jupiter input_mint output_mint amount
                                                    slippage s)))
            = Solana.transaction_count (bot s) + 1)
         \/
         (Solana.transactions
            (bot (snd (Solana.swap_tokens_jupiter input_mint output_mint amount
                                                  slippage s)))
          = Solana.transactions (bot s) /\
          Solana.transaction_count
            (bot (snd (Solana.swap_tokens_jupiter input_mint output_mint amount
                                                  slippage s)))
          = Solana.transaction_count (bot s)))) /\
     (forall full fixed, Solana.counted (bot (snd (Solana.cycle full fixed s)))) /\
     (forall n full fixed successful failed,
        Solana.counted (bot (snd (Solana.cycles n full fixed successful failed s)))) /\
     (forall num_cycles full fixed,
        Solana.counted (bot (snd (Solana.run num_cycles full fixed s)))))
  /\
  ((forall priority_fee, SolanaUltra.counted (SolanaUltra.init_bot priority_fee)) /\
   forall (World : Type) (G : SolanaUltra.Gateway World) (s : SolanaUltra.St),
     SolanaUltra.counted (bot s) ->
     (forall input_mint output_mint amount slippage,
        SolanaUltra.counted
          (bot (snd (SolanaUltra.swap_tokens_jupiter input_mint output_mint amount
                                                     slippage s))) /\
        ((exists r,
            SolanaUltra.transactions
              (bot (snd (SolanaUltra.swap_tokens_jupiter input_mint output_mint
                                                         amount slippage s)))
            = SolanaUltra.transactions (bot s) ++ [r] /\
            SolanaUltra.transaction_count
              (bot (snd (SolanaUltra.swap_tokens_jupiter input_mint output_mint
                                                         amount slippage s)))
            = SolanaUltra.transaction_count (bot s) + 1)
         \/
         (SolanaUltra.transactions
            (bot (snd (SolanaUltra.swap_tokens_jupiter input_mint output_mint amount
                                                       slippage s)))
          = SolanaUltra.transactions (bot s) /\
          SolanaUltra.transaction_count
            (bot (snd (SolanaUltra.swap_tokens_jupiter input_mint output_mint amount
                                                       slippage s)))
          = SolanaUltra.transaction_count (bot s)))) /\
     (forall full fixed,
        SolanaUltra.counted (bot (snd (SolanaUltra.cycle full fixed s)))) /\
     (forall n full fixed successful failed,
        SolanaUltra.counted
          (bot (snd (SolanaUltra.cycles n full fixed successful failed s)))) /\
     (forall num_cycles full fixed,
        SolanaUltra.counted (bot (snd (SolanaUltra.run num_cycles full fixed s))))).
Proof.
  split; [|split].
  - split; [reflexivity|]. intros World C s cnt. repeat split.
    + eapply PolygonFacts.polygon_grows_counted; [|exact cnt].
      eapply PolygonFacts.polygon_swap_post_grows.
      apply PolygonFacts.polygon_swap_tokens_spec.
    + destruct (PolygonFacts.polygon_swap_tokens_spec token_in token_out amount
                  decimals_in decimals_out slippage s) as (evs & _ & _ & res).
      destruct (fst (Polygon.swap_tokens _ _ _ _ _ _ s)) as [[[[tx out] fee]|]|];
        [| |contradiction]; rewrite res.
      * left. eexists. split; reflexivity.
      * right. split; reflexivity.
    + intros i full fixed.
      destruct (PolygonFacts.polygon_cycle_spec i full fixed s)
        as (evs & _ & _ & _ & g & _).
      exact (PolygonFacts.polygon_grows_counted g cnt).
    + intros n i full fixed successful failed.
      destruct (PolygonFacts.polygon_cycles_spec full fixed n i successful failed s)
        as (evs & _ & _ & g & _).
      exact (PolygonFacts.polygon_grows_counted g cnt).
    + intros num_cycles full fixed.
      destruct (PolygonFacts.polygon_run_spec num_cycles full fixed s)
        as (evs & _ & g & _).
      exact (PolygonFacts.polygon_grows_counted g cnt).
  - split; [reflexivity|]. intros World G s cnt. repeat split.
    + eapply SolanaFacts.solana_grows_counted; [|exact cnt].
      eapply SolanaFacts.solana_swap_post_grows.
      apply SolanaFacts.solana_swap_tokens_jupiter_spec.
    + destruct (SolanaFacts.solana_swap_tokens_jupiter_spec input_mint output_mint
                  amount slippage s) as (evs & _ & res).
      destruct (fst (Solana.swap_tokens_jupiter _ _ _ _ s))
        as [[[[tx out] fee]|]|]; [| |contradiction].
      * destruct res as [[_ ->]|[-> _]].
        -- left. eexists. split; reflexivity.
        -- right. split; reflexivity.
      * destruct res as [-> _]. right. split; reflexivity.
    + intros full fixed.
      destruct (SolanaFacts.solana_cycle_spec full fixed s) as (_ & g).
      exact (SolanaFacts.solana_grows_counted g cnt).
    + intros n full fixed successful failed.
      destruct (SolanaFacts.solana_cycles_spec full fixed n successful failed s)
        as (_ & g).
      exact (SolanaFacts.solana_grows_counted g cnt).
    + intros num_cycles full fixed.
      destruct (SolanaFacts.solana_run_spec num_cycles full fixed s) as (_ & g).
      exact (SolanaFacts.solana_grows_counted g cnt).
  - split; [reflexivity|]. intros World G s cnt. repeat split.
    + eapply SolanaUltraFacts.ultra_grows_counted; [|exact cnt].
      eapply SolanaUltraFacts.ultra_attempts_post_grows.
      apply SolanaUltraFacts.ultra_swap_tokens_jupiter_spec.
    + destruct (SolanaUltraFacts.ultra_swap_tokens_jupiter_spec input_mint output_mint
                  amount slippage s) as (evs & k & _ & _ & _ & _ & _ & _ & _ & res).
      destruct (SolanaUltraFacts.ultra_retried_stats k (bot s))
        as (_ & _ & _ & tc & txs & _).
      destruct (fst (SolanaUltra.swap_tokens_jupiter _ _ _ _ s))
        as [[[[tx out] fee]|]|]; [| |contradiction].
      * destruct res as (priority & ->).
        cbn [SolanaUltra.record_swap SolanaUltra.transaction_count
             SolanaUltra.transactions].
        rewrite tc, txs. left. eexists. split; reflexivity.
      * rewrite res. right. split; assumption.
    + intros full fixed.
      destruct (SolanaUltraFacts.ultra_cycle_spec full fixed s) as (g & _).
      exact (SolanaUltraFacts.ultra_grows_counted g cnt).
    + intros n full fixed successful failed.
      destruct (SolanaUltraFacts.ultra_cycles_spec full fixed n successful failed s)
        as (_ & g).
      exact (SolanaUltraFacts.ultra_grows_counted g cnt).
    + intros num_cycles full fixed.
      exact (SolanaUltraFacts.ultra_grows_counted
               (SolanaUltraFacts.ultra_run_spec num_cycles full fixed s) cnt).
Qed.

(** C8 on a fresh bot of each kind, after a run. *)
Lemma C8_witness_after_runs :
  (Polygon.counted (bot Scripted.polygon_start) /\
   Polygon.counted (bot Scripted.partial_run)) /\
  (Solana.counted (bot Scripted.solana_start) /\
   Solana.counted (bot Scripted.solana_run)) /\
  (SolanaUltra.counted (bot Scripted.ultra_start) /\
   SolanaUltra.counted (bot Scripted.ultra_run)).
Proof.
  assert (fresh : Polygon.counted (bot Scripted.polygon_start)) by reflexivity.
  assert (fresh' : Solana.counted (bot Scripted.solana_start)) by reflexivity.
  assert (fresh'' : SolanaUltra.counted (bot Scripted.ultra_start)) by reflexivity.
  split; [|split].
  - split; [exact fresh|].
    apply (proj2 (proj1 C8_transaction_count_is_number_of_records) nat
             (Scripted.chain Scripted.first_only 100 1) Scripted.polygon_start fresh).
  - split; [exact fresh'|].
    apply (proj2 (proj1 (proj2 C8_transaction_count_is_number_of_records)) nat
             (Scripted.gateway Scripted.first_only 100
                               [PollPending; PollConfirmed (TxFee 5000)])
             Scripted.solana_start fresh').
  - split; [exact fresh''|].
    apply (proj2 (proj2 (proj2 C8_transaction_count_is_number_of_records)) nat
             (Scripted.ultra_gateway Scripted.always 100 [PollConfirmed TxNoMeta])
             Scripted.ultra_start fresh'').
Defined.

(** ** A failed swap leaves the statistics alone (C9) *)

(** C9.  When a swap call of the Polygon bot or of the ultra-optimised
    bot returns [None], [total_volume], [total_fees_paid],
    [transaction_count] and [transactions] are what they were before the
    call (for the Polygon bot the whole bot object is); the retry counter
    of the ultra-optimised bot may only have grown. *)
Theorem C9_failed_swap_keeps_statistics :
  (forall (World : Type) (C : Polygon.Chain World) token_in token_out amount
          decimals_in decimals_out slippage (s : Polygon.St),
     fst (Polygon.swap_tokens token_in token_out amount decimals_in decimals_out
                              slippage s) = Val None ->
     bot (snd (Polygon.swap_tokens token_in token_out amount decimals_in decimals_out
                                   slippage s)) = bot s)
  /\
  (forall (World : Type) (G : SolanaUltra.Gateway World) input_mint output_mint
          amount slippage (s : SolanaUltra.St),
     fst (SolanaUltra.swap_tokens_jupiter input_mint output_mint amount slippage s)
     = Val None ->
     SolanaUltra.total_volume
       (bot (snd (SolanaUltra.swap_tokens_jupiter input_mint output_mint amount
                                                  slippage s)))
     = SolanaUltra.total_volume (bot s) /\
     SolanaUltra.total_fees_paid
       (bot (snd (SolanaUltra.swap_tokens_jupiter input_mint output_mint amount
                                                  slippage s)))
     = SolanaUltra.total_fees_paid (bot s) /\
     SolanaUltra.total_priority_fees
       (bot (snd (SolanaUltra.swap_tokens_jupiter input_mint output_mint amount
                                                  slippage s)))
     = SolanaUltra.total_priority_fees (bot s) /\
     SolanaUltra.transaction_count
       (bot (snd (SolanaUltra.swap_tokens_jupiter input_mint output_mint amount
                                                  slippage s)))
     = SolanaUltra.transaction_count (bot s) /\
     SolanaUltra.transactions
       (bot (snd (SolanaUltra.swap_tokens_jupiter input_mint output_mint amount
                                                  slippage s)))
     = SolanaUltra.transactions (bot s) /\
     SolanaUltra.retry_count (bot s)
     <= SolanaUltra.retry_count
          (bot (snd (SolanaUltra.swap_tokens_jupiter input_mint output_mint amount
                                                     slippage s)))).
Proof.
  split.
  - intros World C token_in token_out amount decimals_in decimals_out slippage s none.
    destruct (PolygonFacts.polygon_swap_tokens_spec token_in token_out amount
                decimals_in decimals_out slippage s) as (evs & _ & _ & res).
    rewrite none in res. exact res.
  - intros World G input_mint output_mint amount slippage s none.
    destruct (SolanaUltraFacts.ultra_swap_tokens_jupiter_spec input_mint output_mint
                amount slippage s) as (evs & k & _ & _ & _ & _ & _ & _ & _ & res).
    rewrite none in res. rewrite res.
    destruct (SolanaUltraFacts.ultra_retried_stats k (bot s))
      as (vol & fees & prio & tc & txs & _ & retries).
    repeat split; try assumption. lia.
Qed.

(** C9 on gateways that refuse every quote: the swap fails, after three
    attempts for the ultra-optimised bot. *)
Lemma C9_witness_refused_quotes :
  (fst (Polygon.swap_tokens (H := Scripted.chain Scripted.never 100 1)
          Polygon.USDC_ADDRESS Polygon.USDT_ADDRESS 5 6 6 5 Scripted.polygon_start)
   = Val None /\
   bot (snd (Polygon.swap_tokens (H := Scripted.chain Scripted.never 100 1)
               Polygon.USDC_ADDRESS Polygon.USDT_ADDRESS 5 6 6 5
               Scripted.polygon_start))
   = Polygon.init_bot)
  /\
  (fst (SolanaUltra.swap_tokens_jupiter
          (H := Scripted.ultra_gateway Scripted.never 100 [])
          SolanaUltra.USDC_MINT SolanaUltra.USDCE_MINT 5 50 Scripted.ultra_start)
   = Val None /\
   SolanaUltra.transaction_count
     (bot (snd (SolanaUltra.swap_tokens_jupiter
                  (H := Scripted.ultra_gateway Scripted.never 100 [])
                  SolanaUltra.USDC_MINT SolanaUltra.USDCE_MINT 5 50
                  Scripted.ultra_start)))
   = 0).
Proof.
  split.
  - assert (none : fst (Polygon.swap_tokens
                          (H := Scripted.chain Scripted.never 100 1)
                          Polygon.USDC_ADDRESS Polygon.USDT_ADDRESS 5 6 6 5
                          Scripted.polygon_start) = Val None) by reflexivity.
    split; [exact none|].
    exact (proj1 C9_failed_swap_keeps_statistics nat
             (Scripted.chain Scripted.never 100 1) _ _ _ _ _ _ _ none).
  - assert (none : fst (SolanaUltra.swap_tokens_jupiter
                          (H := Scripted.ultra_gateway Scripted.never 100 [])
                          SolanaUltra.USDC_MINT SolanaUltra.USDCE_MINT 5 50
                          Scripted.ultra_start) = Val None) by reflexivity.
    split; [exact none|].
    exact (proj1 (proj2 (proj2 (proj2
             (proj2 C9_failed_swap_keeps_statistics nat
                (Scripted.ultra_gateway Scripted.never 100 []) _ _ _ _ _ none))))).
Defined.

(** ** An amount below one base unit is refused at once (C10) *)

(** C10.  When the amount converts to zero base units, that is when
    [int(amount * 10 ** decimals)] is [0], the swap call returns [None] at
    once: the only effect is the line that says so; no quote is asked,
    nothing is sent, the world and the bot are as before, and so is the
    retry counter of the ultra-optimised bot, which has spent no attempt
    beyond the one that sees the zero. *)
Theorem C10_amount_below_one_base_unit :
  (forall (World : Type) (C : Polygon.Chain World) token_in token_out amount
          decimals_in decimals_out slippage scale (s : Polygon.St),
     Py.float_of_int (10 ^ Z.of_N decimals_in) = Some scale ->
     Py.int_of_float (PrimFloat.mul amount scale) = Some 0 ->
     Polygon.swap_tokens token_in token_out amount decimals_in decimals_out slippage s
     = (Val None,
        {| bot := bot s; world := world s;
           output := output s ++ [Polygon.Printed Polygon.AmountTooSmall] |}))
  /\
  (forall (World : Type) (G : SolanaUltra.Gateway World) input_mint output_mint
          amount slippage (s : SolanaUltra.St),
     Py.int_of_float (PrimFloat.mul amount 1e6) = Some 0 ->
     SolanaUltra.swap_tokens_jupiter input_mint output_mint amount slippage s
     = (Val None,
        {| bot := bot s; world := world s;
           output := output s ++
                     if 0 <? SolanaUltra.max_retries (bot s)
                     then [SolanaUltra.Printed SolanaUltra.AmountTooSmall]
                     else [] |})).
Proof.
  split.
  - intros World C token_in token_out amount decimals_in decimals_out slippage scale
           s scaled zero.
    unfold Polygon.swap_tokens, try_except, bind, must.
    rewrite scaled. cbn beta iota delta [ret]. rewrite zero. reflexivity.
  - intros World G input_mint output_mint amount slippage s zero.
    unfold SolanaUltra.swap_tokens_jupiter, bind, get.
    destruct (Z.ltb_spec 0 (SolanaUltra.max_retries (bot s))) as [positive|none].
    + destruct (Z.to_nat (SolanaUltra.max_retries (bot s))) as [|remaining] eqn:n;
        [lia|].
      cbn [SolanaUltra.attempts].
      unfold SolanaUltra.attempt_swap, try_except, bind, must.
      rewrite zero. reflexivity.
    + replace (Z.to_nat (SolanaUltra.max_retries (bot s))) with O by lia.
      cbn [SolanaUltra.attempts]. unfold ret. rewrite app_nil_r.
      destruct s. reflexivity.
Qed.

(** C10 at a tenth of a base unit: no call is made, no retry is counted. *)
Lemma C10_witness_tenth_of_a_base_unit :
  (Py.float_of_int (10 ^ Z.of_N 6) = Some 1e6%float /\
   Py.int_of_float (PrimFloat.mul 1e-7 1e6) = Some 0 /\
   Polygon.swap_tokens (H := Scripted.chain Scripted.always 100 1)
     Polygon.USDC_ADDRESS Polygon.USDT_ADDRESS 1e-7 6 6 5 Scripted.polygon_start
   = (Val None,
      {| bot := Polygon.init_bot; world := O;
         output := [Polygon.Printed Polygon.AmountTooSmall] |}))
  /\
  (SolanaUltra.swap_tokens_jupiter
     (H := Scripted.ultra_gateway Scripted.always 100 [PollConfirmed TxNoMeta])
     SolanaUltra.USDC_MINT SolanaUltra.USDCE_MINT 1e-7 50 Scripted.ultra_start
   = (Val None,
      {| bot := SolanaUltra.init_bot 5000; world := O;
         output := [SolanaUltra.Printed SolanaUltra.AmountTooSmall] |})).
Proof.
  assert (scaled : Py.float_of_int (10 ^ Z.of_N 6) = Some 1e6%float)
    by (vm_compute; reflexivity).
  assert (zero : Py.int_of_float (PrimFloat.mul 1e-7 1e6) = Some 0)
    by (vm_compute; reflexivity).
  split; [split; [exact scaled|split; [exact zero|]]|].
  - exact (proj1 C10_amount_below_one_base_unit nat
             (Scripted.chain Scripted.always 100 1)
             Polygon.USDC_ADDRESS Polygon.USDT_ADDRESS 1e-7%float 6%N 6%N 5%float
             1e6%float Scripted.polygon_start scaled zero).
  - exact (proj2 C10_amount_below_one_base_unit nat
             (Scripted.ultra_gateway Scripted.always 100 [PollConfirmed TxNoMeta])
             SolanaUltra.USDC_MINT SolanaUltra.USDCE_MINT 1e-7%float 50
             Scripted.ultra_start zero).
Defined.


(** ** The size of the first leg in fixed-amount mode (C7) *)

(** No float is smaller than itself. *)
Lemma float_lt_irrefl (x : float) : Py.lt x x = false.
Proof.
  unfold Py.lt. rewrite ltb_spec. unfold SFltb, SFcompare.
  destruct (Prim2SF x) as [[|]|[|]| |[|] m e]; try reflexivity.
  all: rewrite Z.compare_refl, ?Pos.compare_cont_refl, ?Pos.compare_refl.
  all: reflexivity.
Qed.

(** [min(fixed, balance)] does not exceed [balance]. *)
Lemma min_le_balance (fixed balance : float) :
  Py.gt (Py.min fixed balance) balance = false.
Proof.
  unfold Py.gt, Py.min. fold (Py.lt balance fixed).
  destruct (Py.lt balance fixed) eqn:less.
  - apply float_lt_irrefl.
  - exact less.
Qed.

(** C7.  In fixed-amount mode the size of the first leg is
    [min(fixed_amount, usdc_balance)], which does not exceed the balance
    just queried; with 10 asked for and a balance of 7 it is 7.  In a
    cycle of the Polygon bot or of the ultra-optimised bot, every swap of
    A into B that is announced has that size, whether it succeeds or not,
    and the record that the cycle appends first, if any, has it as its
    input amount: neither exceeds the balance of A queried at the start
    of the cycle. *)
Theorem C7_fixed_amount_capped_at_balance :
  ((forall fixed balance,
      Py.gt (Polygon.leg1_amount false fixed balance) balance = false) /\
   Polygon.leg1_amount false 10 7 = 7%float /\
   (forall (World : Type) (C : Polygon.Chain World) i fixed (s : Polygon.St)
           evs size,
      output (snd (Polygon.cycle i false fixed s)) = output s ++ evs ->
      In (Polygon.USDC_ADDRESS, Polygon.USDT_ADDRESS, size) (Polygon.announced evs) ->
      exists balance,
        Polygon.balance_seen Polygon.USDC_ADDRESS s = Some balance /\
        size = Py.min fixed balance /\
        Py.gt size balance = false) /\
   forall (World : Type) (C : Polygon.Chain World) i fixed (s : Polygon.St) r1 rest,
     Polygon.transactions (bot (snd (Polygon.cycle i false fixed s)))
     = Polygon.transactions (bot s) ++ r1 :: rest ->
     exists balance,
       Polygon.balance_seen Polygon.USDC_ADDRESS s = Some balance /\
       Polygon.amount_in r1 = Py.min fixed balance /\
       Py.gt (Polygon.amount_in r1) balance = false)
  /\
  ((forall fixed balance,
      Py.gt (SolanaUltra.leg1_amount false fixed balance) balance = false) /\
   SolanaUltra.leg1_amount false 10 7 = 7%float /\
   (forall (World : Type) (G : SolanaUltra.Gateway World) fixed (s : SolanaUltra.St)
           evs size,
      output (snd (SolanaUltra.cycle false fixed s)) = output s ++ evs ->
      In (SolanaUltra.USDC_MINT, SolanaUltra.USDCE_MINT, size)
         (SolanaUltra.announced evs) ->
      size = Py.min fixed (SolanaUltra.balance_seen SolanaUltra.USDC_MINT s) /\
      Py.gt size (SolanaUltra.balance_seen SolanaUltra.USDC_MINT s) = false) /\
   forall (World : Type) (G : SolanaUltra.Gateway World) fixed (s : SolanaUltra.St)
          r1 rest,
     SolanaUltra.transactions (bot (snd (SolanaUltra.cycle false fixed s)))
     = SolanaUltra.transactions (bot s) ++ r1 :: rest ->
     SolanaUltra.amount_in r1
     = Py.min fixed (SolanaUltra.balance_seen SolanaUltra.USDC_MINT s) /\
     Py.gt (SolanaUltra.amount_in r1)
           (SolanaUltra.balance_seen SolanaUltra.USDC_MINT s)
     = false).
Proof.
  split.
  - split; [intros; apply min_le_balance|]. split; [reflexivity|]. split.
    { intros World C i fixed s evs size out said.
      pose proof (PolygonFacts.polygon_cycle_first_size i false fixed s evs size out
                    said) as sized.
      unfold Polygon.first_leg_size in sized.
      destruct (Polygon.balance_seen Polygon.USDC_ADDRESS s) as [balance|];
        [|discriminate sized].
      injection sized as <-. exists balance. split; [reflexivity|].
      split; [reflexivity|]. apply min_le_balance. }
    intros World C i fixed s r1 rest txs.
    assert (size : Polygon.first_leg_size false fixed s
                   = Some (Polygon.amount_in r1)).
    { pose proof (PolygonFacts.polygon_cycle_spec i false fixed s) as ran.
      unfold wp, Polygon.cycle_post in ran.
      destruct ran as (evs & _ & _ & _ & _ & _ & _ & res).
      assert (none : Polygon.transactions (bot (snd (Polygon.cycle i false fixed s)))
                     <> Polygon.transactions (bot s)).
      { intros same.
        rewrite same, <- (app_nil_r (Polygon.transactions (bot s))) in txs at 1.
        apply app_inv_head in txs. discriminate txs. }
      assert (first : forall r1' others,
                 Polygon.transactions (bot (snd (Polygon.cycle i false fixed s)))
                 = Polygon.transactions (bot s) ++ r1' :: others ->
                 r1' = r1).
      { intros r1' others txs'. rewrite txs' in txs. apply app_inv_head in txs.
        injection txs as -> _. reflexivity. }
      destruct (fst (Polygon.cycle i false fixed s)) as [[|]|].
      - destruct res as (_ & _ & _ & r1' & r2 & s1 & txs' & [size _] & _).
        rewrite <- (first _ _ txs'). exact size.
      - destruct res as (_ & _ & [same|(r1' & s1 & txs' & [size _])]);
          [contradiction|].
        rewrite <- (first _ _ txs'). exact size.
      - destruct res as (_ & [(_ & same) | [second | third]]).
        + rewrite same in none. contradiction.
        + destruct second as (r1' & s1 & txs' & _ & [size _] & _).
          rewrite <- (first _ _ txs'). exact size.
        + destruct third as (r1' & r2 & s1 & txs' & _ & [size _] & _).
          rewrite <- (first _ _ txs'). exact size. }
    unfold Polygon.first_leg_size in size.
    destruct (Polygon.balance_seen Polygon.USDC_ADDRESS s) as [balance|];
      [|discriminate size].
    injection size as size. exists balance. split; [reflexivity|].
    rewrite <- size. split; [reflexivity|]. apply min_le_balance.
  - split; [intros; apply min_le_balance|]. split; [reflexivity|]. split.
    { intros World G fixed s evs size out said.
      rewrite (SolanaUltraFacts.ultra_cycle_first_size false fixed s evs size out said).
      split; [reflexivity|]. apply min_le_balance. }
    intros World G fixed s r1 rest txs.
    assert (size : SolanaUltra.amount_in r1
                   = SolanaUltra.leg1_amount false fixed
                       (SolanaUltra.balance_seen SolanaUltra.USDC_MINT s)).
    { destruct (SolanaUltraFacts.ultra_cycle_spec false fixed s) as (_ & _ & res).
      destruct (fst (SolanaUltra.cycle false fixed s)) as [[|]|]; [| |contradiction].
      - destruct res as (r1' & r2 & s1 & txs' & [size _] & _).
        rewrite txs' in txs. apply app_inv_head in txs.
        injection txs as <- _. exact size.
      - destruct res as [same|(r1' & s1 & txs' & [size _])].
        + rewrite same, <- (app_nil_r (SolanaUltra.transactions (bot s))) in txs at 1.
          apply app_inv_head in txs. discriminate txs.
        + rewrite txs' in txs. apply app_inv_head in txs.
          injection txs as <- _. exact size. }
    rewrite size. split; [reflexivity|]. apply min_le_balance.
Qed.

(** C7 with 10 asked for and 7 held.  On a gateway that confirms every
    swap the first record of the cycle has the input amount 7; on a
    gateway that refuses every quote the swap announced is of 7 too. *)
Lemma C7_witness_ten_asked_seven_held :
  (exists r1 rest,
     Polygon.transactions (bot Scripted.capped_cycle) = r1 :: rest /\
     Polygon.amount_in r1 = 7%float /\
     Py.gt (Polygon.amount_in r1) 7 = false)
  /\
  (exists r1 rest,
     SolanaUltra.transactions (bot Scripted.ultra_capped_cycle) = r1 :: rest /\
     SolanaUltra.amount_in r1 = 7%float /\
     Py.gt (SolanaUltra.amount_in r1) 7 = false)
  /\
  (exists evs size,
     output (snd (Polygon.cycle (H := Scripted.chain Scripted.never 7 1) 0 false 10
                    Scripted.polygon_start)) = evs /\
     Polygon.announced evs = [(Polygon.USDC_ADDRESS, Polygon.USDT_ADDRESS, size)] /\
     size = 7%float /\ Py.gt size 7 = false).
Proof.
  split; [|split].
  - destruct (Polygon.transactions (bot Scripted.capped_cycle)) as [|r1 rest] eqn:txs.
    + vm_compute in txs. discriminate txs.
    + exists r1, rest. split; [reflexivity|].
      destruct (proj2 (proj2 (proj2 (proj1 C7_fixed_amount_capped_at_balance))) nat
                  (Scripted.chain Scripted.always 7 1) 0 10%float
                  Scripted.polygon_start r1 rest txs)
        as (balance & seen & size & capped).
      assert (held : Polygon.balance_seen (H := Scripted.chain Scripted.always 7 1)
                       Polygon.USDC_ADDRESS Scripted.polygon_start = Some 7%float)
        by reflexivity.
      rewrite held in seen. injection seen as <-.
      split; [exact size|exact capped].
  - destruct (SolanaUltra.transactions (bot Scripted.ultra_capped_cycle))
      as [|r1 rest] eqn:txs.
    + vm_compute in txs. discriminate txs.
    + exists r1, rest. split; [reflexivity|].
      exact (proj2 (proj2 (proj2 (proj2 C7_fixed_amount_capped_at_balance))) nat
               (Scripted.ultra_gateway Scripted.always 7 [PollConfirmed TxNoMeta])
               10%float Scripted.ultra_start r1 rest txs).
  - eexists. eexists. split; [reflexivity|].
    assert (said : Polygon.announced
                     (output (snd (Polygon.cycle
                                     (H := Scripted.chain Scripted.never 7 1)
                                     0 false 10 Scripted.polygon_start)))
                   = [(Polygon.USDC_ADDRESS, Polygon.USDT_ADDRESS,
                       Py.min 10 7)])
      by (vm_compute; reflexivity).
    split; [exact said|].
    assert (held : Polygon.balance_seen (H := Scripted.chain Scripted.never 7 1)
                     Polygon.USDC_ADDRESS Scripted.polygon_start = Some 7%float)
      by reflexivity.
    destruct (proj1 (proj2 (proj2 (proj1 C7_fixed_amount_capped_at_balance))) nat
                (Scripted.chain Scripted.never 7 1) 0 10%float Scripted.polygon_start
                (output (snd (Polygon.cycle (H := Scripted.chain Scripted.never 7 1)
                                0 false 10 Scripted.polygon_start)))
                (Py.min 10 7) (eq_sym (app_nil_l _)))
      as (balance & seen & size & capped).
    + rewrite said. left. reflexivity.
    + rewrite held in seen. injection seen as <-.
      split; [exact size|exact capped].
Defined.

(** ** The size of the second leg (C6) *)

(** C6 as stated fails for the Polygon bot: in full-balance mode, with
    a balance of 100 of A at the start of the cycle and a balance of 100
    of B after the first swap, the first leg swaps 100 and the second 99:
    no factor is common to both. *)
Lemma C6_counterexample_polygon_unscaled_first_leg :
  Polygon.balance_seen (H := Scripted.chain Scripted.always 100 1)
    Polygon.USDC_ADDRESS Scripted.polygon_start = Some 100%float /\
  (forall s, Polygon.balance_seen (H := Scripted.chain Scripted.always 100 1)
               Polygon.USDT_ADDRESS s = Some 100%float) /\
  map Polygon.amount_in (Polygon.transactions (bot Scripted.full_cycle))
  = [100%float; 99%float] /\
  ~ exists factor : float,
      PrimFloat.mul 100 factor = 100%float /\ PrimFloat.mul 100 factor = 99%float.
Proof.
  split; [reflexivity|]. split; [reflexivity|]. split; [vm_compute; reflexivity|].
  intros (factor & one & other). rewrite one in other.
  apply (f_equal (fun x => PrimFloat.eqb x 100)) in other.
  vm_compute in other. discriminate other.
Qed.

(** C6, as the code has it.  A swap of B into A that a cycle announces,
    whether it succeeds or not, comes after the first swap has returned,
    and its size is the balance of B queried then (in the Polygon bot,
    after the pause of 3 seconds) times the factor of the bot: 0.99 in the
    Polygon bot, 0.999 in the ultra-optimised bot.  In full-balance mode
    the ultra-optimised bot applies its factor to the first leg too; the
    Polygon bot swaps the whole balance of A.  A successful cycle records
    two swaps, of these two sizes. *)
Theorem C6_second_leg_from_fresh_balance :
  ((forall (World : Type) (C : Polygon.Chain World) i full fixed (s : Polygon.St)
           evs size,
      output (snd (Polygon.cycle i full fixed s)) = output s ++ evs ->
      In (Polygon.USDT_ADDRESS, Polygon.USDC_ADDRESS, size) (Polygon.announced evs) ->
      exists result s1 balance,
        Polygon.first_leg_returned full fixed s result s1 /\
        Polygon.balance_seen Polygon.USDT_ADDRESS (snd (Polygon.sleep 3 s1))
        = Some balance /\
        size = PrimFloat.mul balance 0.99) /\
   (forall (World : Type) (C : Polygon.Chain World) i fixed (s : Polygon.St)
           evs size,
      output (snd (Polygon.cycle i true fixed s)) = output s ++ evs ->
      In (Polygon.USDC_ADDRESS, Polygon.USDT_ADDRESS, size) (Polygon.announced evs) ->
      Polygon.balance_seen Polygon.USDC_ADDRESS s = Some size) /\
   forall (World : Type) (C : Polygon.Chain World) i full fixed (s : Polygon.St),
     fst (Polygon.cycle i full fixed s) = Val true ->
     exists r1 r2 s1 balance,
       Polygon.transactions (bot (snd (Polygon.cycle i full fixed s)))
       = Polygon.transactions (bot s) ++ [r1; r2] /\
       Polygon.first_leg full fixed s r1 s1 /\
       Polygon.balance_seen Polygon.USDT_ADDRESS (snd (Polygon.sleep 3 s1))
       = Some balance /\
       Polygon.amount_in r2 = PrimFloat.mul balance 0.99 /\
       (full = true ->
        Polygon.balance_seen Polygon.USDC_ADDRESS s = Some (Polygon.amount_in r1)))
  /\
  ((forall (World : Type) (G : SolanaUltra.Gateway World) full fixed
           (s : SolanaUltra.St) evs size,
      output (snd (SolanaUltra.cycle full fixed s)) = output s ++ evs ->
      In (SolanaUltra.USDCE_MINT, SolanaUltra.USDC_MINT, size)
         (SolanaUltra.announced evs) ->
      exists result s1,
        SolanaUltra.first_leg_returned full fixed s result s1 /\
        size = PrimFloat.mul (SolanaUltra.balance_seen SolanaUltra.USDCE_MINT s1)
                             0.999) /\
   (forall (World : Type) (G : SolanaUltra.Gateway World) fixed (s : SolanaUltra.St)
           evs size,
      output (snd (SolanaUltra.cycle true fixed s)) = output s ++ evs ->
      In (SolanaUltra.USDC_MINT, SolanaUltra.USDCE_MINT, size)
         (SolanaUltra.announced evs) ->
      size = PrimFloat.mul (SolanaUltra.balance_seen SolanaUltra.USDC_MINT s) 0.999) /\
   forall (World : Type) (G : SolanaUltra.Gateway World) full fixed
          (s : SolanaUltra.St),
     fst (SolanaUltra.cycle full fixed s) = Val true ->
     exists r1 r2 s1,
       SolanaUltra.transactions (bot (snd (SolanaUltra.cycle full fixed s)))
       = SolanaUltra.transactions (bot s) ++ [r1; r2] /\
       SolanaUltra.first_leg full fixed s r1 s1 /\
       SolanaUltra.amount_in r2
       = PrimFloat.mul (SolanaUltra.balance_seen SolanaUltra.USDCE_MINT s1) 0.999 /\
       (full = true ->
        SolanaUltra.amount_in r1
        = PrimFloat.mul (SolanaUltra.balance_seen SolanaUltra.USDC_MINT s) 0.999)).
Proof.
  split.
  - split; [|split].
    + intros World C i full fixed s evs size out said.
      destruct (PolygonFacts.polygon_cycle_second_size i full fixed s evs size out
                  said) as (result & s1 & returned & sized).
      unfold Polygon.second_leg_size in sized.
      destruct (Polygon.balance_seen Polygon.USDT_ADDRESS (snd (Polygon.sleep 3 s1)))
        as [balance|] eqn:seen; [|discriminate sized].
      injection sized as <-. exists result, s1, balance.
      split; [exact returned|]. split; [exact seen|reflexivity].
    + intros World C i fixed s evs size out said.
      pose proof (PolygonFacts.polygon_cycle_first_size i true fixed s evs size out
                    said) as sized.
      unfold Polygon.first_leg_size in sized.
      destruct (Polygon.balance_seen Polygon.USDC_ADDRESS s) as [balance|];
        [|discriminate sized].
      exact sized.
    + intros World C i full fixed s success.
      pose proof (PolygonFacts.polygon_cycle_spec i full fixed s) as ran.
      unfold wp, Polygon.cycle_post in ran.
      destruct ran as (evs & _ & _ & _ & _ & _ & _ & res).
      rewrite success in res.
      destruct res as (_ & _ & _ & r1 & r2 & s1 & txs & leg1 & leg2).
      unfold Polygon.second_leg, Polygon.second_leg_size in leg2.
      destruct (Polygon.balance_seen Polygon.USDT_ADDRESS (snd (Polygon.sleep 3 s1)))
        as [balance|] eqn:seen; [|discriminate leg2].
      injection leg2 as sized.
      exists r1, r2, s1, balance. split; [exact txs|]. split; [exact leg1|].
      split; [exact seen|]. split; [symmetry; exact sized|].
      intros ->. destruct leg1 as (sized1 & _).
      unfold Polygon.first_leg_size in sized1.
      destruct (Polygon.balance_seen Polygon.USDC_ADDRESS s) as [held|];
        [|discriminate sized1].
      exact sized1.
  - split; [|split].
    + intros World G full fixed s evs size out said.
      exact (SolanaUltraFacts.ultra_cycle_second_size full fixed s evs size out said).
    + intros World G fixed s evs size out said.
      exact (SolanaUltraFacts.ultra_cycle_first_size true fixed s evs size out said).
    + intros World G full fixed s success.
      destruct (SolanaUltraFacts.ultra_cycle_spec full fixed s) as (_ & _ & res).
      rewrite success in res.
      destruct res as (r1 & r2 & s1 & txs & leg1 & leg2).
      exists r1, r2, s1. split; [exact txs|]. split; [exact leg1|].
      split; [exact leg2|]. intros ->. apply leg1.
Qed.

(** C6 on a successful cycle of each bot in full-balance mode, with 100
    of each token held: the Polygon bot swaps 100 and then 99, the
    ultra-optimised bot 100 * 0.999 both times. *)
Lemma C6_witness_full_balance_cycles :
  (fst (Polygon.cycle (H := Scripted.chain Scripted.always 100 1) 0 true 50
          Scripted.polygon_start) = Val true /\
   exists r1 r2,
     Polygon.transactions (bot Scripted.full_cycle) = [r1; r2] /\
     Polygon.amount_in r1 = 100%float /\
     Polygon.amount_in r2 = 99%float)
  /\
  (fst (SolanaUltra.cycle
          (H := Scripted.ultra_gateway Scripted.always 100 [PollConfirmed TxNoMeta])
          true 50 Scripted.ultra_start) = Val true /\
   exists r1 r2,
     SolanaUltra.transactions (bot Scripted.ultra_full_cycle) = [r1; r2] /\
     SolanaUltra.amount_in r1 = PrimFloat.mul 100 0.999 /\
     SolanaUltra.amount_in r2 = PrimFloat.mul 100 0.999).
Proof.
  split.
  - assert (success : fst (Polygon.cycle (H := Scripted.chain Scripted.always 100 1)
                             0 true 50 Scripted.polygon_start) = Val true)
      by (vm_compute; reflexivity).
    split; [exact success|].
    destruct (proj2 (proj2 (proj1 C6_second_leg_from_fresh_balance)) nat
                (Scripted.chain Scripted.always 100 1) 0 true 50%float
                Scripted.polygon_start success)
      as (r1 & r2 & s1 & balance & txs & _ & seen & scaled & whole).
    assert (held : forall s,
               Polygon.balance_seen (H := Scripted.chain Scripted.always 100 1)
                 Polygon.USDT_ADDRESS s = Some 100%float)
      by reflexivity.
    rewrite held in seen. injection seen as <-.
    pose proof (whole eq_refl) as first.
    assert (held' : Polygon.balance_seen (H := Scripted.chain Scripted.always 100 1)
                      Polygon.USDC_ADDRESS Scripted.polygon_start = Some 100%float)
      by reflexivity.
    rewrite held' in first. injection first as first.
    exists r1, r2. split; [exact txs|]. split; [symmetry; exact first|].
    exact scaled.
  - assert (success : fst (SolanaUltra.cycle
                             (H := Scripted.ultra_gateway Scripted.always 100
                                     [PollConfirmed TxNoMeta])
                             true 50 Scripted.ultra_start) = Val true)
      by (vm_compute; reflexivity).
    split; [exact success|].
    destruct (proj2 (proj2 (proj2 C6_second_leg_from_fresh_balance)) nat
                (Scripted.ultra_gateway Scripted.always 100 [PollConfirmed TxNoMeta])
                true 50%float Scripted.ultra_start success)
      as (r1 & r2 & s1 & txs & _ & scaled & scaled1).
    exists r1, r2. split; [exact txs|]. split; [exact (scaled1 eq_refl)|].
    exact scaled.
Defined.

(** ** The bounded retry of the ultra-optimised bot (C4) *)

(** C4.  [__init__] sets [max_retries] to 3 and [retry_delay] to 0.5,
    and nothing that the bot does to itself changes them.  With
    [max_retries] at 3, a swap call of the ultra-optimised bot never
    raises; it counts [k] retries, at most 2; it sleeps exactly [k] times,
    each time for [retry_delay], so once between two attempts; and it asks
    for [k + 1] quotes and sends [k + 1] transactions at most, so at most
    3 of each.  When every attempt raises, the call returns [None] after
    two counted retries.  When the first two attempts raise and the third
    returns a swap, the call returns that swap and [retry_count] has grown
    by exactly 2. *)
Theorem C4_at_most_three_attempts :
  (forall priority_fee b,
     SolanaUltra.grows (SolanaUltra.init_bot priority_fee) b ->
     SolanaUltra.max_retries b = 3 /\ SolanaUltra.retry_delay b = 0.5%float)
  /\
  forall (World : Type) (G : SolanaUltra.Gateway World) input_mint output_mint
         amount slippage (s : SolanaUltra.St),
    SolanaUltra.max_retries (bot s) = 3 ->
    (fst (SolanaUltra.swap_tokens_jupiter input_mint output_mint amount slippage s)
     <> Raise /\
     exists evs k,
       output (snd (SolanaUltra.swap_tokens_jupiter input_mint output_mint amount
                                                    slippage s))
       = output s ++ evs /\
       (k <= 2)%nat /\
       SolanaUltra.retry_count
         (bot (snd (SolanaUltra.swap_tokens_jupiter input_mint output_mint amount
                                                    slippage s)))
       = SolanaUltra.retry_count (bot s) + Z.of_nat k /\
       SolanaUltra.sleeps evs = repeat (SolanaUltra.retry_delay (bot s)) k /\
       count SolanaUltra.quote_call evs <= Z.of_nat k + 1 /\
       count SolanaUltra.quote_call evs <= 3 /\
       count SolanaUltra.send_call evs <= Z.of_nat k + 1 /\
       count SolanaUltra.send_call evs <= 3)
    /\
    ((forall attempt_index s0,
        fst (SolanaUltra.attempt_swap attempt_index input_mint output_mint amount
                                      slippage s0) = Raise) ->
     fst (SolanaUltra.swap_tokens_jupiter input_mint output_mint amount slippage s)
     = Val None /\
     SolanaUltra.retry_count
       (bot (snd (SolanaUltra.swap_tokens_jupiter input_mint output_mint amount
                                                  slippage s)))
     = SolanaUltra.retry_count (bot s) + 2)
    /\
    (forall result,
       fst (SolanaUltra.attempt_swap 0 input_mint output_mint amount slippage s)
       = Raise ->
       fst (SolanaUltra.attempt_swap 1 input_mint output_mint amount slippage
              (SolanaUltra.after_failure 0
                 (snd (SolanaUltra.attempt_swap 0 input_mint output_mint amount
                                                slippage s))))
       = Raise ->
       fst (SolanaUltra.attempt_swap 2 input_mint output_mint amount slippage
              (SolanaUltra.after_failure 1
                 (snd (SolanaUltra.attempt_swap 1 input_mint output_mint amount
                         slippage
                         (SolanaUltra.after_failure 0
                            (snd (SolanaUltra.attempt_swap 0 input_mint output_mint
                                                           amount slippage s)))))))
       = Val (Some result) ->
       fst (SolanaUltra.swap_tokens_jupiter input_mint output_mint amount slippage s)
       = Val (Some result) /\
       SolanaUltra.retry_count
         (bot (snd (SolanaUltra.swap_tokens_jupiter input_mint output_mint amount
                                                    slippage s)))
       = SolanaUltra.retry_count (bot s) + 2).
Proof.
  split.
  { intros priority_fee b grown.
    exact (SolanaUltraFacts.ultra_grows_policy grown). }
  intros World G input_mint output_mint amount slippage s three.
  split; [|split].
  - destruct (SolanaUltraFacts.ultra_swap_tokens_jupiter_spec input_mint output_mint
                amount slippage s)
      as (evs & k & out & le_k & bound & slept & _ & quotes & sends & res).
    rewrite three in *. change (Z.to_nat 3) with 3%nat in *.
    destruct (SolanaUltraFacts.ultra_retried_stats k (bot s))
      as (_ & _ & _ & _ & _ & _ & retries).
    split.
    { destruct (fst (SolanaUltra.swap_tokens_jupiter _ _ _ _ s)) as [[?|]|];
        [discriminate|discriminate|contradiction]. }
    exists evs, k. split; [exact out|]. split; [lia|]. split.
    { destruct (fst (SolanaUltra.swap_tokens_jupiter _ _ _ _ s))
        as [[[[sig o] fee]|]|]; [| |contradiction].
      - destruct res as (priority & ->). exact retries.
      - rewrite res. exact retries. }
    split; [exact slept|]. repeat split; lia.
  - intros failing.
    destruct (SolanaUltra.attempt_swap 0 input_mint output_mint amount slippage s)
      as [o1 s1] eqn:first.
    pose proof (failing 0 s) as raised1. rewrite first in raised1.
    cbn [fst] in raised1. subst o1.
    destruct (SolanaUltra.attempt_swap 1 input_mint output_mint amount slippage
                (SolanaUltra.after_failure 0 s1)) as [o2 s2] eqn:second.
    pose proof (failing 1 (SolanaUltra.after_failure 0 s1)) as raised2.
    rewrite second in raised2. cbn [fst] in raised2. subst o2.
    destruct (SolanaUltraFacts.ultra_two_failures _ _ _ _ _ three first second)
      as (-> & three' & retries).
    destruct (SolanaUltra.attempt_swap 2 input_mint output_mint amount slippage
                (SolanaUltra.after_failure 1 s2)) as [o3 s3] eqn:third.
    pose proof (failing 2 (SolanaUltra.after_failure 1 s2)) as raised3.
    rewrite third in raised3. cbn [fst] in raised3. subst o3.
    pose proof (SolanaUltraFacts.ultra_attempt_raised_bot _ _ _ _ _ _ third) as bot3.
    erewrite SolanaUltraFacts.ultra_attempts_raised; [|exact third].
    rewrite bot3, three'. change (2 <? 3 - 1) with false. cbn iota. cbn [fst snd].
    split; [reflexivity|].
    rewrite SolanaUltraFacts.ultra_after_failure_give_up; rewrite bot3; [|lia].
    exact retries.
  - intros result raised1 raised2 returned3.
    destruct (SolanaUltra.attempt_swap 0 input_mint output_mint amount slippage s)
      as [o1 s1] eqn:first.
    cbn [fst snd] in *. subst o1.
    destruct (SolanaUltra.attempt_swap 1 input_mint output_mint amount slippage
                (SolanaUltra.after_failure 0 s1)) as [o2 s2] eqn:second.
    cbn [fst snd] in *. subst o2.
    destruct (SolanaUltraFacts.ultra_two_failures _ _ _ _ _ three first second)
      as (-> & three' & retries).
    destruct (SolanaUltra.attempt_swap 2 input_mint output_mint amount slippage
                (SolanaUltra.after_failure 1 s2)) as [o3 s3] eqn:third.
    cbn [fst] in returned3. subst o3.
    erewrite SolanaUltraFacts.ultra_attempts_returned; [|exact third].
    cbn [fst snd]. split; [reflexivity|].
    destruct (wp_run _ _ _ (SolanaUltraFacts.ultra_attempt_swap_spec 2 input_mint
                              output_mint amount slippage
                              (SolanaUltra.after_failure 1 s2)) third)
      as (evs & _ & _ & _ & _ & _ & res).
    destruct result as [[sig o] fee]. destruct res as (priority & ->).
    exact retries.
Qed.

(** C4 on a gateway whose first two quotes fail and whose third swap is
    confirmed: the call returns the swap after two counted retries. *)
Lemma C4_witness_third_attempt_succeeds :
  SolanaUltra.max_retries (bot Scripted.ultra_start) = 3 /\
  fst (SolanaUltra.swap_tokens_jupiter (H := Scripted.flaky)
         SolanaUltra.USDC_MINT SolanaUltra.USDCE_MINT 5 50 Scripted.ultra_start)
  = Val (Some ("5sig"%string, 5%float, PrimFloat.div 5000 1e9)) /\
  SolanaUltra.retry_count
    (bot (snd (SolanaUltra.swap_tokens_jupiter (H := Scripted.flaky)
                 SolanaUltra.USDC_MINT SolanaUltra.USDCE_MINT 5 50
                 Scripted.ultra_start)))
  = SolanaUltra.retry_count (bot Scripted.ultra_start) + 2.
Proof.
  assert (three : SolanaUltra.max_retries (bot Scripted.ultra_start) = 3)
    by reflexivity.
  split; [exact three|].
  apply (proj2 (proj2 (proj2 C4_at_most_three_attempts nat Scripted.flaky
                         SolanaUltra.USDC_MINT SolanaUltra.USDCE_MINT 5%float 50
                         Scripted.ultra_start three))).
  - vm_compute. reflexivity.
  - vm_compute. reflexivity.
  - vm_compute. reflexivity.
Defined.

(** ** A confirmation that does not come in time (C2) *)

(** C2 as stated fails for the original Solana bot: the swap is quoted,
    sent and accepted with the signature ["5sig"], the two polls of the
    wait show no confirmation, the line about the timeout is printed, and
    the call returns a tuple, with the fee 0.000005, not [None]; nothing is
    recorded. *)
Lemma C2_counterexample_solana_timeout_returns_tuple :
  fst (Solana.confirmation_polls
         (Gateway := Scripted.gateway Scripted.always 100 [PollPending; PollPending])
         "5sig" 30 0.5 1%nat)
  = [PollPending; PollPending] /\
  In (Solana.Printed (Solana.ConfirmationTimeout "5sig"))
     (output (snd Scripted.timed_out_swap)) /\
  fst Scripted.timed_out_swap = Val (Some ("5sig"%string, 5%float, 0.000005%float)) /\
  fst Scripted.timed_out_swap <> Val None /\
  bot (snd Scripted.timed_out_swap) = Solana.init_bot.
Proof.
  split; [reflexivity|]. split; [vm_compute; auto 10|].
  split; [vm_compute; reflexivity|]. split; [vm_compute; discriminate|].
  vm_compute. reflexivity.
Qed.

(** C2, as the code has it.  In the ultra-optimised bot an attempt
    that is quoted, sent and accepted, and whose polls show no
    confirmation within the wait, raises, the bot being as before; it is
    retried like any failed attempt: with [max_retries] at 3 the call
    asks for three quotes, sends three transactions and waits three
    times, counts two retries and sleeps on each, and returns [None],
    nothing being recorded.  Whatever the gateway takes, the call returns
    [None] when it never confirms; and whenever the call returns a tuple,
    the swap was confirmed and is recorded.  In the original Solana bot a
    swap that is quoted, sent and accepted with a signature, and whose
    polls show no confirmation within the wait, prints that the
    confirmation timed out and returns the tuple of that signature, of
    the quoted amount and of the fee 0.000005, and records nothing; that
    line is printed in no other case. *)
Theorem C2_unconfirmed_swap :
  (forall (World : Type) (G : SolanaUltra.Gateway World) input_mint output_mint
          amount slippage (s : SolanaUltra.St),
     (forall lamports,
        SolanaUltra.accepts input_mint output_mint lamports slippage ->
        SolanaUltra.never_confirms ->
        Py.int_of_float (PrimFloat.mul amount 1e6) = Some lamports ->
        lamports <> 0 ->
        (forall attempt_index (s0 : SolanaUltra.St),
           exists sig w,
             SolanaUltra.attempt_swap attempt_index input_mint output_mint amount
                                      slippage s0
             = (Raise,
                {| bot := bot s0; world := w;
                   output :=
                     output s0 ++
                     [SolanaUltra.Called
                        (SolanaUltra.CQuote input_mint output_mint lamports);
                      SolanaUltra.Called SolanaUltra.CSwapTransaction;
                      SolanaUltra.Called SolanaUltra.CSendRaw;
                      SolanaUltra.Called (SolanaUltra.CAwaitConfirmation sig)] |}))
        /\
        (SolanaUltra.max_retries (bot s) = 3 ->
         fst (SolanaUltra.swap_tokens_jupiter input_mint output_mint amount slippage s)
         = Val None /\
         SolanaUltra.retry_count
           (bot (snd (SolanaUltra.swap_tokens_jupiter input_mint output_mint amount
                                                      slippage s)))
         = SolanaUltra.retry_count (bot s) + 2 /\
         SolanaUltra.transaction_count
           (bot (snd (SolanaUltra.swap_tokens_jupiter input_mint output_mint amount
                                                      slippage s)))
         = SolanaUltra.transaction_count (bot s) /\
         SolanaUltra.transactions
           (bot (snd (SolanaUltra.swap_tokens_jupiter input_mint output_mint amount
                                                      slippage s)))
         = SolanaUltra.transactions (bot s) /\
         exists evs,
           output (snd (SolanaUltra.swap_tokens_jupiter input_mint output_mint amount
                                                        slippage s))
           = output s ++ evs /\
           count SolanaUltra.quote_call evs = 3 /\
           count SolanaUltra.send_call evs = 3 /\
           count SolanaUltra.wait_call evs = 3 /\
           SolanaUltra.sleeps evs
           = [SolanaUltra.retry_delay (bot s); SolanaUltra.retry_delay (bot s)]))
     /\
     (SolanaUltra.never_confirms ->
      fst (SolanaUltra.swap_tokens_jupiter input_mint output_mint amount slippage s)
      = Val None) /\
     (forall sig out fee,
        fst (SolanaUltra.swap_tokens_jupiter input_mint output_mint amount slippage s)
        = Val (Some (sig, out, fee)) ->
        SolanaUltra.transaction_count
          (bot (snd (SolanaUltra.swap_tokens_jupiter input_mint output_mint amount
                                                     slippage s)))
        = SolanaUltra.transaction_count (bot s) + 1 /\
        exists r,
          SolanaUltra.transactions
            (bot (snd (SolanaUltra.swap_tokens_jupiter input_mint output_mint amount
                                                       slippage s)))
          = SolanaUltra.transactions (bot s) ++ [r] /\
          SolanaUltra.signature r = sig /\ SolanaUltra.amount_in r = amount))
  /\
  (forall (World : Type) (G : Solana.Gateway World) input_mint output_mint amount
          slippage (s : Solana.St),
     (forall lamports quoted expected_out w1 tx w2 sig w3 polls w4,
        Py.int_of_float (PrimFloat.mul amount 1e6) = Some lamports ->
        lamports <> 0 ->
        Solana.jupiter_quote input_mint output_mint lamports slippage (world s)
        = (Some quoted, w1) ->
        Py.truediv_int_float quoted 1e6 = Some expected_out ->
        Solana.jupiter_swap_transaction w1 = (Some tx, w2) ->
        Solana.send_raw_transaction tx w2 = (SendSignature sig, w3) ->
        Solana.confirmation_polls sig 30 0.5 w3 = (polls, w4) ->
        forallb Solana.pending polls = true ->
        Solana.swap_tokens_jupiter input_mint output_mint amount slippage s
        = (Val (Some (sig, expected_out, 0.000005%float)),
           {| bot := bot s; world := w4;
              output :=
                output s ++
                [Solana.Called (Solana.CQuote input_mint output_mint lamports);
                 Solana.Called Solana.CSwapTransaction;
                 Solana.Called Solana.CSendRaw;
                 Solana.Called (Solana.CAwaitConfirmation sig);
                 Solana.Printed (Solana.ConfirmationTimeout sig)] |}))
     /\
     (forall sig evs,
        output (snd (Solana.swap_tokens_jupiter input_mint output_mint amount
                                                slippage s))
        = output s ++ evs ->
        In (Solana.Printed (Solana.ConfirmationTimeout sig)) evs ->
        (exists out,
           fst (Solana.swap_tokens_jupiter input_mint output_mint amount slippage s)
           = Val (Some (sig, out, 0.000005%float))) /\
        bot (snd (Solana.swap_tokens_jupiter input_mint output_mint amount slippage s))
        = bot s)).
Proof.
  split.
  - intros World G input_mint output_mint amount slippage s. split; [|split].
    + intros lamports taken silent converted nonzero. split.
      { intros attempt_index s0.
        exact (SolanaUltraFacts.ultra_attempt_timed_out attempt_index amount s0
                 taken silent converted nonzero). }
      intros three.
      destruct (SolanaUltraFacts.ultra_attempts_timed_out amount taken silent
                  converted nonzero 2 0 s) as (none & same & evs & out & rest).
      { rewrite three. reflexivity. }
      unfold SolanaUltra.swap_tokens_jupiter, bind, get. cbn beta iota.
      rewrite three. change (Z.to_nat 3) with 3%nat.
      split; [exact none|]. rewrite same.
      destruct (SolanaUltraFacts.ultra_retried_stats 2 (bot s))
        as (_ & _ & _ & tc & txs & _ & retries).
      split; [exact retries|]. split; [exact tc|]. split; [exact txs|].
      exists evs. split; [exact out|]. exact rest.
    + intros silent. unfold SolanaUltra.swap_tokens_jupiter, bind, get.
      apply SolanaUltraFacts.ultra_attempts_unconfirmed. exact silent.
    + intros sig out fee returned.
      destruct (SolanaUltraFacts.ultra_swap_tokens_jupiter_spec input_mint output_mint
                  amount slippage s) as (evs & k & _ & _ & _ & _ & _ & _ & _ & res).
      rewrite returned in res. destruct res as (priority & ->).
      destruct (SolanaUltraFacts.ultra_retried_stats k (bot s))
        as (_ & _ & _ & tc & txs & _).
      cbn [SolanaUltra.record_swap SolanaUltra.transaction_count
           SolanaUltra.transactions].
      rewrite tc, txs. split; [reflexivity|].
      eexists. split; [reflexivity|]. split; reflexivity.
  - intros World G input_mint output_mint amount slippage s. split.
    { intros lamports quoted expected_out w1 tx w2 sig w3 polls w4.
      apply SolanaFacts.solana_swap_timed_out. }
    intros sig evs out printed.
    destruct (SolanaFacts.solana_swap_tokens_jupiter_spec input_mint output_mint
                amount slippage s) as (evs0 & out0 & res).
    rewrite out0 in out. apply app_inv_head in out. subst evs0.
    assert (is_timeout : Solana.timed_out
                           (Solana.Printed (Solana.ConfirmationTimeout sig)) = true)
      by reflexivity.
    destruct (fst (Solana.swap_tokens_jupiter _ _ _ _ s))
      as [[[[sig0 o] fee]|]|]; [| |contradiction].
    + destruct res as [[none _]|(same & -> & evs' & -> & none)].
      * rewrite (count_zero_In _ _ _ none printed) in is_timeout. discriminate.
      * apply in_app_or in printed. destruct printed as [inside|[last|[]]].
        -- rewrite (count_zero_In _ _ _ none inside) in is_timeout. discriminate.
        -- injection last as ->. split; [|exact same]. exists o. reflexivity.
    + destruct res as [_ none].
      rewrite (count_zero_In _ _ _ none printed) in is_timeout. discriminate.
Qed.

(** C2 on gateways that accept what is sent and confirm nothing: the
    ultra-optimised bot makes its three attempts, counts two retries and
    returns [None]; the original bot returns the tuple. *)
Lemma C2_witness_silent_gateways :
  (SolanaUltra.accepts (H := Scripted.silent)
     SolanaUltra.USDC_MINT SolanaUltra.USDCE_MINT 5000000 50 /\
   SolanaUltra.never_confirms (H := Scripted.silent) /\
   fst (SolanaUltra.swap_tokens_jupiter (H := Scripted.silent)
          SolanaUltra.USDC_MINT SolanaUltra.USDCE_MINT 5 50 Scripted.ultra_start)
   = Val None /\
   SolanaUltra.retry_count
     (bot (snd (SolanaUltra.swap_tokens_jupiter (H := Scripted.silent)
                  SolanaUltra.USDC_MINT SolanaUltra.USDCE_MINT 5 50
                  Scripted.ultra_start)))
   = 2)
  /\
  Scripted.timed_out_swap
  = (Val (Some ("5sig"%string, 5%float, 0.000005%float)),
     {| bot := Solana.init_bot; world := 1%nat;
        output :=
          [Solana.Called (Solana.CQuote Solana.USDC_MINT Solana.USDT_MINT 5000000);
           Solana.Called Solana.CSwapTransaction;
           Solana.Called Solana.CSendRaw;
           Solana.Called (Solana.CAwaitConfirmation "5sig");
           Solana.Printed (Solana.ConfirmationTimeout "5sig")] |}).
Proof.
  split.
  - assert (taken : SolanaUltra.accepts (H := Scripted.silent)
                      SolanaUltra.USDC_MINT SolanaUltra.USDCE_MINT 5000000 50).
    { split; [|split].
      - intros w. exists 5000000, 5%float. split; [reflexivity|].
        vm_compute. reflexivity.
      - intros fee w. exists "tx"%string. reflexivity.
      - intros tx w. exists "5sig"%string. reflexivity. }
    assert (silent : SolanaUltra.never_confirms (H := Scripted.silent))
      by (intros sig timeout pause w; reflexivity).
    assert (converted : Py.int_of_float (PrimFloat.mul 5 1e6) = Some 5000000)
      by (vm_compute; reflexivity).
    assert (nonzero : 5000000 <> 0) by discriminate.
    split; [exact taken|]. split; [exact silent|].
    destruct (proj2 (proj1 (proj1 C2_unconfirmed_swap nat Scripted.silent
                              SolanaUltra.USDC_MINT SolanaUltra.USDCE_MINT 5%float 50
                              Scripted.ultra_start)
                       5000000 taken silent converted nonzero) eq_refl)
      as (none & retries & _).
    split; [exact none|exact retries].
  - exact (proj1 (proj2 C2_unconfirmed_swap nat
                    (Scripted.gateway Scripted.always 100 [PollPending; PollPending])
                    Solana.USDC_MINT Solana.USDT_MINT 5%float 50 Scripted.solana_start)
             5000000 5000000 5%float 1%nat "tx"%string 1%nat "5sig"%string 1%nat
             [PollPending; PollPending] 1%nat
             ltac:(vm_compute; reflexivity) ltac:(discriminate)
             eq_refl ltac:(vm_compute; reflexivity) eq_refl eq_refl eq_refl eq_refl).
Defined.
